(** * Chat Hub attachment storage: a shallow embedding of
      [ChatHubAttachmentService] (chat-hub.attachment.service.ts), of
      [ChatHubKnowledgeItemRepository.createKnowledgeItem] and of
      [ChatHubKnowledgeItemService.createKnowledgeItem].

    The services are asynchronous glue code around injected collaborators
    (the binary-data service, two repositories, a logger).  Every method is
    embedded as a program over the calls it awaits; running a program against
    an environment yields its outcome, the ordered list of the calls it made
    together with their answers, and the environment's final state. *)

From Stdlib Require Import List String Ascii NArith ZArith Bool Lia DecimalString.
From Stdlib Require DecimalN.
Import ListNotations.
Local Open Scope string_scope.
Local Open Scope N_scope.

(** ** Data model *)

(** [ChatAttachment] of the API types: what a client uploads. *)
Module ChatAttachment.
Record t : Type := make { data : string; mimeType : string; fileName : string }.
End ChatAttachment.

(** [IBinaryData]: the stored record.  Optional properties are [option]s.
    [mimeType] is declared a plain string, but records are read back from a
    JSON column and [getDataUrl] guards it with [||], so absence is
    representable here too. *)
Module IBinaryData.
Record t : Type := make {
    data : string;
    mimeType : option string;
    fileName : option string;
    fileSize : option string;
    fileExtension : option string;
    id : option string
  }.
End IBinaryData.

(** The argument of [FileLocation.ofCustom]. *)
Module FileLocation.
Record t : Type := ofCustom {
    sourceType : string;
    pathSegments : list string;
    sourceId : string
  }.
End FileLocation.

(** What [binaryDataService.getMetadata] resolves to (the part that is read). *)
Module Metadata.
Record t : Type := make { fileSize : N }.
End Metadata.

(** A chat message as far as the attachment service reads it. *)
Module ChatHubMessage.
Record t : Type := make { attachments : option (list IBinaryData.t) }.
End ChatHubMessage.

(** The [ChatHubKnowledgeItem] entity (timestamps left out: never read). *)
Module ChatHubKnowledgeItem.
Record t : Type := make {
    id : string;
    type : string;
    ownerId : string;
    attachment : option IBinaryData.t
  }.
End ChatHubKnowledgeItem.

Module User.
Record t : Type := make { id : string }.
End User.

(** Errors that can travel through a rejected promise. *)
Inductive Error : Type :=
| BadRequestError (message : string)
| NotFoundError (message : string)
| OtherError (name message : string).

Inductive Outcome (A : Type) : Type :=
| Returned (a : A)
| Thrown (e : Error).
Arguments Returned {A} a.
Arguments Thrown {A} e.

Inductive LogLevel : Type := LogDebug | LogError.

(** ** JavaScript primitives used by the services *)

(** Truthiness of a string and of an optional string property. *)
Definition truthy (s : string) : bool := negb (s =? "")%string.

Definition truthy_opt (o : option string) : bool :=
  match o with
  | Some s => truthy s
  | None => false
  end.

(** [s.startsWith(p)]. *)
Definition startsWith (s p : string) : bool := String.prefix p s.

(** [s.split(sep)] for a one-character separator: never an empty array. *)
Fixpoint split (sep : ascii) (s : string) : list string :=
  match s with
  | EmptyString => [EmptyString]
  | String c rest =>
      if Ascii.eqb c sep then EmptyString :: split sep rest
      else match split sep rest with
           | [] => [String c EmptyString]
           | seg :: segs => String c seg :: segs
           end
  end.

(** [arr.pop()] as a value: the last element, [undefined] on an empty array. *)
Fixpoint pop {A : Type} (l : list A) : option A :=
  match l with
  | [] => None
  | [x] => Some x
  | _ :: rest => pop rest
  end.

(** Template-literal rendering of a non-negative integer. *)
Definition showN (n : N) : string := NilEmpty.string_of_uint (N.to_uint n).

(** [arr?.[i]] for a JavaScript number used as an index. *)
Definition index {A : Type} (arr : option (list A)) (i : Z) : option A :=
  match arr with
  | None => None
  | Some l => if (i <? 0)%Z then None else nth_error l (Z.to_nat i)
  end.

(** The platform pieces the services import: Node's [Buffer] with the
    binary encoding fixed to [BINARY_ENCODING], readable streams,
    [sanitizeFilename] of the utils package, and the string conversion a
    template literal applies to a caught error. *)
Class Platform : Type := {
  Buffer : Type;
  Stream : Type;
  Buffer_from : string -> Buffer;
  Buffer_length : Buffer -> N;
  Buffer_toString : Buffer -> string;
  sanitizeFilename : string -> option string;
  Error_toString : Error -> string
}.

Section Services.

Context {P : Platform}.

(** ** Awaited calls on the injected collaborators *)

Inductive Call : Type :=
| BinaryDataService_store
    (location : FileLocation.t) (buffer : Buffer) (binaryData : IBinaryData.t)
| BinaryDataService_getMetadata (id : string)
| BinaryDataService_getAsStream (id : string)
| BinaryDataService_getAsBuffer (binaryData : IBinaryData.t)
| BinaryDataService_deleteManyByBinaryDataId (ids : list string)
| MessageRepository_getOneById (messageId sessionId : string)
| KnowledgeItemRepository_findOne (id : string)
| EntityManager_insert (knowledgeItem : ChatHubKnowledgeItem.t)
| EntityManager_findOneOrFail (id : string).

(** What each call resolves to when it does not reject. *)
Definition Resp (c : Call) : Type :=
  match c with
  | BinaryDataService_store _ _ _ => IBinaryData.t
  | BinaryDataService_getMetadata _ => Metadata.t
  | BinaryDataService_getAsStream _ => Stream
  | BinaryDataService_getAsBuffer _ => Buffer
  | BinaryDataService_deleteManyByBinaryDataId _ => unit
  | MessageRepository_getOneById _ _ => option ChatHubMessage.t
  | KnowledgeItemRepository_findOne _ => option ChatHubKnowledgeItem.t
  | EntityManager_insert _ => unit
  | EntityManager_findOneOrFail _ => ChatHubKnowledgeItem.t
  end.

(** ** Programs *)

(** A method body: it returns, throws, awaits a collaborator (which resolves
    or rejects), writes a log line, or draws a fresh uuid. *)
Inductive Prog (A : Type) : Type :=
| Ret (a : A)
| Throw (e : Error)
| Await (c : Call) (k : Outcome (Resp c) -> Prog A)
| Log (level : LogLevel) (message : string) (k : Prog A)
| Uuidv4 (k : string -> Prog A).
Arguments Ret {A} a.
Arguments Throw {A} e.
Arguments Await {A} c k.
Arguments Log {A} level message k.
Arguments Uuidv4 {A} k.

(** [await call]: a rejection is rethrown at the await. *)
Definition await (c : Call) : Prog (Resp c) :=
  Await c (fun r => match r with
                    | Returned x => Ret x
                    | Thrown e => Throw e
                    end).

Fixpoint bind {A B : Type} (p : Prog A) (f : A -> Prog B) : Prog B :=
  match p with
  | Ret a => f a
  | Throw e => Throw e
  | Await c k => Await c (fun r => bind (k r) f)
  | Log l m k => Log l m (bind k f)
  | Uuidv4 k => Uuidv4 (fun u => bind (k u) f)
  end.

(** [try { p } catch (e) { h e }]. *)
Fixpoint try_catch {A : Type} (p : Prog A) (h : Error -> Prog A) : Prog A :=
  match p with
  | Ret a => Ret a
  | Throw e => h e
  | Await c k => Await c (fun r => try_catch (k r) h)
  | Log l m k => Log l m (try_catch k h)
  | Uuidv4 k => Uuidv4 (fun u => try_catch (k u) h)
  end.

Notation "x <- p ;; q" := (bind p (fun x => q))
  (at level 61, p at next level, right associativity).
Notation "p ;;; q" := (bind p (fun _ => q))
  (at level 61, right associativity).

(** ** Environments and runs *)

(** One observable step of a run. *)
Inductive Event : Type :=
| Ev (c : Call) (r : Outcome (Resp c))
| EvLog (level : LogLevel) (message : string)
| EvUuid (u : string).

(** The collaborators, with whatever state [W] they keep. *)
Record Env (W : Type) : Type := {
  answer : forall c : Call, W -> Outcome (Resp c) * W;
  uuid : W -> string * W
}.
Arguments answer {W} e c w.
Arguments uuid {W} e w.

Fixpoint run {W A : Type} (env : Env W) (p : Prog A) (w : W)
  : Outcome A * list Event * W :=
  match p with
  | Ret a => (Returned a, [], w)
  | Throw e => (Thrown e, [], w)
  | Await c k =>
      let '(r, w1) := answer env c w in
      let '(o, t, w2) := run env (k r) w1 in
      (o, Ev c r :: t, w2)
  | Log l m k =>
      let '(o, t, w2) := run env k w in
      (o, EvLog l m :: t, w2)
  | Uuidv4 k =>
      let '(u, w1) := uuid env w in
      let '(o, t, w2) := run env (k u) w1 in
      (o, EvUuid u :: t, w2)
  end.

Definition outcome {W A : Type} (r : Outcome A * list Event * W) : Outcome A :=
  fst (fst r).
Definition events {W A : Type} (r : Outcome A * list Event * W) : list Event :=
  snd (fst r).

(** ** ChatHubAttachmentService *)

Definition maxTotalSizeBytes : N := 200 * 1024 * 1024.
Definition maxKnowledgeItemSizeBytes : N := 50 * 1024 * 1024.

(** [a || b] on an optional string. *)
Definition or_else (a : option string) (b : string) : string :=
  match a with
  | Some s => if truthy s then s else b
  | None => b
  end.

(** The value of an optional string inside [if (x) { ... x ... }]. *)
Definition whenTruthy (o : option string) : option string :=
  match o with
  | Some s => if truthy s then Some s else None
  | None => None
  end.

(** The two shapes a retrieved attachment comes in, tagged by [type]. *)
Inductive AttachmentContent : Type :=
| buffer_ (buffer : Buffer) (fileSize : N)
| stream_ (stream : Stream) (fileSize : N).

Definition processMessageAttachment
    (sessionId messageId : string) (attachment : ChatAttachment.t)
    (buffer : Buffer) : Prog IBinaryData.t :=
  let sanitizedFileName := sanitizeFilename (ChatAttachment.fileName attachment) in
  let binaryData :=
    {| IBinaryData.data := ChatAttachment.data attachment;
       IBinaryData.mimeType := Some (ChatAttachment.mimeType attachment);
       IBinaryData.fileName := sanitizedFileName;
       IBinaryData.fileSize := Some (showN (Buffer_length buffer));
       IBinaryData.fileExtension :=
         match sanitizedFileName with
         | Some name => pop (split "." name)
         | None => None
         end;
       IBinaryData.id := None |} in
  await (BinaryDataService_store
           (FileLocation.ofCustom
              "chat_message_attachment"
              ["chat-hub"; "sessions"; sessionId; "messages"; messageId]
              messageId)
           buffer
           binaryData).

Definition processKnowledgeItemAttachment
    (knowledgeItemId : string) (attachment : ChatAttachment.t)
    (buffer : Buffer) : Prog IBinaryData.t :=
  let sanitizedFileName := sanitizeFilename (ChatAttachment.fileName attachment) in
  let binaryData :=
    {| IBinaryData.data := ChatAttachment.data attachment;
       IBinaryData.mimeType := Some (ChatAttachment.mimeType attachment);
       IBinaryData.fileName := sanitizedFileName;
       IBinaryData.fileSize := Some (showN (Buffer_length buffer));
       IBinaryData.fileExtension :=
         match sanitizedFileName with
         | Some name => pop (split "." name)
         | None => None
         end;
       IBinaryData.id := None |} in
  await (BinaryDataService_store
           (FileLocation.ofCustom
              "chat_knowledge_item_attachment"
              ["chat-hub"; "knowledge-items"; knowledgeItemId]
              knowledgeItemId)
           buffer
           binaryData).

(** The [for ... of] loop of [storeMessageAttachments], with its two mutable
    locals [totalSize] and [storedAttachments] as accumulators. *)
Fixpoint storeMessageAttachments_loop
    (sessionId messageId : string) (attachments : list ChatAttachment.t)
    (totalSize : N) (storedAttachments : list IBinaryData.t)
  : Prog (list IBinaryData.t) :=
  match attachments with
  | [] => Ret storedAttachments
  | attachment :: rest =>
      let buffer := Buffer_from (ChatAttachment.data attachment) in
      let totalSize := totalSize + Buffer_length buffer in
      if maxTotalSizeBytes <? totalSize then
        let maxSizeMB := maxTotalSizeBytes / (1024 * 1024) in
        Throw (BadRequestError
                 ("Total size of attachments exceeds maximum size of "
                    ++ showN maxSizeMB ++ " MB"))
      else
        stored <- processMessageAttachment sessionId messageId attachment buffer ;;
        storeMessageAttachments_loop sessionId messageId rest totalSize
          (storedAttachments ++ [stored])
  end.

Definition storeMessageAttachments
    (sessionId messageId : string) (attachments : list ChatAttachment.t)
  : Prog (list IBinaryData.t) :=
  storeMessageAttachments_loop sessionId messageId attachments 0 [].

Definition getMessageAttachment
    (sessionId messageId : string) (attachmentIndex : Z)
  : Prog (IBinaryData.t * AttachmentContent) :=
  message <- await (MessageRepository_getOneById messageId sessionId) ;;
  match message with
  | None => Throw (NotFoundError "Message not found")
  | Some message =>
      match index (ChatHubMessage.attachments message) attachmentIndex with
      | None => Throw (NotFoundError "Attachment not found")
      | Some attachment =>
          match whenTruthy (IBinaryData.id attachment) with
          | Some id =>
              metadata <- await (BinaryDataService_getMetadata id) ;;
              stream <- await (BinaryDataService_getAsStream id) ;;
              Ret (attachment, stream_ stream (Metadata.fileSize metadata))
          | None =>
              if truthy (IBinaryData.data attachment) then
                buffer <- await (BinaryDataService_getAsBuffer attachment) ;;
                Ret (attachment, buffer_ buffer (Buffer_length buffer))
              else Throw (NotFoundError "Attachment has no stored file")
          end
      end
  end.

Definition deleteAttachments (attachments : list IBinaryData.t) : Prog unit :=
  await (BinaryDataService_deleteManyByBinaryDataId
           (flat_map
              (fun attachment =>
                 match whenTruthy (IBinaryData.id attachment) with
                 | Some id => [id]
                 | None => []
                 end)
              attachments)).

Definition getDataUrl (binaryData : IBinaryData.t) : Prog string :=
  if startsWith (IBinaryData.data binaryData) "data:" then
    Ret (IBinaryData.data binaryData)
  else
    buffer <- await (BinaryDataService_getAsBuffer binaryData) ;;
    let base64Data := Buffer_toString buffer in
    let mimeType :=
      or_else (IBinaryData.mimeType binaryData) "application/octet-stream" in
    Ret ("data:" ++ mimeType ++ ";base64," ++ base64Data).

Definition storeKnowledgeItemAttachment
    (knowledgeItemId : string) (attachment : ChatAttachment.t)
  : Prog IBinaryData.t :=
  let buffer := Buffer_from (ChatAttachment.data attachment) in
  if maxKnowledgeItemSizeBytes <? Buffer_length buffer then
    let maxSizeMB := maxKnowledgeItemSizeBytes / (1024 * 1024) in
    Throw (BadRequestError
             ("Knowledge item attachment exceeds maximum size of "
                ++ showN maxSizeMB ++ " MB"))
  else processKnowledgeItemAttachment knowledgeItemId attachment buffer.

Definition getKnowledgeItemAttachment (knowledgeItemId : string)
  : Prog (IBinaryData.t * AttachmentContent) :=
  knowledgeItem <- await (KnowledgeItemRepository_findOne knowledgeItemId) ;;
  match
    match knowledgeItem with
    | Some item => ChatHubKnowledgeItem.attachment item
    | None => None
    end
  with
  | None => Throw (NotFoundError "Knowledge item attachment not found")
  | Some attachment =>
      match whenTruthy (IBinaryData.id attachment) with
      | Some id =>
          metadata <- await (BinaryDataService_getMetadata id) ;;
          stream <- await (BinaryDataService_getAsStream id) ;;
          Ret (attachment, stream_ stream (Metadata.fileSize metadata))
      | None =>
          if truthy (IBinaryData.data attachment) then
            buffer <- await (BinaryDataService_getAsBuffer attachment) ;;
            Ret (attachment, buffer_ buffer (Buffer_length buffer))
          else Throw (NotFoundError "Attachment has no stored file")
      end
  end.

(** ** ChatHubKnowledgeItemRepository.createKnowledgeItem *)

Definition repository_createKnowledgeItem
    (knowledgeItem : ChatHubKnowledgeItem.t) : Prog ChatHubKnowledgeItem.t :=
  await (EntityManager_insert knowledgeItem) ;;;
  await (EntityManager_findOneOrFail (ChatHubKnowledgeItem.id knowledgeItem)).

(** ** ChatHubKnowledgeItemService.createKnowledgeItem *)

Definition createKnowledgeItem
    (user : User.t) (attachment : option ChatAttachment.t)
  : Prog ChatHubKnowledgeItem.t :=
  Uuidv4 (fun id =>
    storedAttachment <-
      match attachment with
      | Some attachment =>
          stored <- storeKnowledgeItemAttachment id attachment ;;
          Ret (Some stored)
      | None => Ret None
      end ;;
    try_catch
      (knowledgeItem <-
         repository_createKnowledgeItem
           {| ChatHubKnowledgeItem.id := id;
              ChatHubKnowledgeItem.type := "attachment";
              ChatHubKnowledgeItem.ownerId := User.id user;
              ChatHubKnowledgeItem.attachment := storedAttachment |} ;;
       Log LogDebug
         ("Knowledge item created: " ++ id ++ " by user " ++ User.id user)
         (Ret knowledgeItem))
      (fun error =>
         match storedAttachment with
         | Some storedAttachment =>
             try_catch
               (deleteAttachments [storedAttachment])
               (fun cleanupError =>
                  Log LogError
                    ("Failed to clean up attachment file for knowledge item "
                       ++ id ++ ": " ++ Error_toString cleanupError)
                    (Ret tt))
         | None => Ret tt
         end ;;;
         Throw error)).

End Services.

Arguments Ret {P A} a.
Arguments Throw {P A} e.
Arguments Await {P A} c k.
Arguments Log {P A} level message k.
Arguments Uuidv4 {P A} k.
Arguments answer {P W} e c w.
Arguments uuid {P W} e w.

(** ** The remaining methods: sweeps and knowledge-item bookkeeping

    The methods below also await the ORM: the message repository, the
    knowledge-item repository's inherited [find], and an [EntityManager]
    (the repository's own, or the transaction's when one is passed). *)

Inductive EntityManager : Type :=
| defaultManager
| transactionManager (name : string).

(** [trx ?? this.manager]. *)
Definition managerOr (trx : option EntityManager) : EntityManager :=
  match trx with
  | Some em => em
  | None => defaultManager
  end.

(** What [em.delete] resolves to. *)
Module DeleteResult.
Record t : Type := make { affected : option N }.
End DeleteResult.

Section Persistence.

Context {P : Platform}.

(** Each constructor is one call shape of the source, options included:
    - [getManyBySessionId(sessionId, trx)];
    - [messageRepository.find({ where: { attachments: Not(IsNull()) }, select: ['attachments'] })];
    - [knowledgeItemRepository.find({ where: { attachment: Not(IsNull()) }, select: ['attachment'] })];
    - [this.find({ where: { ownerId }, order: { createdAt: 'DESC' } })];
    - [em.findOne(target, { where: { id }, select: ['attachment'] })];
    - [em.findOne(ChatHubKnowledgeItem, { where: { id, ownerId } })];
    - [em.find(ChatHubKnowledgeItem, { where: [{ id, ownerId }, ...] })];
    - [em.delete(ChatHubKnowledgeItem, { id })]. *)
Inductive OrmCall : Type :=
| MessageRepository_getManyBySessionId (sessionId : string) (trx : option EntityManager)
| MessageRepository_find_attachmentsNotNull
| KnowledgeItemRepository_find_attachmentNotNull
| KnowledgeItemRepository_find_byOwner (ownerId : string)
| EntityManager_findOne_attachment (em : EntityManager) (id : string)
| EntityManager_findOne_owned (em : EntityManager) (id ownerId : string)
| EntityManager_find_owned (em : EntityManager) (clauses : list (string * string))
| EntityManager_delete (em : EntityManager) (id : string).

Definition OrmResp (q : OrmCall) : Type :=
  match q with
  | MessageRepository_getManyBySessionId _ _ => list ChatHubMessage.t
  | MessageRepository_find_attachmentsNotNull => list ChatHubMessage.t
  | KnowledgeItemRepository_find_attachmentNotNull => list ChatHubKnowledgeItem.t
  | KnowledgeItemRepository_find_byOwner _ => list ChatHubKnowledgeItem.t
  | EntityManager_findOne_attachment _ _ => option ChatHubKnowledgeItem.t
  | EntityManager_findOne_owned _ _ _ => option ChatHubKnowledgeItem.t
  | EntityManager_find_owned _ _ => list ChatHubKnowledgeItem.t
  | EntityManager_delete _ _ => DeleteResult.t
  end.

(** A method body that may await either kind of collaborator. *)
Inductive Task (A : Type) : Type :=
| Done (a : A)
| Fail (e : Error)
| Basic (c : Call) (k : Outcome (Resp c) -> Task A)
| Query (q : OrmCall) (k : Outcome (OrmResp q) -> Task A)
| Note (level : LogLevel) (message : string) (k : Task A)
| Fresh (k : string -> Task A).
Arguments Done {A} a.
Arguments Fail {A} e.
Arguments Basic {A} c k.
Arguments Query {A} q k.
Arguments Note {A} level message k.
Arguments Fresh {A} k.

(** A method of the first kind, called from one of the second. *)
Fixpoint lift {A : Type} (p : Prog A) : Task A :=
  match p with
  | Ret a => Done a
  | Throw e => Fail e
  | Await c k => Basic c (fun r => lift (k r))
  | Log l m k => Note l m (lift k)
  | Uuidv4 k => Fresh (fun u => lift (k u))
  end.

Definition query (q : OrmCall) : Task (OrmResp q) :=
  Query q (fun r => match r with
                    | Returned x => Done x
                    | Thrown e => Fail e
                    end).

Fixpoint andThen {A B : Type} (t : Task A) (f : A -> Task B) : Task B :=
  match t with
  | Done a => f a
  | Fail e => Fail e
  | Basic c k => Basic c (fun r => andThen (k r) f)
  | Query q k => Query q (fun r => andThen (k r) f)
  | Note l m k => Note l m (andThen k f)
  | Fresh k => Fresh (fun u => andThen (k u) f)
  end.

Notation "x <- t ;; u" := (andThen t (fun x => u))
  (at level 61, t at next level, right associativity).
Notation "t ;;; u" := (andThen t (fun _ => u))
  (at level 61, right associativity).

(** One observable step of a task. *)
Inductive Step : Type :=
| did (ev : Event)
| queried (q : OrmCall) (r : Outcome (OrmResp q)).

(** All collaborators together, over one state. *)
Record Backend (W : Type) : Type := {
  basic : Env W;
  orm : forall q : OrmCall, W -> Outcome (OrmResp q) * W
}.
Arguments basic {W} b.
Arguments orm {W} b q w.

Fixpoint perform {W A : Type} (b : Backend W) (t : Task A) (w : W)
  : Outcome A * list Step * W :=
  match t with
  | Done a => (Returned a, [], w)
  | Fail e => (Thrown e, [], w)
  | Basic c k =>
      let '(r, w1) := answer (basic b) c w in
      let '(o, s, w2) := perform b (k r) w1 in
      (o, did (Ev c r) :: s, w2)
  | Query q k =>
      let '(r, w1) := orm b q w in
      let '(o, s, w2) := perform b (k r) w1 in
      (o, queried q r :: s, w2)
  | Note l m k =>
      let '(o, s, w2) := perform b k w in
      (o, did (EvLog l m) :: s, w2)
  | Fresh k =>
      let '(u, w1) := uuid (basic b) w in
      let '(o, s, w2) := perform b (k u) w1 in
      (o, did (EvUuid u) :: s, w2)
  end.

(** *** ChatHubAttachmentService, continued *)

Definition deleteAllMessageAttachmentsBySessionId
    (sessionId : string) (trx : option EntityManager) : Task unit :=
  messages <- query (MessageRepository_getManyBySessionId sessionId trx) ;;
  lift (deleteAttachments
          (flat_map
             (fun message =>
                match ChatHubMessage.attachments message with
                | Some attachments => attachments
                | None => []
                end)
             messages)).

Definition deleteAllMessageAttachments : Task unit :=
  messages <- query MessageRepository_find_attachmentsNotNull ;;
  lift (deleteAttachments
          (flat_map
             (fun message =>
                match ChatHubMessage.attachments message with
                | Some attachments => attachments
                | None => []
                end)
             messages)).

Definition getAsBuffer (binaryData : IBinaryData.t) : Prog Buffer :=
  await (BinaryDataService_getAsBuffer binaryData).

Definition deleteKnowledgeItemAttachmentById
    (knowledgeItemId : string) (trx : option EntityManager) : Task unit :=
  let em := managerOr trx in
  knowledgeItem <- query (EntityManager_findOne_attachment em knowledgeItemId) ;;
  match
    match knowledgeItem with
    | Some item => ChatHubKnowledgeItem.attachment item
    | None => None
    end
  with
  | Some attachment => lift (deleteAttachments [attachment])
  | None => Done tt
  end.

Definition deleteAllKnowledgeItemAttachments : Task unit :=
  knowledgeItems <- query KnowledgeItemRepository_find_attachmentNotNull ;;
  lift (deleteAttachments
          (flat_map
             (fun item =>
                match ChatHubKnowledgeItem.attachment item with
                | Some attachment => [attachment]
                | None => []
                end)
             knowledgeItems)).

(** *** ChatHubKnowledgeItemRepository, continued *)

Definition repository_deleteKnowledgeItem
    (id : string) (trx : option EntityManager) : Task DeleteResult.t :=
  let em := managerOr trx in
  query (EntityManager_delete em id).

Definition repository_getManyByUserId (userId : string)
  : Task (list ChatHubKnowledgeItem.t) :=
  query (KnowledgeItemRepository_find_byOwner userId).

Definition repository_getOneById
    (id userId : string) (trx : option EntityManager)
  : Task (option ChatHubKnowledgeItem.t) :=
  let em := managerOr trx in
  query (EntityManager_findOne_owned em id userId).

Definition repository_getManyByIdsAndUserId
    (ids : list string) (userId : string) (trx : option EntityManager)
  : Task (list ChatHubKnowledgeItem.t) :=
  if Nat.eqb (List.length ids) 0 then Done []
  else
    let em := managerOr trx in
    query (EntityManager_find_owned em (map (fun id => (id, userId)) ids)).

(** *** ChatHubKnowledgeItemService, continued *)

Definition getKnowledgeItemsByUserId (userId : string)
  : Task (list ChatHubKnowledgeItem.t) :=
  repository_getManyByUserId userId.

Definition getKnowledgeItemById (id userId : string) : Task ChatHubKnowledgeItem.t :=
  knowledgeItem <- repository_getOneById id userId None ;;
  match knowledgeItem with
  | None => Fail (NotFoundError "Knowledge item not found")
  | Some knowledgeItem => Done knowledgeItem
  end.

Definition deleteKnowledgeItem (id userId : string) : Task unit :=
  existingItem <- repository_getOneById id userId None ;;
  match existingItem with
  | None => Fail (NotFoundError "Knowledge item not found")
  | Some _ =>
      deleteKnowledgeItemAttachmentById id None ;;;
      repository_deleteKnowledgeItem id None ;;;
      Note LogDebug
        ("Knowledge item deleted: " ++ id ++ " by user " ++ userId)
        (Done tt)
  end.

End Persistence.

Arguments Done {P A} a.
Arguments Fail {P A} e.
Arguments Basic {P A} c k.
Arguments Query {P A} q k.
Arguments Note {P A} level message k.
Arguments Fresh {P A} k.
Arguments basic {P W} b.
Arguments orm {P W} b q w.

(** ** A small concrete platform, for running the services *)

Module Demo.

(** Buffers are kept as their byte count only: a payload is written as the
    decimal count of the bytes it decodes to, so that attachments of hundreds
    of megabytes stay small terms. *)
Definition bytesOf (data : string) : N :=
  match NilEmpty.uint_of_string data with
  | Some u => N.of_uint u
  | None => 0
  end.

Definition showError (e : Error) : string :=
  match e with
  | BadRequestError m => "BadRequestError: " ++ m
  | NotFoundError m => "NotFoundError: " ++ m
  | OtherError n m => n ++ ": " ++ m
  end.

#[export] Instance platform : Platform := {|
  Buffer := N;
  Stream := string;
  Buffer_from := bytesOf;
  Buffer_length := fun b => b;
  Buffer_toString := showN;
  sanitizeFilename := fun name => Some name;
  Error_toString := showError
|}.

(** The collaborators' state: what the two repositories hold, how many calls
    have been answered, and which calls reject. *)
Record World : Type := {
  message : option ChatHubMessage.t;
  knowledgeItem : option ChatHubKnowledgeItem.t;
  served : nat
}.

Definition tick (w : World) : World :=
  {| message := message w; knowledgeItem := knowledgeItem w; served := S (served w) |}.

Definition unavailable : Error := OtherError "Error" "unavailable".

(** External storage in the manner of the filesystem mode: the payload is
    replaced by the mode name and an id is issued. *)
Definition respond (c : Call) (w : World) : Outcome (Resp c) :=
  match c return Outcome (Resp c) with
  | BinaryDataService_store _ buffer binaryData =>
      Returned
        {| IBinaryData.data := "filesystem-v2";
           IBinaryData.mimeType := IBinaryData.mimeType binaryData;
           IBinaryData.fileName := IBinaryData.fileName binaryData;
           IBinaryData.fileSize := IBinaryData.fileSize binaryData;
           IBinaryData.fileExtension := IBinaryData.fileExtension binaryData;
           IBinaryData.id := Some ("filesystem-v2:" ++ showN (N.of_nat (served w))) |}
  | BinaryDataService_getMetadata _ => Returned (Metadata.make 10)
  | BinaryDataService_getAsStream id => Returned ("stream of " ++ id)
  | BinaryDataService_getAsBuffer binaryData =>
      Returned (bytesOf (IBinaryData.data binaryData))
  | BinaryDataService_deleteManyByBinaryDataId _ => Returned tt
  | MessageRepository_getOneById _ _ => Returned (message w)
  | KnowledgeItemRepository_findOne _ => Returned (knowledgeItem w)
  | EntityManager_insert _ => Returned tt
  | EntityManager_findOneOrFail id =>
      Returned (ChatHubKnowledgeItem.make id "attachment" "user-1" None)
  end.

Definition env (rejects : Call -> bool) : Env World := {|
  answer := fun c w =>
    (if rejects c then Thrown unavailable else respond c w, tick w);
  uuid := fun w => ("uuid-" ++ showN (N.of_nat (served w)), tick w)
|}.

Definition healthy (c : Call) : bool := false.

Definition insertFails (c : Call) : bool :=
  match c with
  | EntityManager_insert _ => true
  | _ => false
  end.

Definition insertAndDeleteFail (c : Call) : bool :=
  match c with
  | EntityManager_insert _ => true
  | BinaryDataService_deleteManyByBinaryDataId _ => true
  | _ => false
  end.

Definition deleteFails (c : Call) : bool :=
  match c with
  | BinaryDataService_deleteManyByBinaryDataId _ => true
  | _ => false
  end.

Definition empty : World :=
  {| message := None; knowledgeItem := None; served := 0 |}.

Definition MiB100 : ChatAttachment.t :=
  ChatAttachment.make "104857600" "video/mp4" "first.mp4".
Definition MiB150 : ChatAttachment.t :=
  ChatAttachment.make "157286400" "video/mp4" "second.mp4".
Definition MiB60 : ChatAttachment.t :=
  ChatAttachment.make "62914560" "application/pdf" "manual.pdf".
Definition note : ChatAttachment.t :=
  ChatAttachment.make "10" "text/plain" "notes.txt".
Definition readme : ChatAttachment.t :=
  ChatAttachment.make "7" "text/plain" "README".

Definition external : IBinaryData.t :=
  IBinaryData.make "filesystem-v2" (Some "text/plain") (Some "notes.txt")
    (Some "10") (Some "txt") (Some "filesystem-v2:0").
Definition inline : IBinaryData.t :=
  IBinaryData.make "10" (Some "text/plain") (Some "notes.txt")
    (Some "10") (Some "txt") None.
Definition inlineUntyped : IBinaryData.t :=
  IBinaryData.make "10" None (Some "notes") (Some "10") (Some "notes") None.
Definition hollow : IBinaryData.t :=
  IBinaryData.make "" (Some "text/plain") (Some "notes.txt") None None None.
Definition dataUrl : IBinaryData.t :=
  IBinaryData.make "data:text/plain;base64,aGk=" (Some "text/plain")
    (Some "hi.txt") (Some "2") (Some "txt") None.

Definition holding (attachment : IBinaryData.t) : World :=
  {| message := Some (ChatHubMessage.make (Some [attachment]));
     knowledgeItem :=
       Some (ChatHubKnowledgeItem.make "ki-1" "attachment" "user-1" (Some attachment));
     served := 0 |}.

End Demo.

(** ** A small in-memory ORM beside the concrete platform *)

Module Archive.

Record World : Type := {
  messages : list ChatHubMessage.t;
  items : list ChatHubKnowledgeItem.t;
  served : nat
}.

Definition tick (w : World) : World :=
  {| messages := messages w; items := items w; served := S (served w) |}.

(** The binary store and the single-row lookups see the first message and
    the first knowledge item. *)
Definition asDemo (w : World) : Demo.World :=
  {| Demo.message := hd_error (messages w);
     Demo.knowledgeItem := hd_error (items w);
     Demo.served := served w |}.

Definition hasId (id : string) (item : ChatHubKnowledgeItem.t) : bool :=
  (ChatHubKnowledgeItem.id item =? id)%string.

Definition ownedBy (ownerId : string) (item : ChatHubKnowledgeItem.t) : bool :=
  (ChatHubKnowledgeItem.ownerId item =? ownerId)%string.

Definition respond (q : OrmCall) (w : World) : Outcome (OrmResp q) * World :=
  match q return Outcome (OrmResp q) * World with
  | MessageRepository_getManyBySessionId _ _ => (Returned (messages w), tick w)
  | MessageRepository_find_attachmentsNotNull =>
      (Returned
         (filter (fun m => match ChatHubMessage.attachments m with
                           | Some _ => true
                           | None => false
                           end) (messages w)),
       tick w)
  | KnowledgeItemRepository_find_attachmentNotNull =>
      (Returned
         (filter (fun i => match ChatHubKnowledgeItem.attachment i with
                           | Some _ => true
                           | None => false
                           end) (items w)),
       tick w)
  | KnowledgeItemRepository_find_byOwner ownerId =>
      (Returned (filter (ownedBy ownerId) (items w)), tick w)
  | EntityManager_findOne_attachment _ id =>
      (Returned (find (hasId id) (items w)), tick w)
  | EntityManager_findOne_owned _ id ownerId =>
      (Returned (find (fun i => hasId id i && ownedBy ownerId i) (items w)), tick w)
  | EntityManager_find_owned _ clauses =>
      (Returned
         (filter (fun i => existsb (fun c => hasId (fst c) i && ownedBy (snd c) i) clauses)
            (items w)),
       tick w)
  | EntityManager_delete _ id =>
      (Returned
         (DeleteResult.make
            (Some (N.of_nat (List.length (filter (hasId id) (items w)))))),
       {| messages := messages w;
          items := filter (fun i => negb (hasId id i)) (items w);
          served := S (served w) |})
  end.

Definition backend (rejects : Call -> bool) (refuses : OrmCall -> bool)
  : Backend World := {|
  basic := {|
    answer := fun c w =>
      (if rejects c then Thrown Demo.unavailable else Demo.respond c (asDemo w), tick w);
    uuid := fun w => ("uuid-" ++ showN (N.of_nat (served w)), tick w)
  |};
  orm := fun q w =>
    if refuses q then (Thrown Demo.unavailable, tick w) else respond q w
|}.

Definition willing (q : OrmCall) : bool := false.

Definition lookupRefused (q : OrmCall) : bool :=
  match q with
  | MessageRepository_getManyBySessionId _ _ => true
  | _ => false
  end.

Definition rowDeleteRefused (q : OrmCall) : bool :=
  match q with
  | EntityManager_delete _ _ => true
  | _ => false
  end.

Definition second : IBinaryData.t :=
  IBinaryData.make "filesystem-v2" (Some "image/png") (Some "plot.png")
    (Some "2048") (Some "png") (Some "filesystem-v2:1").

Definition manual : ChatHubKnowledgeItem.t :=
  ChatHubKnowledgeItem.make "ki-1" "attachment" "user-1" (Some Demo.external).
Definition sketch : ChatHubKnowledgeItem.t :=
  ChatHubKnowledgeItem.make "ki-2" "attachment" "user-2" (Some Demo.inline).
Definition bare : ChatHubKnowledgeItem.t :=
  ChatHubKnowledgeItem.make "ki-3" "attachment" "user-1" None.

Definition shelf : World :=
  {| messages :=
       [ChatHubMessage.make (Some [Demo.external; Demo.inline]);
        ChatHubMessage.make None;
        ChatHubMessage.make (Some [second])];
     items := [manual; sketch; bare];
     served := 0 |}.

(** Ways for the binary store to fail. *)
Definition metadataFails (c : @Call Demo.platform) : bool :=
  match c with
  | BinaryDataService_getMetadata _ => true
  | _ => false
  end.

Definition storeFails (c : @Call Demo.platform) : bool :=
  match c with
  | BinaryDataService_store _ _ _ => true
  | _ => false
  end.


End Archive.

(** ** KnowledgeItemsSelectorModal: the selection *)

(** [ChatHubKnowledgeItemDto] as far as the components read it. *)
Module ChatHubKnowledgeItemDto.
Record t : Type := make {
    id : string;
    attachment : option IBinaryData.t;
    createdAt : string
  }.
End ChatHubKnowledgeItemDto.

(** A JavaScript [Set<string>]: its values, distinct, in insertion order. *)
Module JsSet.

Definition t : Type := list string.

Definition empty : t := [].

Definition has (s : t) (x : string) : bool := existsb (String.eqb x) s.

Definition add (s : t) (x : string) : t :=
  if has s x then s else (s ++ [x])%list.

Definition delete (s : t) (x : string) : t :=
  filter (fun y => negb (String.eqb x y)) s.

(** [new Set(values)]. *)
Definition from (values : list string) : t := fold_left add values empty.

Definition size (s : t) : nat := List.length s.

End JsSet.

(** The [watch] on [props.data.selected], run immediately: the selection
    starts as the ids of the items passed in. *)
Definition selectedIdsOf (selected : list ChatHubKnowledgeItemDto.t) : JsSet.t :=
  JsSet.from (map ChatHubKnowledgeItemDto.id selected).

Definition selectedCount (selectedIds : JsSet.t) : nat := JsSet.size selectedIds.

Definition toggleItem (selectedIds : JsSet.t) (itemId : string) : JsSet.t :=
  let mutated :=
    if JsSet.has selectedIds itemId then JsSet.delete selectedIds itemId
    else JsSet.add selectedIds itemId in
  JsSet.from mutated.

Definition isSelected (selectedIds : JsSet.t) (itemId : string) : bool :=
  JsSet.has selectedIds itemId.

(** What a handler of the modal does to the outside. *)
Inductive ModalEffect : Type :=
| onConfirm (items : list ChatHubKnowledgeItemDto.t)
| emitClose.

Definition handleConfirm
    (allKnowledgeItems : list ChatHubKnowledgeItemDto.t) (selectedIds : JsSet.t)
  : list ModalEffect :=
  let selected :=
    filter (fun item => JsSet.has selectedIds (ChatHubKnowledgeItemDto.id item))
      allKnowledgeItems in
  [onConfirm selected; emitClose].

Definition onCancel : list ModalEffect := [emitClose].

(** ** The knowledge-items view: loading, uploading, deleting

    The view keeps three refs and talks to the REST client, to the file
    reader, to the confirmation dialog and to the toast service. *)

(** A browser [File], as far as it can be told apart. *)
Module BrowserFile.
Record t : Type := make { name : string; size : N; type : string }.
End BrowserFile.

(** The refs [knowledgeItems], [isLoading] and [isCreating]. *)
Module View.
Record t : Type := make {
    knowledgeItems : list ChatHubKnowledgeItemDto.t;
    isLoading : bool;
    isCreating : bool
  }.
End View.

Inductive UiCall : Type :=
| fetchKnowledgeItemsApi
| createKnowledgeItemApi (attachment : IBinaryData.t)
| deleteKnowledgeItemApi (id : string)
| convertFileToBinaryData (file : BrowserFile.t)
| message_confirm (message title confirmButtonText cancelButtonText : string).

Definition UiResp (c : UiCall) : Type :=
  match c with
  | fetchKnowledgeItemsApi => list ChatHubKnowledgeItemDto.t
  | createKnowledgeItemApi _ => ChatHubKnowledgeItemDto.t
  | deleteKnowledgeItemApi _ => unit
  | convertFileToBinaryData _ => IBinaryData.t
  | message_confirm _ _ _ _ => string
  end.

(** What the view shows or resets without awaiting anything. *)
Inductive Notice : Type :=
| toast_showMessage (type title : string)
| toast_showError (error : Error) (title : string)
| resetFileInput.

(** A handler of the view: it reads and writes the refs in between. *)
Inductive Ui (A : Type) : Type :=
| UiRet (a : A)
| UiThrow (e : Error)
| UiAwait (c : UiCall) (k : Outcome (UiResp c) -> Ui A)
| UiNotice (n : Notice) (k : Ui A)
| UiRead (k : View.t -> Ui A)
| UiWrite (v : View.t) (k : Ui A).
Arguments UiRet {A} a.
Arguments UiThrow {A} e.
Arguments UiAwait {A} c k.
Arguments UiNotice {A} n k.
Arguments UiRead {A} k.
Arguments UiWrite {A} v k.

Definition uiAwait (c : UiCall) : Ui (UiResp c) :=
  UiAwait c (fun r => match r with
                      | Returned x => UiRet x
                      | Thrown e => UiThrow e
                      end).

Definition notice (n : Notice) : Ui unit := UiNotice n (UiRet tt).

Fixpoint uiBind {A B : Type} (p : Ui A) (f : A -> Ui B) : Ui B :=
  match p with
  | UiRet a => f a
  | UiThrow e => UiThrow e
  | UiAwait c k => UiAwait c (fun r => uiBind (k r) f)
  | UiNotice n k => UiNotice n (uiBind k f)
  | UiRead k => UiRead (fun v => uiBind (k v) f)
  | UiWrite v k => UiWrite v (uiBind k f)
  end.

(** [try { p } catch (e) { h e }]. *)
Fixpoint uiCatch {A : Type} (p : Ui A) (h : Error -> Ui A) : Ui A :=
  match p with
  | UiRet a => UiRet a
  | UiThrow e => h e
  | UiAwait c k => UiAwait c (fun r => uiCatch (k r) h)
  | UiNotice n k => UiNotice n (uiCatch k h)
  | UiRead k => UiRead (fun v => uiCatch (k v) h)
  | UiWrite v k => UiWrite v (uiCatch k h)
  end.

(** [try { p } finally { f }]: [f] runs either way; what [p] did stands
    unless [f] throws. *)
Fixpoint uiFinally {A : Type} (p : Ui A) (f : Ui unit) : Ui A :=
  match p with
  | UiRet a => uiBind f (fun _ => UiRet a)
  | UiThrow e => uiBind f (fun _ => UiThrow e)
  | UiAwait c k => UiAwait c (fun r => uiFinally (k r) f)
  | UiNotice n k => UiNotice n (uiFinally k f)
  | UiRead k => UiRead (fun v => uiFinally (k v) f)
  | UiWrite v k => UiWrite v (uiFinally k f)
  end.

Inductive UiEvent : Type :=
| UiEv (c : UiCall) (r : Outcome (UiResp c))
| UiShown (n : Notice).

Fixpoint runUi {W A : Type}
    (answerUi : forall c : UiCall, W -> Outcome (UiResp c) * W)
    (p : Ui A) (v : View.t) (w : W)
  : Outcome A * list UiEvent * View.t * W :=
  match p with
  | UiRet a => (Returned a, [], v, w)
  | UiThrow e => (Thrown e, [], v, w)
  | UiAwait c k =>
      let '(r, w1) := answerUi c w in
      let '(o, t, v2, w2) := runUi answerUi (k r) v w1 in
      (o, UiEv c r :: t, v2, w2)
  | UiNotice n k =>
      let '(o, t, v2, w2) := runUi answerUi k v w in
      (o, UiShown n :: t, v2, w2)
  | UiRead k => runUi answerUi (k v) v w
  | UiWrite v1 k => runUi answerUi k v1 w
  end.

(** Assignments to the three refs. *)
Definition setKnowledgeItems (items : list ChatHubKnowledgeItemDto.t) : Ui unit :=
  UiRead (fun v =>
    UiWrite (View.make items (View.isLoading v) (View.isCreating v)) (UiRet tt)).

Definition setIsLoading (b : bool) : Ui unit :=
  UiRead (fun v =>
    UiWrite (View.make (View.knowledgeItems v) b (View.isCreating v)) (UiRet tt)).


Definition loadKnowledgeItems : Ui unit :=
  uiBind (setIsLoading true) (fun _ =>
  uiFinally
    (uiCatch
       (uiBind (uiAwait fetchKnowledgeItemsApi) (fun items => setKnowledgeItems items))
       (fun error => notice (toast_showError error "Failed to load knowledge items")))
    (setIsLoading false)).





(** [MODAL_CONFIRM] comes from the application's constants. *)
Definition handleDeleteItem (MODAL_CONFIRM : string) (id : string) : Ui unit :=
  uiBind
    (uiAwait
       (message_confirm "Are you sure you want to delete this knowledge item?"
          "Delete Knowledge Item" "Delete" "Cancel"))
    (fun confirmed =>
       if negb (confirmed =? MODAL_CONFIRM)%string then UiRet tt
       else
         uiCatch
           (uiBind (uiAwait (deleteKnowledgeItemApi id)) (fun _ =>
            uiBind
              (UiRead (fun v =>
                 setKnowledgeItems
                   (filter
                      (fun item => negb (ChatHubKnowledgeItemDto.id item =? id)%string)
                      (View.knowledgeItems v))))
              (fun _ => notice (toast_showMessage "success" "Knowledge item deleted"))))
           (fun error => notice (toast_showError error "Failed to delete knowledge item"))).

(** A small stand-in for what the view talks to. *)
Module Desk.

Definition MODAL_CONFIRM : string := "confirm".

Definition card (id : string) : ChatHubKnowledgeItemDto.t :=
  ChatHubKnowledgeItemDto.make id None "2026-01-01T00:00:00.000Z".

Definition respond (c : UiCall) (served : nat) : Outcome (UiResp c) :=
  match c return Outcome (UiResp c) with
  | fetchKnowledgeItemsApi => Returned [card "ki-1"; card "ki-2"]
  | createKnowledgeItemApi attachment =>
      Returned
        (ChatHubKnowledgeItemDto.make ("ki-new-" ++ showN (N.of_nat served))
           (Some attachment) "2026-01-02T00:00:00.000Z")
  | deleteKnowledgeItemApi _ => Returned tt
  | convertFileToBinaryData file =>
      Returned
        (IBinaryData.make "aGk=" (Some (BrowserFile.type file))
           (Some (BrowserFile.name file)) None None None)
  | message_confirm _ _ _ _ => Returned MODAL_CONFIRM
  end.

Definition answers (rejects : UiCall -> nat -> bool) (c : UiCall) (served : nat)
  : Outcome (UiResp c) * nat :=
  (if rejects c served then Thrown Demo.unavailable else respond c served, S served).

Definition reliable (c : UiCall) (served : nat) : bool := false.


Definition offline (c : UiCall) (served : nat) : bool :=
  match c with
  | message_confirm _ _ _ _ => false
  | _ => true
  end.


Definition listed : View.t := View.make [card "ki-1"; card "ki-2"] false false.

End Desk.

(** ** Properties *)

Section Properties.

Context {P : Platform}.

(** *** Vocabulary of the statements *)

(** The byte count [Buffer.from(attachment.data, BINARY_ENCODING).length]. *)
Definition decodedLength (attachment : ChatAttachment.t) : N :=
  Buffer_length (Buffer_from (ChatAttachment.data attachment)).

(** Cumulative decoded byte length of an attachment list. *)
Definition totalLength (attachments : list ChatAttachment.t) : N :=
  fold_right (fun attachment acc => decodedLength attachment + acc) 0 attachments.

(** The request the message path sends to the binary store for one attachment. *)
Definition messageStoreCall
    (sessionId messageId : string) (attachment : ChatAttachment.t) : Call :=
  BinaryDataService_store
    (FileLocation.ofCustom
       "chat_message_attachment"
       ["chat-hub"; "sessions"; sessionId; "messages"; messageId]
       messageId)
    (Buffer_from (ChatAttachment.data attachment))
    {| IBinaryData.data := ChatAttachment.data attachment;
       IBinaryData.mimeType := Some (ChatAttachment.mimeType attachment);
       IBinaryData.fileName := sanitizeFilename (ChatAttachment.fileName attachment);
       IBinaryData.fileSize := Some (showN (decodedLength attachment));
       IBinaryData.fileExtension :=
         match sanitizeFilename (ChatAttachment.fileName attachment) with
         | Some name => pop (split "." name)
         | None => None
         end;
       IBinaryData.id := None |}.

(** The call behind an event, if the event is a call. *)
Definition called (ev : Event) : option Call :=
  match ev with
  | Ev c _ => Some c
  | _ => None
  end.

(** No call of the run was rejected. *)
Definition rejected (ev : Event) : bool :=
  match ev with
  | Ev _ (Thrown _) => true
  | _ => false
  end.

Definition allAnswered (t : list Event) : Prop :=
  forall ev, In ev t -> rejected ev = false.

(** The request the knowledge-item path sends to the binary store. *)
Definition knowledgeItemStoreCall
    (knowledgeItemId : string) (attachment : ChatAttachment.t) : Call :=
  BinaryDataService_store
    (FileLocation.ofCustom
       "chat_knowledge_item_attachment"
       ["chat-hub"; "knowledge-items"; knowledgeItemId]
       knowledgeItemId)
    (Buffer_from (ChatAttachment.data attachment))
    {| IBinaryData.data := ChatAttachment.data attachment;
       IBinaryData.mimeType := Some (ChatAttachment.mimeType attachment);
       IBinaryData.fileName := sanitizeFilename (ChatAttachment.fileName attachment);
       IBinaryData.fileSize := Some (showN (decodedLength attachment));
       IBinaryData.fileExtension :=
         match sanitizeFilename (ChatAttachment.fileName attachment) with
         | Some name => pop (split "." name)
         | None => None
         end;
       IBinaryData.id := None |}.

(** The event of one successful store on the message path. *)
Definition storeEvent
    (sessionId messageId : string) (p : ChatAttachment.t * IBinaryData.t) : Event :=
  Ev (messageStoreCall sessionId messageId (fst p)) (Returned (snd p)).

(** The two entry points that hand back an attachment's bytes. *)
Inductive Lookup : Type :=
| ofMessage (sessionId messageId : string) (attachmentIndex : Z)
| ofKnowledgeItem (knowledgeItemId : string).

Definition retrieve (l : Lookup) : Prog (IBinaryData.t * AttachmentContent) :=
  match l with
  | ofMessage sessionId messageId attachmentIndex =>
      getMessageAttachment sessionId messageId attachmentIndex
  | ofKnowledgeItem knowledgeItemId => getKnowledgeItemAttachment knowledgeItemId
  end.

(** [Resolves env l w attachment w1 ev]: from state [w] the repository lookup
    of [l] is answered, as recorded by [ev], leaves the collaborators in [w1]
    and yields the record [attachment]. *)
Inductive Resolves {W : Type} (env : Env W)
  : Lookup -> W -> IBinaryData.t -> W -> Event -> Prop :=
| resolves_message sessionId messageId attachmentIndex w w1 message attachment :
    answer env (MessageRepository_getOneById messageId sessionId) w
    = (Returned (Some message), w1) ->
    index (ChatHubMessage.attachments message) attachmentIndex = Some attachment ->
    Resolves env (ofMessage sessionId messageId attachmentIndex) w attachment w1
      (Ev (MessageRepository_getOneById messageId sessionId) (Returned (Some message)))
| resolves_knowledgeItem knowledgeItemId w w1 item attachment :
    answer env (KnowledgeItemRepository_findOne knowledgeItemId) w
    = (Returned (Some item), w1) ->
    ChatHubKnowledgeItem.attachment item = Some attachment ->
    Resolves env (ofKnowledgeItem knowledgeItemId) w attachment w1
      (Ev (KnowledgeItemRepository_findOne knowledgeItemId) (Returned (Some item))).

(** What retrieval does once the record is at hand (the code following the
    lookup is the same in both methods). *)
Definition fetch (attachment : IBinaryData.t) : Prog (IBinaryData.t * AttachmentContent) :=
  match whenTruthy (IBinaryData.id attachment) with
  | Some id =>
      bind (await (BinaryDataService_getMetadata id)) (fun metadata =>
      bind (await (BinaryDataService_getAsStream id)) (fun stream =>
      Ret (attachment, stream_ stream (Metadata.fileSize metadata))))
  | None =>
      if truthy (IBinaryData.data attachment) then
        bind (await (BinaryDataService_getAsBuffer attachment)) (fun buffer =>
        Ret (attachment, buffer_ buffer (Buffer_length buffer)))
      else Throw (NotFoundError "Attachment has no stored file")
  end.

(** A name without any dot. *)
Definition dotless (name : string) : Prop :=
  ~ In "."%char (list_ascii_of_string name).

(** The ids a list of records names in the external store, in list order. *)
Definition externalIds (attachments : list IBinaryData.t) : list string :=
  map (fun a => match IBinaryData.id a with
                | Some id => id
                | None => ""
                end)
      (filter (fun a => truthy_opt (IBinaryData.id a)) attachments).

(** Every attachment record of a list of messages, in message order. *)
Definition attachmentsOf (messages : list ChatHubMessage.t) : list IBinaryData.t :=
  List.concat (map (fun m => match ChatHubMessage.attachments m with
                        | Some l => l
                        | None => []
                        end) messages).

(** The attachment records of a list of knowledge items, in item order. *)
Definition attachmentsOfItems (items : list ChatHubKnowledgeItem.t)
  : list IBinaryData.t :=
  List.concat (map (fun i => match ChatHubKnowledgeItem.attachment i with
                        | Some a => [a]
                        | None => []
                        end) items).

(** Reading a decimal [fileSize] back as a number. *)
Definition parseSize (s : string) : option N :=
  option_map N.of_uint (NilEmpty.uint_of_string s).

(** [segments.join('.')]. *)
Fixpoint join (segments : list string) : string :=
  match segments with
  | [] => ""
  | [s] => s
  | s :: rest => s ++ "." ++ join rest
  end.

(** Whether an event is a call on the binary-data service. *)
Definition onBinaryData (ev : Event) : bool :=
  match ev with
  | Ev (BinaryDataService_store _ _ _) _ => true
  | Ev (BinaryDataService_getMetadata _) _ => true
  | Ev (BinaryDataService_getAsStream _) _ => true
  | Ev (BinaryDataService_getAsBuffer _) _ => true
  | Ev (BinaryDataService_deleteManyByBinaryDataId _) _ => true
  | _ => false
  end.

(** The row [createKnowledgeItem] asks the repository to insert. *)
Definition newRow (id : string) (user : User.t) (stored : option IBinaryData.t)
  : ChatHubKnowledgeItem.t :=
  {| ChatHubKnowledgeItem.id := id;
     ChatHubKnowledgeItem.type := "attachment";
     ChatHubKnowledgeItem.ownerId := User.id user;
     ChatHubKnowledgeItem.attachment := stored |}.



Definition uiRejected (ev : UiEvent) : bool :=
  match ev with
  | UiEv _ (Thrown _) => true
  | _ => false
  end.

Definition uiAllAnswered (t : list UiEvent) : Prop :=
  forall ev, In ev t -> uiRejected ev = false.



(** *** Running sequenced programs *)

Lemma run_bind {W A B : Type} (env : Env W) (p : Prog A) (f : A -> Prog B) (w : W) :
  run env (bind p f) w =
  match run env p w with
  | (Returned a, t, w1) =>
      let '(o, t2, w2) := run env (f a) w1 in (o, (t ++ t2)%list, w2)
  | (Thrown e, t, w1) => (Thrown e, t, w1)
  end.
Proof.
  revert w. induction p as [a|e|c k IH|l m k IH|k IH]; intro w; simpl.
  - destruct (run env (f a) w) as [[o t] w2]. reflexivity.
  - reflexivity.
  - destruct (answer env c w) as [r w1]. rewrite IH.
    destruct (run env (k r) w1) as [[[a|e] t] w2]; [|reflexivity].
    destruct (run env (f a) w2) as [[o t2] w3]. reflexivity.
  - rewrite IH.
    destruct (run env k w) as [[[a|e] t] w2]; [|reflexivity].
    destruct (run env (f a) w2) as [[o t2] w3]. reflexivity.
  - destruct (uuid env w) as [u w1]. rewrite IH.
    destruct (run env (k u) w1) as [[[a|e] t] w2]; [|reflexivity].
    destruct (run env (f a) w2) as [[o t2] w3]. reflexivity.
Qed.

Lemma run_try_catch {W A : Type} (env : Env W) (p : Prog A) (h : Error -> Prog A) (w : W) :
  run env (try_catch p h) w =
  match run env p w with
  | (Returned a, t, w1) => (Returned a, t, w1)
  | (Thrown e, t, w1) =>
      let '(o, t2, w2) := run env (h e) w1 in (o, (t ++ t2)%list, w2)
  end.
Proof.
  revert w. induction p as [a|e|c k IH|l m k IH|k IH]; intro w; simpl.
  - reflexivity.
  - destruct (run env (h e) w) as [[o t] w2]. reflexivity.
  - destruct (answer env c w) as [r w1]. rewrite IH.
    destruct (run env (k r) w1) as [[[a|e] t] w2]; [reflexivity|].
    destruct (run env (h e) w2) as [[o t2] w3]. reflexivity.
  - rewrite IH.
    destruct (run env k w) as [[[a|e] t] w2]; [reflexivity|].
    destruct (run env (h e) w2) as [[o t2] w3]. reflexivity.
  - destruct (uuid env w) as [u w1]. rewrite IH.
    destruct (run env (k u) w1) as [[[a|e] t] w2]; [reflexivity|].
    destruct (run env (h e) w2) as [[o t2] w3]. reflexivity.
Qed.

Lemma run_await {W : Type} (env : Env W) (c : Call) (w : W) :
  run env (await c) w =
  (fst (answer env c w), [Ev c (fst (answer env c w))], snd (answer env c w)).
Proof.
  unfold await. simpl. destruct (answer env c w) as [[x|e] w1]; reflexivity.
Qed.

Lemma run_await_answer {W : Type} (env : Env W) (c : Call) (w w1 : W) r :
  answer env c w = (r, w1) -> run env (await c) w = (r, [Ev c r], w1).
Proof. intro H. rewrite run_await, H. reflexivity. Qed.

(** *** The batch loop *)

Lemma processMessageAttachment_call sessionId messageId attachment :
  processMessageAttachment sessionId messageId attachment
    (Buffer_from (ChatAttachment.data attachment))
  = await (messageStoreCall sessionId messageId attachment).
Proof. reflexivity. Qed.

Lemma showN_total_limit : showN (maxTotalSizeBytes / (1024 * 1024)) = "200".
Proof. reflexivity. Qed.

Lemma showN_item_limit : showN (maxKnowledgeItemSizeBytes / (1024 * 1024)) = "50".
Proof. reflexivity. Qed.

Lemma totalLength_app l1 l2 :
  totalLength (l1 ++ l2)%list = totalLength l1 + totalLength l2.
Proof.
  induction l1 as [|a l1 IH]; simpl.
  - reflexivity.
  - rewrite IH. lia.
Qed.

(** An over-sized list splits at the attachment whose bytes take the running
    total over the cap. *)
Lemma crossing_point (attachments : list ChatAttachment.t) (running : N) :
  running <= maxTotalSizeBytes ->
  maxTotalSizeBytes < running + totalLength attachments ->
  exists before crossing after,
    attachments = (before ++ crossing :: after)%list /\
    running + totalLength before <= maxTotalSizeBytes /\
    maxTotalSizeBytes < running + totalLength before + decodedLength crossing.
Proof.
  revert running. induction attachments as [|a rest IH]; intros running Hle Hgt.
  - simpl in Hgt. lia.
  - simpl in Hgt.
    destruct (N.ltb_spec maxTotalSizeBytes (running + decodedLength a)) as [Hover|Hunder].
    + exists [], a, rest. simpl. repeat split; lia.
    + destruct (IH (running + decodedLength a)) as (before & crossing & after & -> & H1 & H2);
        [lia | lia |].
      exists (a :: before), crossing, after. simpl. repeat split; lia.
Qed.

Lemma loop_step_under sessionId messageId a rest running stored :
  running + decodedLength a <= maxTotalSizeBytes ->
  storeMessageAttachments_loop sessionId messageId (a :: rest) running stored =
  bind (await (messageStoreCall sessionId messageId a))
       (fun s => storeMessageAttachments_loop sessionId messageId rest
                   (running + decodedLength a) (stored ++ [s])).
Proof.
  intro H. simpl. fold (decodedLength a).
  destruct (N.ltb_spec maxTotalSizeBytes (running + decodedLength a)); [lia|reflexivity].
Qed.

Lemma loop_step_over sessionId messageId a rest running stored :
  maxTotalSizeBytes < running + decodedLength a ->
  storeMessageAttachments_loop sessionId messageId (a :: rest) running stored =
  Throw (BadRequestError "Total size of attachments exceeds maximum size of 200 MB").
Proof.
  intro H. simpl. fold (decodedLength a).
  destruct (N.ltb_spec maxTotalSizeBytes (running + decodedLength a)); [reflexivity|lia].
Qed.

Lemma loop_over_cap {W : Type} (env : Env W) sessionId messageId before crossing after :
  forall running stored w,
    running + totalLength before <= maxTotalSizeBytes ->
    maxTotalSizeBytes < running + totalLength before + decodedLength crossing ->
    let r := run env
               (storeMessageAttachments_loop sessionId messageId
                  (before ++ crossing :: after) running stored) w in
    (exists e, outcome r = Thrown e) /\
    (exists later,
        map Some (map (messageStoreCall sessionId messageId) before)
        = (map called (events r) ++ later)%list) /\
    (allAnswered (events r) ->
       outcome r
       = Thrown (BadRequestError
                   "Total size of attachments exceeds maximum size of 200 MB") /\
       map called (events r)
       = map Some (map (messageStoreCall sessionId messageId) before)).
Proof.
  induction before as [|a before IH]; intros running stored w Hle Hgt.
  - simpl in Hle, Hgt. simpl app.
    rewrite loop_step_over by lia. simpl.
    split; [eexists; reflexivity|].
    split; [exists []; reflexivity|].
    intros _. split; reflexivity.
  - simpl in Hle, Hgt. simpl app.
    rewrite loop_step_under by lia.
    rewrite run_bind, run_await.
    destruct (answer env (messageStoreCall sessionId messageId a) w) as [[x|e] w1];
      cbn [fst snd].
    + specialize (IH (running + decodedLength a) (stored ++ [x])%list w1).
      cbv zeta in IH.
      destruct (run env
                  (storeMessageAttachments_loop sessionId messageId
                     (before ++ crossing :: after) (running + decodedLength a)
                     (stored ++ [x])) w1) as [[o t] w2].
      unfold outcome, events in *. cbn [fst snd] in *.
      destruct IH as (Hthrow & (later & Hpre) & Hall); [lia|lia|].
      split; [exact Hthrow|].
      split.
      * exists later. simpl. rewrite Hpre. reflexivity.
      * intro Hans.
        assert (Ht : allAnswered t).
        { intros ev Hin. apply Hans. right. exact Hin. }
        destruct (Hall Ht) as [Ho Hc]. split; [exact Ho|].
        simpl. rewrite Hc. reflexivity.
    + unfold outcome, events. cbn [fst snd].
      split; [eexists; reflexivity|].
      split.
      * exists (map Some (map (messageStoreCall sessionId messageId) before)).
        reflexivity.
      * intro Hans. specialize (Hans _ (or_introl eq_refl)). discriminate Hans.
Qed.

Lemma loop_returns {W : Type} (env : Env W) sessionId messageId attachments :
  forall running stored w,
    let r := run env
               (storeMessageAttachments_loop sessionId messageId attachments
                  running stored) w in
    match outcome r with
    | Returned records =>
        exists fresh,
          records = (stored ++ fresh)%list /\
          List.length fresh = List.length attachments /\
          events r = map (storeEvent sessionId messageId) (combine attachments fresh)
    | Thrown _ => True
    end.
Proof.
  induction attachments as [|a rest IH]; intros running stored w.
  - simpl. exists []. rewrite app_nil_r. repeat split.
  - cbv zeta.
    destruct (N.ltb_spec maxTotalSizeBytes (running + decodedLength a)) as [Hover|Hunder].
    + rewrite loop_step_over by exact Hover. exact I.
    + rewrite loop_step_under by exact Hunder.
      rewrite run_bind, run_await.
      destruct (answer env (messageStoreCall sessionId messageId a) w) as [[x|e] w1];
        cbn [fst snd]; [|exact I].
      specialize (IH (running + decodedLength a) (stored ++ [x])%list w1).
      cbv zeta in IH.
      destruct (run env
                  (storeMessageAttachments_loop sessionId messageId rest
                     (running + decodedLength a) (stored ++ [x])) w1)
        as [[[records|e] t] w2]; unfold outcome, events in *; cbn [fst snd] in *;
        [|exact I].
      destruct IH as (fresh & -> & Hlen & Hev).
      exists (x :: fresh). split; [rewrite <- app_assoc; reflexivity|].
      split; [simpl; rewrite Hlen; reflexivity|].
      simpl. rewrite Hev. reflexivity.
Qed.

(** C1. A batch whose cumulative decoded length exceeds 200 MiB is cut at the
    attachment that takes the running total over the cap: the call throws;
    the calls it has made are store calls for attachments strictly before
    that one, in input order, so nothing is stored for the crossing
    attachment or any later one; it makes no delete call (earlier stores are
    not rolled back); and, every earlier store having been answered, the
    error is the BadRequest naming 200 MB and each earlier attachment was
    stored. *)
Theorem storeMessageAttachments_total_limit
    {W : Type} (env : Env W) (w : W) sessionId messageId attachments :
  maxTotalSizeBytes < totalLength attachments ->
  exists before crossing after,
    attachments = (before ++ crossing :: after)%list /\
    totalLength before <= maxTotalSizeBytes /\
    maxTotalSizeBytes < totalLength before + decodedLength crossing /\
    let r := run env (storeMessageAttachments sessionId messageId attachments) w in
    (exists e, outcome r = Thrown e) /\
    (exists later,
        map Some (map (messageStoreCall sessionId messageId) before)
        = (map called (events r) ++ later)%list) /\
    (forall ids answered,
        ~ In (Ev (BinaryDataService_deleteManyByBinaryDataId ids) answered) (events r)) /\
    (allAnswered (events r) ->
       outcome r
       = Thrown (BadRequestError
                   "Total size of attachments exceeds maximum size of 200 MB") /\
       map called (events r)
       = map Some (map (messageStoreCall sessionId messageId) before)).
Proof.
  intro Hover.
  destruct (crossing_point attachments 0) as (before & crossing & after & -> & H1 & H2).
  { unfold maxTotalSizeBytes. lia. }
  { lia. }
  exists before, crossing, after.
  split; [reflexivity|]. split; [lia|]. split; [lia|].
  unfold storeMessageAttachments.
  pose proof (loop_over_cap env sessionId messageId before crossing after 0 [] w H1 H2)
    as Hloop.
  cbv zeta in *.
  destruct Hloop as (Hthrow & (later & Hpre) & Hall).
  split; [exact Hthrow|]. split; [exists later; exact Hpre|]. split; [|exact Hall].
  intros ids answered Hin.
  apply (in_map called) in Hin. simpl in Hin.
  assert (Hin' : In (Some (BinaryDataService_deleteManyByBinaryDataId ids))
                    (map Some (map (messageStoreCall sessionId messageId) before))).
  { rewrite Hpre. apply in_or_app. left. exact Hin. }
  apply in_map_iff in Hin'. destruct Hin' as (c & Hc & Hin').
  apply in_map_iff in Hin'. destruct Hin' as (a & Ha & _).
  subst c. discriminate Hc.
Qed.

(** C2. A call of [storeMessageAttachments] either returns or throws; when it
    returns, the list has one record per input attachment and the i-th record
    is what the store answered for the i-th attachment, the stores having been
    made in input order.  On the empty list it returns the empty list without
    calling anything. *)
Theorem storeMessageAttachments_one_record_each
    {W : Type} (env : Env W) (w : W) sessionId messageId attachments :
  (let r := run env (storeMessageAttachments sessionId messageId attachments) w in
   match outcome r with
   | Returned records =>
       List.length records = List.length attachments /\
       events r = map (storeEvent sessionId messageId) (combine attachments records)
   | Thrown _ => True
   end) /\
  run env (storeMessageAttachments sessionId messageId []) w = (Returned [], [], w).
Proof.
  split; [|reflexivity].
  unfold storeMessageAttachments.
  pose proof (loop_returns env sessionId messageId attachments 0 [] w) as H.
  cbv zeta in *.
  destruct (outcome _) as [records|e]; [|exact I].
  destruct H as (fresh & -> & Hlen & Hev). simpl. split; assumption.
Qed.

(** *** Retrieval *)

Lemma retrieve_resolved {W : Type} (env : Env W) l w attachment w1 ev :
  Resolves env l w attachment w1 ev ->
  run env (retrieve l) w =
  let '(o, t, w2) := run env (fetch attachment) w1 in (o, ev :: t, w2).
Proof.
  intros [sessionId messageId attachmentIndex w0 w0' message att Hans Hidx
         |knowledgeItemId w0 w0' item att Hans Hatt];
    unfold retrieve, getMessageAttachment, getKnowledgeItemAttachment;
    rewrite run_bind, (run_await_answer _ _ _ _ _ Hans); cbn beta iota.
  - rewrite Hidx. reflexivity.
  - rewrite Hatt. reflexivity.
Qed.

Lemma whenTruthy_some o id :
  o = Some id -> truthy id = true -> whenTruthy o = Some id.
Proof. intros -> H. simpl. rewrite H. reflexivity. Qed.

Lemma whenTruthy_none o : truthy_opt o = false -> whenTruthy o = None.
Proof. destruct o as [s|]; simpl; [intros ->|]; reflexivity. Qed.

(** C3. For a record obtained by either lookup: with [id] set (truthy) and the
    store answering, the result is tagged stream and carries the stream and
    the metadata's file size; with [id] unset and [data] a non-empty payload,
    it is tagged buffer and carries the buffer and its length; with neither,
    the call throws NotFound without asking the store anything. *)
Theorem retrieval_mode_follows_fields
    {W : Type} (env : Env W) l w attachment w1 ev :
  Resolves env l w attachment w1 ev ->
  (forall id (metadata : Metadata.t) (stream : Stream) w2 w3,
      IBinaryData.id attachment = Some id -> truthy id = true ->
      answer env (BinaryDataService_getMetadata id) w1 = (Returned metadata, w2) ->
      answer env (BinaryDataService_getAsStream id) w2 = (Returned stream, w3) ->
      run env (retrieve l) w
      = (Returned (attachment, stream_ stream (Metadata.fileSize metadata)),
         [ev; Ev (BinaryDataService_getMetadata id) (Returned metadata);
              Ev (BinaryDataService_getAsStream id) (Returned stream)],
         w3)) /\
  (forall (buffer : Buffer) w2,
      truthy_opt (IBinaryData.id attachment) = false ->
      truthy (IBinaryData.data attachment) = true ->
      answer env (BinaryDataService_getAsBuffer attachment) w1 = (Returned buffer, w2) ->
      run env (retrieve l) w
      = (Returned (attachment, buffer_ buffer (Buffer_length buffer)),
         [ev; Ev (BinaryDataService_getAsBuffer attachment) (Returned buffer)],
         w2)) /\
  (truthy_opt (IBinaryData.id attachment) = false ->
   truthy (IBinaryData.data attachment) = false ->
   run env (retrieve l) w
   = (Thrown (NotFoundError "Attachment has no stored file"), [ev], w1)).
Proof.
  intro Hres. rewrite (retrieve_resolved env l w attachment w1 ev Hres).
  unfold fetch. repeat split.
  - intros id metadata stream w2 w3 Hid Htruthy Hmeta Hstream.
    rewrite (whenTruthy_some _ _ Hid Htruthy). simpl.
    rewrite Hmeta. simpl. rewrite Hstream. reflexivity.
  - intros buffer w2 Hid Hdata Hbuf.
    rewrite (whenTruthy_none _ Hid), Hdata. simpl.
    rewrite Hbuf. reflexivity.
  - intros Hid Hdata.
    rewrite (whenTruthy_none _ Hid), Hdata. reflexivity.
Qed.

(** C9. When both [id] and [data] are truthy the external id wins: whatever
    the store answers, the run never calls [getAsBuffer] and never yields a
    buffer-tagged result; with the store answering, it yields the
    stream-tagged result built from [getMetadata] and [getAsStream]. *)
Theorem retrieval_prefers_external_id
    {W : Type} (env : Env W) l w attachment w1 ev id :
  Resolves env l w attachment w1 ev ->
  IBinaryData.id attachment = Some id -> truthy id = true ->
  truthy (IBinaryData.data attachment) = true ->
  let r := run env (retrieve l) w in
  (forall binaryData answered,
      ~ In (Ev (BinaryDataService_getAsBuffer binaryData) answered) (events r)) /\
  (forall a (buffer : Buffer) size, outcome r <> Returned (a, buffer_ buffer size)) /\
  (forall (metadata : Metadata.t) (stream : Stream) w2 w3,
      answer env (BinaryDataService_getMetadata id) w1 = (Returned metadata, w2) ->
      answer env (BinaryDataService_getAsStream id) w2 = (Returned stream, w3) ->
      r = (Returned (attachment, stream_ stream (Metadata.fileSize metadata)),
           [ev; Ev (BinaryDataService_getMetadata id) (Returned metadata);
                Ev (BinaryDataService_getAsStream id) (Returned stream)],
           w3)).
Proof.
  intros Hres Hid Htruthy _. cbv zeta.
  assert (Hev : forall binaryData answered,
             ev <> Ev (BinaryDataService_getAsBuffer binaryData) answered).
  { intros binaryData answered Heq. apply (f_equal called) in Heq.
    destruct Hres; discriminate Heq. }
  rewrite (retrieve_resolved env l w attachment w1 ev Hres).
  unfold fetch. rewrite (whenTruthy_some _ _ Hid Htruthy). simpl.
  destruct (answer env (BinaryDataService_getMetadata id) w1) as [[metadata|e] w2];
    simpl.
  - destruct (answer env (BinaryDataService_getAsStream id) w2) as [[stream|e] w3]
      eqn:Hstream; simpl; unfold events, outcome; simpl.
    + split; [|split].
      * intros binaryData answered [H|[H|[H|[]]]];
          [exact (Hev _ _ H)| |]; apply (f_equal called) in H; discriminate H.
      * intros a buffer size H. discriminate H.
      * intros metadata' stream' w2' w3' H1 H2.
        injection H1 as <- <-. rewrite Hstream in H2.
        injection H2 as <- <-. reflexivity.
    + split; [|split].
      * intros binaryData answered [H|[H|[H|[]]]];
          [exact (Hev _ _ H)| |]; apply (f_equal called) in H; discriminate H.
      * intros a buffer size H. discriminate H.
      * intros metadata' stream' w2' w3' H1 H2.
        injection H1 as <- <-. rewrite Hstream in H2. discriminate H2.
  - unfold events, outcome; simpl. split; [|split].
    + intros binaryData answered [H|[H|[]]];
        [exact (Hev _ _ H)|]; apply (f_equal called) in H; discriminate H.
    + intros a buffer size H. discriminate H.
    + intros metadata' stream' w2' w3' H1 H2. discriminate H1.
Qed.

(** *** The knowledge-item size limit *)

Lemma storeKnowledgeItemAttachment_under knowledgeItemId attachment :
  decodedLength attachment <= maxKnowledgeItemSizeBytes ->
  storeKnowledgeItemAttachment knowledgeItemId attachment
  = await (knowledgeItemStoreCall knowledgeItemId attachment).
Proof.
  intro H. unfold storeKnowledgeItemAttachment. fold (decodedLength attachment).
  destruct (N.ltb_spec maxKnowledgeItemSizeBytes (decodedLength attachment));
    [lia|reflexivity].
Qed.

(** C4. A knowledge-item attachment that decodes to more than 50 MiB is
    refused with the BadRequest naming 50 MB, and the run makes no call at
    all: nothing reaches the binary store and the collaborators' state is
    untouched. *)
Theorem storeKnowledgeItemAttachment_item_limit
    {W : Type} (env : Env W) (w : W) knowledgeItemId attachment :
  maxKnowledgeItemSizeBytes < decodedLength attachment ->
  run env (storeKnowledgeItemAttachment knowledgeItemId attachment) w
  = (Thrown (BadRequestError
               "Knowledge item attachment exceeds maximum size of 50 MB"),
     [], w).
Proof.
  intro H. unfold storeKnowledgeItemAttachment. fold (decodedLength attachment).
  destruct (N.ltb_spec maxKnowledgeItemSizeBytes (decodedLength attachment));
    [reflexivity|lia].
Qed.

(** *** Deleting *)

Lemma no_ids_to_delete (attachments : list IBinaryData.t) :
  (forall a, In a attachments -> truthy_opt (IBinaryData.id a) = false) ->
  flat_map
    (fun attachment =>
       match whenTruthy (IBinaryData.id attachment) with
       | Some id => [id]
       | None => []
       end)
    attachments = [].
Proof.
  induction attachments as [|a rest IH]; intro H; simpl.
  - reflexivity.
  - rewrite (whenTruthy_none _ (H a (or_introl eq_refl))). simpl.
    apply IH. intros b Hb. apply H. right. exact Hb.
Qed.

(** C5, as the code has it.  Given a list without any id-bearing record (the
    empty list included), [deleteAttachments] still makes its one call of
    [deleteManyByBinaryDataId], with the empty id list, and its outcome is
    that call's answer: it throws exactly when the call rejects. *)
Theorem deleteAttachments_without_ids
    {W : Type} (env : Env W) (w : W) attachments :
  (forall a, In a attachments -> truthy_opt (IBinaryData.id a) = false) ->
  run env (deleteAttachments attachments) w
  = (fst (answer env (BinaryDataService_deleteManyByBinaryDataId []) w),
     [Ev (BinaryDataService_deleteManyByBinaryDataId [])
         (fst (answer env (BinaryDataService_deleteManyByBinaryDataId []) w))],
     snd (answer env (BinaryDataService_deleteManyByBinaryDataId []) w)).
Proof.
  intro H. unfold deleteAttachments. rewrite (no_ids_to_delete attachments H).
  exact (run_await env (BinaryDataService_deleteManyByBinaryDataId []) w).
Qed.

(** *** Data URLs *)

Lemma getDataUrl_prefixed {W : Type} (env : Env W) (w : W) binaryData :
  startsWith (IBinaryData.data binaryData) "data:" = true ->
  run env (getDataUrl binaryData) w = (Returned (IBinaryData.data binaryData), [], w).
Proof. intro H. unfold getDataUrl. rewrite H. reflexivity. Qed.

Lemma getDataUrl_output {W : Type} (env : Env W) (w : W) binaryData url :
  outcome (run env (getDataUrl binaryData) w) = Returned url ->
  startsWith url "data:" = true.
Proof.
  unfold getDataUrl.
  destruct (startsWith (IBinaryData.data binaryData) "data:") eqn:Hprefix.
  - simpl. intro H. injection H as <-. exact Hprefix.
  - rewrite run_bind, run_await.
    destruct (answer env (BinaryDataService_getAsBuffer binaryData) w) as [[buffer|e] w1];
      unfold outcome; simpl; intro H; [|discriminate H].
    injection H as <-. unfold startsWith. simpl.
    destruct (_ ++ _)%string; reflexivity.
Qed.

(** C6. On a record whose [data] already starts with [data:], [getDataUrl]
    returns that very string and calls nothing; every string [getDataUrl]
    returns is such a string, so feeding a result back in as [data] gives it
    back unchanged, again without a fetch. *)
Theorem getDataUrl_idempotent :
  (forall (W : Type) (env : Env W) (w : W) binaryData,
      startsWith (IBinaryData.data binaryData) "data:" = true ->
      run env (getDataUrl binaryData) w
      = (Returned (IBinaryData.data binaryData), [], w)) /\
  (forall (W : Type) (env : Env W) (w : W) binaryData url,
      outcome (run env (getDataUrl binaryData) w) = Returned url ->
      forall (W' : Type) (env' : Env W') (w' : W') again,
        IBinaryData.data again = url ->
        run env' (getDataUrl again) w' = (Returned url, [], w')).
Proof.
  split.
  - intros W env w binaryData H. apply getDataUrl_prefixed. exact H.
  - intros W env w binaryData url Hout W' env' w' again Hdata.
    rewrite <- Hdata. apply getDataUrl_prefixed. rewrite Hdata.
    exact (getDataUrl_output env w binaryData url Hout).
Qed.

(** C8. On a record whose [data] does not start with [data:], [getDataUrl]
    asks the store for the bytes as a buffer and, once answered, returns
    [data:<mimeType>;base64,<payload>] where the payload is the buffer
    rendered in the binary encoding and the mime type is the record's own
    when it has a non-empty one, [application/octet-stream] otherwise. *)
Theorem getDataUrl_wraps_payload
    {W : Type} (env : Env W) (w w1 : W) binaryData (buffer : Buffer) :
  startsWith (IBinaryData.data binaryData) "data:" = false ->
  answer env (BinaryDataService_getAsBuffer binaryData) w = (Returned buffer, w1) ->
  exists mimeType,
    run env (getDataUrl binaryData) w
    = (Returned ("data:" ++ mimeType ++ ";base64," ++ Buffer_toString buffer),
       [Ev (BinaryDataService_getAsBuffer binaryData) (Returned buffer)],
       w1) /\
    (forall m, IBinaryData.mimeType binaryData = Some m -> m <> "" -> mimeType = m) /\
    (IBinaryData.mimeType binaryData = None \/ IBinaryData.mimeType binaryData = Some "" ->
     mimeType = "application/octet-stream").
Proof.
  intros Hprefix Hbuf.
  exists (or_else (IBinaryData.mimeType binaryData) "application/octet-stream").
  split; [|split].
  - unfold getDataUrl. rewrite Hprefix.
    rewrite run_bind, (run_await_answer _ _ _ _ _ Hbuf). reflexivity.
  - intros m -> Hm. unfold or_else, truthy.
    destruct (String.eqb_spec m ""); [contradiction|reflexivity].
  - intros [-> | ->]; reflexivity.
Qed.

(** *** File extensions *)

Lemma split_dotless (name : string) : dotless name -> split "." name = [name].
Proof.
  unfold dotless. induction name as [|c rest IH]; intro H; simpl.
  - reflexivity.
  - destruct (Ascii.eqb_spec c ".") as [->|Hc].
    + exfalso. apply H. left. reflexivity.
    + rewrite IH; [reflexivity|]. intro Hin. apply H. right. exact Hin.
Qed.

Lemma split_nonempty (sep : ascii) (s : string) : split sep s <> [].
Proof.
  destruct s as [|c rest]; simpl; [discriminate|].
  destruct (Ascii.eqb c sep); [discriminate|].
  destruct (split sep rest); discriminate.
Qed.

Lemma pop_nonempty {A : Type} (l : list A) : l <> [] -> pop l <> None.
Proof.
  induction l as [|x [|y rest] IH]; intro H.
  - contradiction.
  - discriminate.
  - change (pop (x :: y :: rest)) with (pop (y :: rest)). apply IH. discriminate.
Qed.

Lemma extension_absent_iff (sanitized : option string) :
  match sanitized with
  | Some name => pop (split "." name)
  | None => None
  end = None <-> sanitized = None.
Proof.
  destruct sanitized as [name|]; split; intro H; try reflexivity; try discriminate.
  exfalso. exact (pop_nonempty _ (split_nonempty "." name) H).
Qed.

(** C10. Both store paths hand the binary store a record whose [fileName] is
    the sanitized name and whose [fileExtension] is the last dot-segment of
    it.  For a sanitized name without a dot that segment is the whole name,
    so [fileExtension] equals the name; [fileExtension] is absent exactly
    when the sanitized name is. *)
Theorem fileExtension_of_stored_record
    sessionId messageId knowledgeItemId attachment buffer :
  exists forMessage forItem messageLocation itemLocation,
    processMessageAttachment sessionId messageId attachment buffer
    = await (BinaryDataService_store messageLocation buffer forMessage) /\
    processKnowledgeItemAttachment knowledgeItemId attachment buffer
    = await (BinaryDataService_store itemLocation buffer forItem) /\
    IBinaryData.fileName forMessage
    = sanitizeFilename (ChatAttachment.fileName attachment) /\
    IBinaryData.fileName forItem
    = sanitizeFilename (ChatAttachment.fileName attachment) /\
    (forall name,
        sanitizeFilename (ChatAttachment.fileName attachment) = Some name ->
        dotless name ->
        IBinaryData.fileExtension forMessage = Some name /\
        IBinaryData.fileExtension forItem = Some name) /\
    (IBinaryData.fileExtension forMessage = None <->
     sanitizeFilename (ChatAttachment.fileName attachment) = None) /\
    (IBinaryData.fileExtension forItem = None <->
     sanitizeFilename (ChatAttachment.fileName attachment) = None).
Proof.
  unfold processMessageAttachment, processKnowledgeItemAttachment.
  do 4 eexists.
  split; [reflexivity|]. split; [reflexivity|].
  cbn [IBinaryData.fileName IBinaryData.fileExtension].
  split; [reflexivity|]. split; [reflexivity|].
  split; [|split; apply extension_absent_iff].
  intros name -> Hdot. rewrite (split_dotless name Hdot). split; reflexivity.
Qed.

(** *** Creating a knowledge item *)

Lemma repository_createKnowledgeItem_insert_fails
    {W : Type} (env : Env W) (w w1 : W) knowledgeItem e :
  answer env (EntityManager_insert knowledgeItem) w = (Thrown e, w1) ->
  run env (repository_createKnowledgeItem knowledgeItem) w
  = (Thrown e, [Ev (EntityManager_insert knowledgeItem) (Thrown e)], w1).
Proof.
  intro H. unfold repository_createKnowledgeItem.
  rewrite run_bind, (run_await_answer _ _ _ _ _ H). reflexivity.
Qed.

(** C7. The attachment has been stored and the repository's
    [createKnowledgeItem] then fails with [e].  The service runs
    [deleteAttachments] on the stored record; when that cleanup itself throws,
    one error-level line is logged and the cleanup error goes no further.
    Either way the call throws [e], the database failure. *)
Theorem createKnowledgeItem_compensates
    {W : Type} (env : Env W) (w w1 w2 w3 w4 : W)
    user attachment id (stored : IBinaryData.t) e dbEvents cleanup cleanupEvents :
  uuid env w = (id, w1) ->
  decodedLength attachment <= maxKnowledgeItemSizeBytes ->
  answer env (knowledgeItemStoreCall id attachment) w1 = (Returned stored, w2) ->
  run env
    (repository_createKnowledgeItem
       {| ChatHubKnowledgeItem.id := id;
          ChatHubKnowledgeItem.type := "attachment";
          ChatHubKnowledgeItem.ownerId := User.id user;
          ChatHubKnowledgeItem.attachment := Some stored |}) w2
  = (Thrown e, dbEvents, w3) ->
  run env (deleteAttachments [stored]) w3 = (cleanup, cleanupEvents, w4) ->
  run env (createKnowledgeItem user (Some attachment)) w
  = (Thrown e,
     (EvUuid id
        :: Ev (knowledgeItemStoreCall id attachment) (Returned stored)
        :: dbEvents ++ cleanupEvents
        ++ match cleanup with
           | Thrown cleanupError =>
               [EvLog LogError
                  ("Failed to clean up attachment file for knowledge item "
                     ++ id ++ ": " ++ Error_toString cleanupError)]
           | Returned _ => []
           end)%list,
     w4).
Proof.
  intros Huuid Hsize Hstore Hdb Hcleanup.
  assert (Hstored :
            run env (storeKnowledgeItemAttachment id attachment) w1
            = (Returned stored,
               [Ev (knowledgeItemStoreCall id attachment) (Returned stored)], w2)).
  { rewrite (storeKnowledgeItemAttachment_under id attachment Hsize).
    exact (run_await_answer env _ w1 w2 _ Hstore). }
  unfold createKnowledgeItem.
  cbn [run]. rewrite Huuid.
  rewrite run_bind, run_bind, Hstored.
  cbn beta iota. cbn [run app].
  rewrite run_try_catch, run_bind, Hdb.
  cbn beta iota.
  rewrite run_bind, run_try_catch, Hcleanup.
  destruct cleanup as [[]|cleanupError]; cbn beta iota; cbn [run app].
  - rewrite !app_nil_r. reflexivity.
  - rewrite !app_nil_r. reflexivity.
Qed.

(** *** Retrieval: lookups that find nothing, calls that reject *)

Lemma index_none_iff {A : Type} (arr : option (list A)) (i : Z) :
  index arr i = None <->
  arr = None \/
  exists l, arr = Some l /\ (i < 0 \/ Z.of_nat (List.length l) <= i)%Z.
Proof.
  destruct arr as [l|]; simpl.
  - destruct (Z.ltb_spec i 0) as [Hneg|Hpos].
    + split; [|reflexivity]. intros _. right. exists l. split; [reflexivity|lia].
    + rewrite nth_error_None. split.
      * intro Hlen. right. exists l. split; [reflexivity|lia].
      * intros [Hnone|(l' & Heq & Hrange)]; [discriminate Hnone|].
        injection Heq as <-. lia.
  - split; [intros _; left; reflexivity|reflexivity].
Qed.

(** X1. [getMessageAttachment] answers NotFound, having called nothing but
    the message lookup, when the message is missing ("Message not found")
    and when the message has no attachment at the index, the list being
    absent, the index negative or at least the list's length ("Attachment
    not found"). *)
Theorem getMessageAttachment_not_found
    {W : Type} (env : Env W) (w w1 : W) sessionId messageId attachmentIndex
    (found : option ChatHubMessage.t) :
  answer env (MessageRepository_getOneById messageId sessionId) w
  = (Returned found, w1) ->
  (found = None ->
   run env (getMessageAttachment sessionId messageId attachmentIndex) w
   = (Thrown (NotFoundError "Message not found"),
      [Ev (MessageRepository_getOneById messageId sessionId) (Returned found)],
      w1)) /\
  (forall message,
      found = Some message ->
      ChatHubMessage.attachments message = None \/
      (exists l, ChatHubMessage.attachments message = Some l /\
                 (attachmentIndex < 0 \/ Z.of_nat (List.length l) <= attachmentIndex)%Z) ->
      run env (getMessageAttachment sessionId messageId attachmentIndex) w
      = (Thrown (NotFoundError "Attachment not found"),
         [Ev (MessageRepository_getOneById messageId sessionId) (Returned found)],
         w1)).
Proof.
  intro Hans. unfold getMessageAttachment.
  rewrite run_bind, (run_await_answer _ _ _ _ _ Hans). cbn beta iota.
  split.
  - intros ->. reflexivity.
  - intros message -> Hrange.
    apply index_none_iff in Hrange. rewrite Hrange. reflexivity.
Qed.

(** X2. [getKnowledgeItemAttachment] answers NotFound "Knowledge item
    attachment not found", having called nothing but the lookup, when the
    item is missing or its attachment column is null. *)
Theorem getKnowledgeItemAttachment_not_found
    {W : Type} (env : Env W) (w w1 : W) knowledgeItemId
    (found : option ChatHubKnowledgeItem.t) :
  answer env (KnowledgeItemRepository_findOne knowledgeItemId) w
  = (Returned found, w1) ->
  found = None \/
  (exists item, found = Some item /\ ChatHubKnowledgeItem.attachment item = None) ->
  run env (getKnowledgeItemAttachment knowledgeItemId) w
  = (Thrown (NotFoundError "Knowledge item attachment not found"),
     [Ev (KnowledgeItemRepository_findOne knowledgeItemId) (Returned found)],
     w1).
Proof.
  intros Hans Hnone. unfold getKnowledgeItemAttachment.
  rewrite run_bind, (run_await_answer _ _ _ _ _ Hans). cbn beta iota.
  destruct Hnone as [->|(item & -> & ->)]; reflexivity.
Qed.

(** X3. A rejected store call ends retrieval with that call's error: when
    [getMetadata] rejects, no stream is opened; when [getAsStream] rejects
    after the metadata came back, or [getAsBuffer] rejects on an inline
    record, the error is passed on and nothing else is called. *)
Theorem retrieval_passes_rejections_on
    {W : Type} (env : Env W) l w attachment w1 ev :
  Resolves env l w attachment w1 ev ->
  (forall id e w2,
      IBinaryData.id attachment = Some id -> truthy id = true ->
      answer env (BinaryDataService_getMetadata id) w1 = (Thrown e, w2) ->
      run env (retrieve l) w
      = (Thrown e, [ev; Ev (BinaryDataService_getMetadata id) (Thrown e)], w2)) /\
  (forall id (metadata : Metadata.t) e w2 w3,
      IBinaryData.id attachment = Some id -> truthy id = true ->
      answer env (BinaryDataService_getMetadata id) w1 = (Returned metadata, w2) ->
      answer env (BinaryDataService_getAsStream id) w2 = (Thrown e, w3) ->
      run env (retrieve l) w
      = (Thrown e,
         [ev; Ev (BinaryDataService_getMetadata id) (Returned metadata);
              Ev (BinaryDataService_getAsStream id) (Thrown e)],
         w3)) /\
  (forall e w2,
      truthy_opt (IBinaryData.id attachment) = false ->
      truthy (IBinaryData.data attachment) = true ->
      answer env (BinaryDataService_getAsBuffer attachment) w1 = (Thrown e, w2) ->
      run env (retrieve l) w
      = (Thrown e, [ev; Ev (BinaryDataService_getAsBuffer attachment) (Thrown e)], w2)).
Proof.
  intro Hres. rewrite (retrieve_resolved env l w attachment w1 ev Hres).
  unfold fetch. repeat split.
  - intros id e w2 Hid Htruthy Hmeta.
    rewrite (whenTruthy_some _ _ Hid Htruthy). simpl. rewrite Hmeta. reflexivity.
  - intros id metadata e w2 w3 Hid Htruthy Hmeta Hstream.
    rewrite (whenTruthy_some _ _ Hid Htruthy). simpl.
    rewrite Hmeta. simpl. rewrite Hstream. reflexivity.
  - intros e w2 Hid Hdata Hbuf.
    rewrite (whenTruthy_none _ Hid), Hdata. simpl. rewrite Hbuf. reflexivity.
Qed.

(** *** Deleting, in general *)

Lemma externalIds_flat_map (attachments : list IBinaryData.t) :
  flat_map
    (fun attachment =>
       match whenTruthy (IBinaryData.id attachment) with
       | Some id => [id]
       | None => []
       end)
    attachments = externalIds attachments.
Proof.
  unfold externalIds.
  induction attachments as [|a rest IH]; simpl; [reflexivity|].
  rewrite IH. destruct (IBinaryData.id a) as [id|] eqn:Hid; simpl; [|reflexivity].
  destruct (truthy id); simpl; [rewrite Hid|]; reflexivity.
Qed.

Lemma externalIds_app (l1 l2 : list IBinaryData.t) :
  externalIds (l1 ++ l2) = (externalIds l1 ++ externalIds l2)%list.
Proof. unfold externalIds. rewrite filter_app, map_app. reflexivity. Qed.

Lemma externalIds_In (attachments : list IBinaryData.t) (id : string) :
  In id (externalIds attachments) <->
  exists a, In a attachments /\ IBinaryData.id a = Some id /\ id <> "".
Proof.
  unfold externalIds. rewrite in_map_iff. split.
  - intros (a & Hid & Hin). apply filter_In in Hin. destruct Hin as [Hin Htruthy].
    exists a. split; [exact Hin|].
    destruct (IBinaryData.id a) as [i|]; simpl in Htruthy; [|discriminate Htruthy].
    subst i. split; [reflexivity|].
    unfold truthy in Htruthy. destruct (String.eqb_spec id ""); [discriminate|assumption].
  - intros (a & Hin & Hid & Hne). exists a. rewrite Hid. split; [reflexivity|].
    apply filter_In. split; [exact Hin|]. rewrite Hid. simpl. unfold truthy.
    destruct (String.eqb_spec id ""); [contradiction|reflexivity].
Qed.

Lemma run_deleteAttachments {W : Type} (env : Env W) (w : W) attachments :
  run env (deleteAttachments attachments) w
  = (fst (answer env (BinaryDataService_deleteManyByBinaryDataId
                        (externalIds attachments)) w),
     [Ev (BinaryDataService_deleteManyByBinaryDataId (externalIds attachments))
         (fst (answer env (BinaryDataService_deleteManyByBinaryDataId
                             (externalIds attachments)) w))],
     snd (answer env (BinaryDataService_deleteManyByBinaryDataId
                        (externalIds attachments)) w)).
Proof.
  unfold deleteAttachments. rewrite externalIds_flat_map.
  exact (run_await env
           (BinaryDataService_deleteManyByBinaryDataId (externalIds attachments)) w).
Qed.

(** X4. Whatever the list, [deleteAttachments] makes exactly one call, a
    [deleteManyByBinaryDataId], and its outcome is that call's answer.  The
    ids passed are those of the records with a non-empty [id], in list order:
    an id is passed if and only if some record carries it, and the ids of a
    concatenation are the concatenation of the ids. *)
Theorem deleteAttachments_one_batched_call
    {W : Type} (env : Env W) (w : W) attachments :
  run env (deleteAttachments attachments) w
  = (fst (answer env (BinaryDataService_deleteManyByBinaryDataId
                        (externalIds attachments)) w),
     [Ev (BinaryDataService_deleteManyByBinaryDataId (externalIds attachments))
         (fst (answer env (BinaryDataService_deleteManyByBinaryDataId
                             (externalIds attachments)) w))],
     snd (answer env (BinaryDataService_deleteManyByBinaryDataId
                        (externalIds attachments)) w)) /\
  (forall id,
      In id (externalIds attachments) <->
      exists a, In a attachments /\ IBinaryData.id a = Some id /\ id <> "") /\
  (forall l1 l2,
      attachments = (l1 ++ l2)%list ->
      externalIds attachments = (externalIds l1 ++ externalIds l2)%list).
Proof.
  split; [apply run_deleteAttachments|].
  split; [apply externalIds_In|].
  intros l1 l2 ->. apply externalIds_app.
Qed.

(** *** The batch loop, in general *)

Lemma allAnswered_cons ev t :
  rejected ev = false -> allAnswered t -> allAnswered (ev :: t).
Proof. intros Hev Ht ev' [<-|Hin]; [exact Hev|exact (Ht ev' Hin)]. Qed.

Lemma allAnswered_tail ev t : allAnswered (ev :: t) -> allAnswered t.
Proof. intros H ev' Hin. apply H. right. exact Hin. Qed.

Lemma loop_trace {W : Type} (env : Env W) sessionId messageId attachments :
  forall running stored w,
    let r := run env
               (storeMessageAttachments_loop sessionId messageId attachments
                  running stored) w in
    exists n,
      (n <= List.length attachments)%nat /\
      map called (events r)
      = map Some (map (messageStoreCall sessionId messageId) (firstn n attachments)) /\
      (allAnswered (events r) \/
       exists l c e,
         events r = (l ++ [Ev c (Thrown e)])%list /\ allAnswered l /\
         outcome r = Thrown e).
Proof.
  induction attachments as [|a rest IH]; intros running stored w; cbv zeta.
  - exists 0%nat. simpl. split; [lia|]. split; [reflexivity|].
    left. intros ev [].
  - destruct (N.ltb_spec maxTotalSizeBytes (running + decodedLength a)) as [Hover|Hunder].
    + rewrite loop_step_over by exact Hover.
      exists 0%nat. simpl. split; [lia|]. split; [reflexivity|].
      left. intros ev [].
    + rewrite loop_step_under by exact Hunder.
      rewrite run_bind, run_await.
      destruct (answer env (messageStoreCall sessionId messageId a) w) as [[x|e] w1];
        cbn [fst snd].
      * specialize (IH (running + decodedLength a) (stored ++ [x])%list w1).
        cbv zeta in IH.
        destruct (run env
                    (storeMessageAttachments_loop sessionId messageId rest
                       (running + decodedLength a) (stored ++ [x])) w1)
          as [[o t] w2]; unfold outcome, events in *; cbn [fst snd] in *.
        destruct IH as (n & Hn & Hcalls & Hend).
        exists (S n). split; [simpl; lia|]. split; [simpl; rewrite Hcalls; reflexivity|].
        destruct Hend as [Hall|(l & c & e & -> & Hl & Ho)].
        -- left. apply allAnswered_cons; [reflexivity|exact Hall].
        -- right.
           exists (Ev (messageStoreCall sessionId messageId a) (Returned x) :: l), c, e.
           split; [reflexivity|]. split; [|exact Ho].
           apply allAnswered_cons; [reflexivity|exact Hl].
      * unfold outcome, events; cbn [fst snd].
        exists 1%nat. split; [simpl; lia|]. split; [reflexivity|].
        right. exists [], (messageStoreCall sessionId messageId a), e.
        split; [reflexivity|]. split; [intros ev []|reflexivity].
Qed.

(** X5. In every run of [storeMessageAttachments] the calls made are store
    calls for the first n attachments, in input order, one each; nothing else
    is ever called.  Either every one of them was answered, or the last one -
    and only that one - was rejected, and then its error is what the method
    throws: a failed store ends the batch, the later attachments are not
    tried and the earlier ones stay stored. *)
Theorem storeMessageAttachments_stores_in_order
    {W : Type} (env : Env W) (w : W) sessionId messageId attachments :
  let r := run env (storeMessageAttachments sessionId messageId attachments) w in
  exists n,
    (n <= List.length attachments)%nat /\
    map called (events r)
    = map Some (map (messageStoreCall sessionId messageId) (firstn n attachments)) /\
    (allAnswered (events r) \/
     exists l c e,
       events r = (l ++ [Ev c (Thrown e)])%list /\ allAnswered l /\
       outcome r = Thrown e).
Proof.
  exact (loop_trace env sessionId messageId attachments 0 [] w).
Qed.

Lemma loop_returns_iff {W : Type} (env : Env W) sessionId messageId attachments :
  forall running stored w,
    running <= maxTotalSizeBytes ->
    let r := run env
               (storeMessageAttachments_loop sessionId messageId attachments
                  running stored) w in
    (exists records, outcome r = Returned records) <->
    running + totalLength attachments <= maxTotalSizeBytes /\ allAnswered (events r).
Proof.
  induction attachments as [|a rest IH]; intros running stored w Hrun; cbv zeta.
  - simpl. split.
    + intros _. split; [lia|intros ev []].
    + intros _. eexists. reflexivity.
  - destruct (N.ltb_spec maxTotalSizeBytes (running + decodedLength a)) as [Hover|Hunder].
    + rewrite loop_step_over by exact Hover. simpl. split.
      * intros (records & H). discriminate H.
      * intros [Hle _]. fold (decodedLength a) in Hle. lia.
    + rewrite loop_step_under by exact Hunder.
      rewrite run_bind, run_await.
      destruct (answer env (messageStoreCall sessionId messageId a) w) as [[x|e] w1];
        cbn [fst snd].
      * specialize (IH (running + decodedLength a) (stored ++ [x])%list w1 Hunder).
        cbv zeta in IH.
        destruct (run env
                    (storeMessageAttachments_loop sessionId messageId rest
                       (running + decodedLength a) (stored ++ [x])) w1)
          as [[o t] w2]; unfold outcome, events in *; cbn [fst snd] in *.
        rewrite IH. simpl. fold (decodedLength a). split.
        -- intros [Hle Hall]. split; [lia|].
           apply allAnswered_cons; [reflexivity|exact Hall].
        -- intros [Hle Hall]. split; [lia|]. exact (allAnswered_tail _ _ Hall).
      * unfold outcome, events; cbn [fst snd]. split.
        -- intros (records & H). discriminate H.
        -- intros [_ Hall]. specialize (Hall _ (or_introl eq_refl)). discriminate Hall.
Qed.

(** X6. [storeMessageAttachments] returns a list exactly when the cumulative
    decoded length is at most 200 MiB - the cap itself is allowed - and every
    store call it made was answered. *)
Theorem storeMessageAttachments_returns_iff
    {W : Type} (env : Env W) (w : W) sessionId messageId attachments :
  let r := run env (storeMessageAttachments sessionId messageId attachments) w in
  (exists records, outcome r = Returned records) <->
  totalLength attachments <= maxTotalSizeBytes /\ allAnswered (events r).
Proof.
  unfold storeMessageAttachments.
  apply (loop_returns_iff env sessionId messageId attachments 0 [] w).
  unfold maxTotalSizeBytes. lia.
Qed.

(** *** Storing one knowledge-item attachment *)

Lemma storeKnowledgeItemAttachment_over knowledgeItemId attachment :
  maxKnowledgeItemSizeBytes < decodedLength attachment ->
  storeKnowledgeItemAttachment knowledgeItemId attachment
  = Throw (BadRequestError "Knowledge item attachment exceeds maximum size of 50 MB").
Proof.
  intro H. unfold storeKnowledgeItemAttachment. fold (decodedLength attachment).
  destruct (N.ltb_spec maxKnowledgeItemSizeBytes (decodedLength attachment));
    [reflexivity|lia].
Qed.

(** X7. [storeKnowledgeItemAttachment] calls nothing exactly when the
    attachment decodes to more than 50 MiB; at 50 MiB or less it makes one
    store call, keyed by the knowledge item's id, and its outcome - record or
    error - is that call's answer. *)
Theorem storeKnowledgeItemAttachment_within_limit
    {W : Type} (env : Env W) (w : W) knowledgeItemId attachment :
  let r := run env (storeKnowledgeItemAttachment knowledgeItemId attachment) w in
  (events r = [] <-> maxKnowledgeItemSizeBytes < decodedLength attachment) /\
  (decodedLength attachment <= maxKnowledgeItemSizeBytes ->
   r = (fst (answer env (knowledgeItemStoreCall knowledgeItemId attachment) w),
        [Ev (knowledgeItemStoreCall knowledgeItemId attachment)
            (fst (answer env (knowledgeItemStoreCall knowledgeItemId attachment) w))],
        snd (answer env (knowledgeItemStoreCall knowledgeItemId attachment) w))).
Proof.
  cbv zeta.
  destruct (N.ltb_spec maxKnowledgeItemSizeBytes (decodedLength attachment)) as [Hover|Hunder].
  - rewrite (storeKnowledgeItemAttachment_over _ _ Hover).
    split; [split; [intros _; exact Hover|reflexivity]|]. intro Hle. lia.
  - rewrite (storeKnowledgeItemAttachment_under _ _ Hunder).
    assert (Hrun := run_await env (knowledgeItemStoreCall knowledgeItemId attachment) w).
    split; [|intros _; exact Hrun].
    unfold Resp, knowledgeItemStoreCall in Hrun |- *. rewrite Hrun.
    split; [intro H; discriminate H|intro H; lia].
Qed.

(** *** The record handed to the store *)

Lemma parseSize_showN (n : N) : parseSize (showN n) = Some n.
Proof.
  unfold parseSize, showN. rewrite NilEmpty.usu. simpl.
  rewrite DecimalN.Unsigned.of_to. reflexivity.
Qed.

(** X8. Both store paths pass the decoded buffer together with a record that
    carries the uploaded payload and mime type unchanged, no id, and a
    [fileSize] that reads back as the buffer's byte count; the location is
    built from the session and message ids, respectively from the knowledge
    item's id. *)
Theorem stored_record_describes_payload
    sessionId messageId knowledgeItemId attachment (buffer : Buffer) :
  exists forMessage forItem,
    processMessageAttachment sessionId messageId attachment buffer
    = await (BinaryDataService_store
               (FileLocation.ofCustom "chat_message_attachment"
                  ["chat-hub"; "sessions"; sessionId; "messages"; messageId]
                  messageId)
               buffer forMessage) /\
    processKnowledgeItemAttachment knowledgeItemId attachment buffer
    = await (BinaryDataService_store
               (FileLocation.ofCustom "chat_knowledge_item_attachment"
                  ["chat-hub"; "knowledge-items"; knowledgeItemId]
                  knowledgeItemId)
               buffer forItem) /\
    (forall binaryData,
        binaryData = forMessage \/ binaryData = forItem ->
        IBinaryData.data binaryData = ChatAttachment.data attachment /\
        IBinaryData.mimeType binaryData = Some (ChatAttachment.mimeType attachment) /\
        IBinaryData.id binaryData = None /\
        exists size,
          IBinaryData.fileSize binaryData = Some size /\
          parseSize size = Some (Buffer_length buffer)).
Proof.
  unfold processMessageAttachment, processKnowledgeItemAttachment.
  do 2 eexists. split; [reflexivity|]. split; [reflexivity|].
  intros binaryData [->| ->]; cbn;
    (repeat split; eexists; split; [reflexivity|apply parseSize_showN]).
Qed.

Lemma string_app_assoc (a b c : string) : ((a ++ b) ++ c = a ++ (b ++ c))%string.
Proof. induction a as [|x a IH]; simpl; [reflexivity|]. rewrite IH. reflexivity. Qed.

(** Splitting on dots and joining with dots gives the string back. *)
Lemma join_split (s : string) : join (split "." s) = s.
Proof.
  induction s as [|c rest IH]; simpl; [reflexivity|].
  pose proof (split_nonempty "." rest) as Hne.
  destruct (Ascii.eqb_spec c ".") as [->|Hc].
  - destruct (split "." rest) as [|seg segs]; [contradiction|].
    change (join ("" :: seg :: segs)) with ("" ++ "." ++ join (seg :: segs)).
    rewrite IH. reflexivity.
  - destruct (split "." rest) as [|seg segs]; [contradiction|].
    destruct segs as [|seg2 segs].
    + simpl in IH. simpl. rewrite IH. reflexivity.
    + change (join (String c seg :: seg2 :: segs))
        with (String c (seg ++ "." ++ join (seg2 :: segs))).
      change (join (seg :: seg2 :: segs)) with (seg ++ "." ++ join (seg2 :: segs)) in IH.
      rewrite IH. reflexivity.
Qed.

Lemma split_segments_dotless (s : string) : Forall dotless (split "." s).
Proof.
  induction s as [|c rest IH]; simpl.
  - constructor; [intros []|constructor].
  - destruct (Ascii.eqb_spec c ".") as [->|Hc].
    + constructor; [intros []|exact IH].
    + destruct (split "." rest) as [|seg segs]; [constructor; [|constructor]|].
      * intros [H|[]]. apply Hc. exact H.
      * inversion IH as [|? ? Hseg Hsegs]; subst. constructor; [|exact Hsegs].
        intros [H|H]; [apply Hc; exact H|exact (Hseg H)].
Qed.

Lemma pop_some_snoc {A : Type} (l : list A) (x : A) :
  pop l = Some x -> exists init, l = (init ++ [x])%list.
Proof.
  induction l as [|y [|z rest] IH]; intro H.
  - discriminate H.
  - injection H as <-. exists []. reflexivity.
  - change (pop (y :: z :: rest)) with (pop (z :: rest)) in H.
    destruct (IH H) as (init & Hinit). exists (y :: init). rewrite Hinit. reflexivity.
Qed.

Lemma join_snoc (init : list string) (x : string) :
  join (init ++ [x]) = match init with
                       | [] => x
                       | _ => join init ++ "." ++ x
                       end.
Proof.
  induction init as [|a [|b t] IH]; [reflexivity|reflexivity|].
  change (join ((a :: b :: t) ++ [x])) with (a ++ "." ++ join ((b :: t) ++ [x])).
  rewrite IH.
  change (join (a :: b :: t)) with (a ++ "." ++ join (b :: t)).
  rewrite !string_app_assoc. reflexivity.
Qed.

Lemma last_segment (name : string) :
  exists ext,
    pop (split "." name) = Some ext /\ dotless ext /\
    (name = ext \/ exists stem, name = stem ++ "." ++ ext).
Proof.
  destruct (pop (split "." name)) as [ext|] eqn:Hpop.
  - exists ext. split; [reflexivity|].
    destruct (pop_some_snoc _ _ Hpop) as (init & Hinit).
    split.
    + pose proof (split_segments_dotless name) as Hall. rewrite Hinit in Hall.
      apply Forall_app in Hall. destruct Hall as [_ Hlast].
      inversion Hlast; assumption.
    + pose proof (join_split name) as Hjoin. rewrite Hinit, join_snoc in Hjoin.
      destruct init as [|a init]; [left|right; exists (join (a :: init))];
        symmetry; exact Hjoin.
  - exfalso. exact (pop_nonempty _ (split_nonempty "." name) Hpop).
Qed.

(** X9. The [fileExtension] both store paths record is a suffix of the
    sanitized name that holds no dot: either the name has no dot and the
    extension is the whole name, or the name is some stem, a dot, and the
    extension. *)
Theorem fileExtension_is_dotless_suffix
    sessionId messageId knowledgeItemId attachment (buffer : Buffer) name :
  sanitizeFilename (ChatAttachment.fileName attachment) = Some name ->
  exists forMessage forItem messageLocation itemLocation ext,
    processMessageAttachment sessionId messageId attachment buffer
    = await (BinaryDataService_store messageLocation buffer forMessage) /\
    processKnowledgeItemAttachment knowledgeItemId attachment buffer
    = await (BinaryDataService_store itemLocation buffer forItem) /\
    IBinaryData.fileExtension forMessage = Some ext /\
    IBinaryData.fileExtension forItem = Some ext /\
    dotless ext /\
    (name = ext \/ exists stem, name = stem ++ "." ++ ext).
Proof.
  intro Hname.
  destruct (last_segment name) as (ext & Hpop & Hdot & Hshape).
  unfold processMessageAttachment, processKnowledgeItemAttachment.
  do 4 eexists. exists ext.
  split; [reflexivity|]. split; [reflexivity|].
  cbn [IBinaryData.fileExtension]. rewrite Hname.
  repeat split; assumption.
Qed.

(** *** Creating a knowledge item: the other paths *)

Lemma run_storeKnowledgeItemAttachment_under
    {W : Type} (env : Env W) (w w1 : W) knowledgeItemId attachment
    (r : Outcome IBinaryData.t) :
  decodedLength attachment <= maxKnowledgeItemSizeBytes ->
  answer env (knowledgeItemStoreCall knowledgeItemId attachment) w = (r, w1) ->
  run env (storeKnowledgeItemAttachment knowledgeItemId attachment) w
  = (r, [Ev (knowledgeItemStoreCall knowledgeItemId attachment) r], w1).
Proof.
  intros Hsize Hans.
  rewrite (storeKnowledgeItemAttachment_under knowledgeItemId attachment Hsize).
  exact (run_await_answer env (knowledgeItemStoreCall knowledgeItemId attachment)
           w w1 r Hans).
Qed.

Lemma run_repository_createKnowledgeItem {W : Type} (env : Env W) (w : W) knowledgeItem :
  run env (repository_createKnowledgeItem knowledgeItem) w
  = match answer env (EntityManager_insert knowledgeItem) w with
    | (Returned u, w1) =>
        (fst (answer env (EntityManager_findOneOrFail
                            (ChatHubKnowledgeItem.id knowledgeItem)) w1),
         [Ev (EntityManager_insert knowledgeItem) (Returned u);
          Ev (EntityManager_findOneOrFail (ChatHubKnowledgeItem.id knowledgeItem))
             (fst (answer env (EntityManager_findOneOrFail
                                 (ChatHubKnowledgeItem.id knowledgeItem)) w1))],
         snd (answer env (EntityManager_findOneOrFail
                            (ChatHubKnowledgeItem.id knowledgeItem)) w1))
    | (Thrown e, w1) =>
        (Thrown e, [Ev (EntityManager_insert knowledgeItem) (Thrown e)], w1)
    end.
Proof.
  unfold repository_createKnowledgeItem, await. cbn [bind run].
  destruct (answer env (EntityManager_insert knowledgeItem) w) as [[u|e] w1];
    cbn [bind run fst snd]; [|reflexivity].
  destruct (answer env (EntityManager_findOneOrFail
                          (ChatHubKnowledgeItem.id knowledgeItem)) w1)
    as [[item|e] w2]; reflexivity.
Qed.

(** X10. When the store, the insert and the re-read all succeed,
    [createKnowledgeItem] returns the row as re-read from the database.  The
    uuid it drew keys the stored file and is the id of the inserted row,
    which carries the caller's user id and the stored record; a debug line is
    logged and nothing is deleted. *)
Theorem createKnowledgeItem_stores_then_inserts
    {W : Type} (env : Env W) (w w1 w2 w3 w4 : W)
    user attachment id (stored : IBinaryData.t) (item : ChatHubKnowledgeItem.t) :
  uuid env w = (id, w1) ->
  decodedLength attachment <= maxKnowledgeItemSizeBytes ->
  answer env (knowledgeItemStoreCall id attachment) w1 = (Returned stored, w2) ->
  answer env (EntityManager_insert (newRow id user (Some stored))) w2
  = (Returned tt, w3) ->
  answer env (EntityManager_findOneOrFail id) w3 = (Returned item, w4) ->
  run env (createKnowledgeItem user (Some attachment)) w
  = (Returned item,
     [EvUuid id;
      Ev (knowledgeItemStoreCall id attachment) (Returned stored);
      Ev (EntityManager_insert (newRow id user (Some stored))) (Returned tt);
      Ev (EntityManager_findOneOrFail id) (Returned item);
      EvLog LogDebug ("Knowledge item created: " ++ id ++ " by user " ++ User.id user)],
     w4).
Proof.
  intros Huuid Hsize Hstore Hinsert Hfind.
  pose proof (run_storeKnowledgeItemAttachment_under env w1 w2 id attachment _
                Hsize Hstore) as Hstored.
  pose proof (run_repository_createKnowledgeItem env w2 (newRow id user (Some stored)))
    as Hrepo.
  rewrite Hinsert in Hrepo. cbn [ChatHubKnowledgeItem.id newRow] in Hrepo.
  rewrite Hfind in Hrepo. cbn [fst snd] in Hrepo.
  unfold createKnowledgeItem. cbn [run]. rewrite Huuid.
  rewrite run_bind, run_bind, Hstored. cbn beta iota. cbn [run app].
  rewrite run_try_catch, run_bind.
  change (run env (repository_createKnowledgeItem _) w2)
    with (run env (repository_createKnowledgeItem (newRow id user (Some stored))) w2).
  rewrite Hrepo. reflexivity.
Qed.

(** X11. Without an attachment [createKnowledgeItem] never calls the
    binary-data service: it draws the uuid, runs the repository's create for
    a row with a null attachment, logs on success, and its outcome is the
    repository's - a database failure is passed on with nothing to clean
    up. *)
Theorem createKnowledgeItem_without_attachment
    {W : Type} (env : Env W) (w w1 w2 : W) user id
    (o : Outcome ChatHubKnowledgeItem.t) (dbEvents : list Event) :
  uuid env w = (id, w1) ->
  run env (repository_createKnowledgeItem (newRow id user None)) w1
  = (o, dbEvents, w2) ->
  run env (createKnowledgeItem user None) w
  = (o,
     (EvUuid id :: dbEvents
        ++ match o with
           | Returned _ =>
               [EvLog LogDebug
                  ("Knowledge item created: " ++ id ++ " by user " ++ User.id user)]
           | Thrown _ => []
           end)%list,
     w2) /\
  (forall ev,
      In ev (events (run env (createKnowledgeItem user None) w)) ->
      onBinaryData ev = false).
Proof.
  intros Huuid Hrepo.
  assert (Hrun :
            run env (createKnowledgeItem user None) w
            = (o,
               (EvUuid id :: dbEvents
                  ++ match o with
                     | Returned _ =>
                         [EvLog LogDebug
                            ("Knowledge item created: " ++ id ++ " by user "
                               ++ User.id user)]
                     | Thrown _ => []
                     end)%list,
               w2)).
  { unfold createKnowledgeItem. cbn [run]. rewrite Huuid.
    cbn [bind]. rewrite run_try_catch, run_bind.
    change (run env (repository_createKnowledgeItem _) w1)
      with (run env (repository_createKnowledgeItem (newRow id user None)) w1).
    rewrite Hrepo. destruct o as [item|e]; cbn beta iota; cbn [run bind app].
    - reflexivity.
    - rewrite !app_nil_r. reflexivity. }
  split; [exact Hrun|].
  rewrite Hrun. unfold events. cbn [fst snd].
  rewrite run_repository_createKnowledgeItem in Hrepo.
  intros ev [<-|Hin]; [reflexivity|].
  apply in_app_or in Hin. destruct Hin as [Hin|Hin].
  - destruct (answer env (EntityManager_insert (newRow id user None)) w1)
      as [[u|e] w1']; injection Hrepo as _ <- _.
    + destruct Hin as [<-|[<-|[]]]; reflexivity.
    + destruct Hin as [<-|[]]; reflexivity.
  - destruct o; [destruct Hin as [<-|[]]; reflexivity|destruct Hin].
Qed.

(** X12. An attachment over 50 MiB is refused before anything is persisted:
    [createKnowledgeItem] throws the BadRequest having only drawn the uuid -
    no store call, no insert. *)
Theorem createKnowledgeItem_refuses_oversized
    {W : Type} (env : Env W) (w w1 : W) user attachment id :
  uuid env w = (id, w1) ->
  maxKnowledgeItemSizeBytes < decodedLength attachment ->
  run env (createKnowledgeItem user (Some attachment)) w
  = (Thrown (BadRequestError
               "Knowledge item attachment exceeds maximum size of 50 MB"),
     [EvUuid id], w1).
Proof.
  intros Huuid Hover. unfold createKnowledgeItem. cbn [run]. rewrite Huuid.
  rewrite (storeKnowledgeItemAttachment_over id attachment Hover). reflexivity.
Qed.

(** X13. When the store call itself is rejected, [createKnowledgeItem]
    throws that error at once: no row is inserted and no cleanup is
    attempted. *)
Theorem createKnowledgeItem_store_rejected
    {W : Type} (env : Env W) (w w1 w2 : W) user attachment id e :
  uuid env w = (id, w1) ->
  decodedLength attachment <= maxKnowledgeItemSizeBytes ->
  answer env (knowledgeItemStoreCall id attachment) w1 = (Thrown e, w2) ->
  run env (createKnowledgeItem user (Some attachment)) w
  = (Thrown e,
     [EvUuid id; Ev (knowledgeItemStoreCall id attachment) (Thrown e)],
     w2).
Proof.
  intros Huuid Hsize Hstore.
  pose proof (run_storeKnowledgeItemAttachment_under env w1 w2 id attachment _
                Hsize Hstore) as Hstored.
  unfold createKnowledgeItem. cbn [run]. rewrite Huuid.
  rewrite run_bind, run_bind, Hstored. reflexivity.
Qed.




(** *** Running tasks *)

Lemma perform_andThen {W A B : Type} (b : Backend W) (t : Task A) (f : A -> Task B) (w : W) :
  perform b (andThen t f) w =
  match perform b t w with
  | (Returned a, s, w1) =>
      let '(o, s2, w2) := perform b (f a) w1 in (o, (s ++ s2)%list, w2)
  | (Thrown e, s, w1) => (Thrown e, s, w1)
  end.
Proof.
  revert w. induction t as [a|e|c k IH|q k IH|l m k IH|k IH]; intro w; simpl.
  - destruct (perform b (f a) w) as [[o s] w2]. reflexivity.
  - reflexivity.
  - destruct (answer (basic b) c w) as [r w1]. rewrite IH.
    destruct (perform b (k r) w1) as [[[a|e] s] w2]; [|reflexivity].
    destruct (perform b (f a) w2) as [[o s2] w3]. reflexivity.
  - destruct (orm b q w) as [r w1]. rewrite IH.
    destruct (perform b (k r) w1) as [[[a|e] s] w2]; [|reflexivity].
    destruct (perform b (f a) w2) as [[o s2] w3]. reflexivity.
  - rewrite IH.
    destruct (perform b k w) as [[[a|e] s] w2]; [|reflexivity].
    destruct (perform b (f a) w2) as [[o s2] w3]. reflexivity.
  - destruct (uuid (basic b) w) as [u w1]. rewrite IH.
    destruct (perform b (k u) w1) as [[[a|e] s] w2]; [|reflexivity].
    destruct (perform b (f a) w2) as [[o s2] w3]. reflexivity.
Qed.

Lemma perform_query {W : Type} (b : Backend W) (q : OrmCall) (w : W) :
  perform b (query q) w
  = (fst (orm b q w), [queried q (fst (orm b q w))], snd (orm b q w)).
Proof.
  unfold query. simpl. destruct (orm b q w) as [[x|e] w1]; reflexivity.
Qed.

Lemma perform_query_answer {W : Type} (b : Backend W) (q : OrmCall) (w w1 : W) r :
  orm b q w = (r, w1) -> perform b (query q) w = (r, [queried q r], w1).
Proof. intro H. rewrite perform_query, H. reflexivity. Qed.

(** A lifted method runs as it does on its own, against the basic part of
    the backend. *)
Lemma perform_lift {W A : Type} (b : Backend W) (p : Prog A) (w : W) :
  perform b (lift p) w =
  let '(o, t, w1) := run (basic b) p w in (o, map did t, w1).
Proof.
  revert w. induction p as [a|e|c k IH|l m k IH|k IH]; intro w; simpl.
  - reflexivity.
  - reflexivity.
  - destruct (answer (basic b) c w) as [r w1]. rewrite IH.
    destruct (run (basic b) (k r) w1) as [[o t] w2]. reflexivity.
  - rewrite IH. destruct (run (basic b) k w) as [[o t] w2]. reflexivity.
  - destruct (uuid (basic b) w) as [u w1]. rewrite IH.
    destruct (run (basic b) (k u) w1) as [[o t] w2]. reflexivity.
Qed.

Lemma perform_deleteAttachments {W : Type} (b : Backend W) (w : W) attachments :
  perform b (lift (deleteAttachments attachments)) w
  = (fst (answer (basic b)
            (BinaryDataService_deleteManyByBinaryDataId (externalIds attachments)) w),
     [did (Ev (BinaryDataService_deleteManyByBinaryDataId (externalIds attachments))
              (fst (answer (basic b)
                      (BinaryDataService_deleteManyByBinaryDataId
                         (externalIds attachments)) w)))],
     snd (answer (basic b)
            (BinaryDataService_deleteManyByBinaryDataId (externalIds attachments)) w)).
Proof. rewrite perform_lift, run_deleteAttachments. reflexivity. Qed.

(** *** Deleting one knowledge item's file *)

(** X15. [deleteKnowledgeItemAttachmentById] looks the item up through the
    transaction's manager when one is passed and the repository's otherwise.
    If the item is missing or has no attachment it returns without calling
    the binary store at all; if it has one, it makes the single delete call
    of [deleteAttachments] on that record and its outcome is that call's. *)
Theorem deleteKnowledgeItemAttachmentById_guarded
    {W : Type} (b : Backend W) (w w1 : W) knowledgeItemId trx
    (found : option ChatHubKnowledgeItem.t) :
  orm b (EntityManager_findOne_attachment
           match trx with
           | Some em => em
           | None => defaultManager
           end knowledgeItemId) w
  = (Returned found, w1) ->
  (found = None \/
   (exists item, found = Some item /\ ChatHubKnowledgeItem.attachment item = None) ->
   perform b (deleteKnowledgeItemAttachmentById knowledgeItemId trx) w
   = (Returned tt,
      [queried (EntityManager_findOne_attachment (managerOr trx) knowledgeItemId)
         (Returned found)],
      w1)) /\
  (forall item attachment,
      found = Some item ->
      ChatHubKnowledgeItem.attachment item = Some attachment ->
      perform b (deleteKnowledgeItemAttachmentById knowledgeItemId trx) w
      = (fst (answer (basic b)
                (BinaryDataService_deleteManyByBinaryDataId (externalIds [attachment]))
                w1),
         [queried (EntityManager_findOne_attachment (managerOr trx) knowledgeItemId)
            (Returned found);
          did (Ev (BinaryDataService_deleteManyByBinaryDataId (externalIds [attachment]))
                 (fst (answer (basic b)
                         (BinaryDataService_deleteManyByBinaryDataId
                            (externalIds [attachment])) w1)))],
         snd (answer (basic b)
                (BinaryDataService_deleteManyByBinaryDataId (externalIds [attachment]))
                w1))).
Proof.
  intro Hfound. fold (managerOr trx) in Hfound.
  unfold deleteKnowledgeItemAttachmentById. cbv zeta.
  rewrite perform_andThen, (perform_query_answer _ _ _ _ _ Hfound). cbn beta iota.
  split.
  - intros [->|(item & -> & ->)]; reflexivity.
  - intros item attachment -> ->. rewrite perform_deleteAttachments. reflexivity.
Qed.

(** *** Sweeps *)

Lemma flat_map_attachmentsOf (messages : list ChatHubMessage.t) :
  flat_map
    (fun message =>
       match ChatHubMessage.attachments message with
       | Some attachments => attachments
       | None => []
       end)
    messages = attachmentsOf messages.
Proof. unfold attachmentsOf. apply flat_map_concat_map. Qed.

Lemma flat_map_attachmentsOfItems (items : list ChatHubKnowledgeItem.t) :
  flat_map
    (fun item =>
       match ChatHubKnowledgeItem.attachment item with
       | Some attachment => [attachment]
       | None => []
       end)
    items = attachmentsOfItems items.
Proof. unfold attachmentsOfItems. apply flat_map_concat_map. Qed.

(** X16. Both message sweeps - by session, through the transaction if one is
    passed, and across all sessions - make one lookup and then exactly one
    delete call, however many messages come back: its ids are the non-empty
    ids of all their attachments in message order, messages without an
    attachment list adding nothing.  When the lookup rejects, its error is
    thrown and the binary store is not called. *)
Theorem message_sweeps_delete_in_one_batch
    {W : Type} (b : Backend W) (w w1 : W) :
  (forall sessionId trx (r : Outcome (list ChatHubMessage.t)),
      orm b (MessageRepository_getManyBySessionId sessionId trx) w = (r, w1) ->
      perform b (deleteAllMessageAttachmentsBySessionId sessionId trx) w
      = match r with
        | Returned messages =>
            (fst (answer (basic b)
                    (BinaryDataService_deleteManyByBinaryDataId
                       (externalIds (attachmentsOf messages))) w1),
             [queried (MessageRepository_getManyBySessionId sessionId trx) r;
              did (Ev (BinaryDataService_deleteManyByBinaryDataId
                         (externalIds (attachmentsOf messages)))
                      (fst (answer (basic b)
                              (BinaryDataService_deleteManyByBinaryDataId
                                 (externalIds (attachmentsOf messages))) w1)))],
             snd (answer (basic b)
                    (BinaryDataService_deleteManyByBinaryDataId
                       (externalIds (attachmentsOf messages))) w1))
        | Thrown e =>
            (Thrown e, [queried (MessageRepository_getManyBySessionId sessionId trx) r], w1)
        end) /\
  (forall (r : Outcome (list ChatHubMessage.t)),
      orm b MessageRepository_find_attachmentsNotNull w = (r, w1) ->
      perform b deleteAllMessageAttachments w
      = match r with
        | Returned messages =>
            (fst (answer (basic b)
                    (BinaryDataService_deleteManyByBinaryDataId
                       (externalIds (attachmentsOf messages))) w1),
             [queried MessageRepository_find_attachmentsNotNull r;
              did (Ev (BinaryDataService_deleteManyByBinaryDataId
                         (externalIds (attachmentsOf messages)))
                      (fst (answer (basic b)
                              (BinaryDataService_deleteManyByBinaryDataId
                                 (externalIds (attachmentsOf messages))) w1)))],
             snd (answer (basic b)
                    (BinaryDataService_deleteManyByBinaryDataId
                       (externalIds (attachmentsOf messages))) w1))
        | Thrown e => (Thrown e, [queried MessageRepository_find_attachmentsNotNull r], w1)
        end).
Proof.
  split.
  - intros sessionId trx r Hq. unfold deleteAllMessageAttachmentsBySessionId.
    rewrite perform_andThen, (perform_query_answer _ _ _ _ _ Hq).
    destruct r as [messages|e]; [|reflexivity].
    cbn beta iota. rewrite flat_map_attachmentsOf, perform_deleteAttachments.
    reflexivity.
  - intros r Hq. unfold deleteAllMessageAttachments.
    rewrite perform_andThen, (perform_query_answer _ _ _ _ _ Hq).
    destruct r as [messages|e]; [|reflexivity].
    cbn beta iota. rewrite flat_map_attachmentsOf, perform_deleteAttachments.
    reflexivity.
Qed.

(** X17. [deleteAllKnowledgeItemAttachments] makes one lookup and then
    exactly one delete call whose ids are the non-empty attachment ids of the
    items that came back, in item order; items whose attachment is null add
    nothing.  When the lookup rejects, the binary store is not called. *)
Theorem knowledgeItem_sweep_deletes_in_one_batch
    {W : Type} (b : Backend W) (w w1 : W)
    (r : Outcome (list ChatHubKnowledgeItem.t)) :
  orm b KnowledgeItemRepository_find_attachmentNotNull w = (r, w1) ->
  perform b deleteAllKnowledgeItemAttachments w
  = match r with
    | Returned items =>
        (fst (answer (basic b)
                (BinaryDataService_deleteManyByBinaryDataId
                   (externalIds (attachmentsOfItems items))) w1),
         [queried KnowledgeItemRepository_find_attachmentNotNull r;
          did (Ev (BinaryDataService_deleteManyByBinaryDataId
                     (externalIds (attachmentsOfItems items)))
                  (fst (answer (basic b)
                          (BinaryDataService_deleteManyByBinaryDataId
                             (externalIds (attachmentsOfItems items))) w1)))],
         snd (answer (basic b)
                (BinaryDataService_deleteManyByBinaryDataId
                   (externalIds (attachmentsOfItems items))) w1))
    | Thrown e => (Thrown e, [queried KnowledgeItemRepository_find_attachmentNotNull r], w1)
    end.
Proof.
  intro Hq. unfold deleteAllKnowledgeItemAttachments.
  rewrite perform_andThen, (perform_query_answer _ _ _ _ _ Hq).
  destruct r as [items|e]; [|reflexivity].
  cbn beta iota. rewrite flat_map_attachmentsOfItems, perform_deleteAttachments.
  reflexivity.
Qed.

(** *** Knowledge items: reading and deleting *)

(** X18. [getKnowledgeItemById] and [deleteKnowledgeItem] start with the
    same lookup, by id and owner through the repository's own manager.  When
    it finds nothing - no such item, or one owned by someone else - both
    throw NotFound "Knowledge item not found" and call nothing further: in
    particular nothing is deleted.  When it finds the item,
    [getKnowledgeItemById] returns it. *)
Theorem knowledgeItem_lookup_is_owner_scoped
    {W : Type} (b : Backend W) (w w1 : W) id userId
    (found : option ChatHubKnowledgeItem.t) :
  orm b (EntityManager_findOne_owned defaultManager id userId) w = (Returned found, w1) ->
  (found = None ->
   perform b (getKnowledgeItemById id userId) w
   = (Thrown (NotFoundError "Knowledge item not found"),
      [queried (EntityManager_findOne_owned defaultManager id userId) (Returned found)],
      w1) /\
   perform b (deleteKnowledgeItem id userId) w
   = (Thrown (NotFoundError "Knowledge item not found"),
      [queried (EntityManager_findOne_owned defaultManager id userId) (Returned found)],
      w1)) /\
  (forall item,
      found = Some item ->
      perform b (getKnowledgeItemById id userId) w
      = (Returned item,
         [queried (EntityManager_findOne_owned defaultManager id userId) (Returned found)],
         w1)).
Proof.
  intro Hfound.
  unfold getKnowledgeItemById, deleteKnowledgeItem, repository_getOneById, managerOr.
  cbv zeta.
  pose proof (perform_query_answer b _ w w1 _ Hfound) as Hq. cbn [OrmResp] in Hq.
  rewrite !perform_andThen, !Hq. cbn beta iota.
  split.
  - intros ->. split; reflexivity.
  - intros item ->. reflexivity.
Qed.

(** X19. Once the owner-scoped lookup has found the item,
    [deleteKnowledgeItem] first runs [deleteKnowledgeItemAttachmentById] and
    only then deletes the row.  If removing the file throws, that error is
    thrown and the row is left alone; if the row deletion then rejects, that
    error is thrown with the file already gone; otherwise a debug line is
    logged and the call returns. *)
Theorem deleteKnowledgeItem_file_before_row
    {W : Type} (b : Backend W) (w w1 w2 : W) id userId
    (item : ChatHubKnowledgeItem.t) (fileSteps : list Step) :
  orm b (EntityManager_findOne_owned defaultManager id userId) w
  = (Returned (Some item), w1) ->
  (forall e,
      perform b (deleteKnowledgeItemAttachmentById id None) w1 = (Thrown e, fileSteps, w2) ->
      perform b (deleteKnowledgeItem id userId) w
      = (Thrown e,
         (queried (EntityManager_findOne_owned defaultManager id userId)
            (Returned (Some item)) :: fileSteps)%list,
         w2)) /\
  (forall (r : Outcome DeleteResult.t) w3,
      perform b (deleteKnowledgeItemAttachmentById id None) w1
      = (Returned tt, fileSteps, w2) ->
      orm b (EntityManager_delete defaultManager id) w2 = (r, w3) ->
      perform b (deleteKnowledgeItem id userId) w
      = (match r with
         | Returned _ => Returned tt
         | Thrown e => Thrown e
         end,
         (queried (EntityManager_findOne_owned defaultManager id userId)
            (Returned (Some item))
            :: fileSteps
            ++ queried (EntityManager_delete defaultManager id) r
            :: match r with
               | Returned _ =>
                   [did (EvLog LogDebug
                           ("Knowledge item deleted: " ++ id ++ " by user " ++ userId))]
               | Thrown _ => []
               end)%list,
         w3)).
Proof.
  intro Hfound.
  unfold deleteKnowledgeItem, repository_getOneById, repository_deleteKnowledgeItem,
    managerOr.
  cbv zeta.
  pose proof (perform_query_answer b _ w w1 _ Hfound) as Hq. cbn [OrmResp] in Hq.
  rewrite perform_andThen, Hq. cbn beta iota.
  split.
  - intros e Hfile. rewrite perform_andThen, Hfile. reflexivity.
  - intros r w3 Hfile Hrow.
    rewrite perform_andThen, Hfile. cbn beta iota.
    pose proof (perform_query_answer b _ w2 w3 _ Hrow) as Hd. cbn [OrmResp] in Hd.
    rewrite perform_andThen, Hd.
    destruct r as [d|e]; cbn beta iota; cbn [perform app]; reflexivity.
Qed.

(** *** Looking several knowledge items up *)

(** X20. [getManyByIdsAndUserId] never queries with an empty clause list:
    for no ids it returns the empty list without touching the database.
    Otherwise it makes one [find] with one clause per id, in order, every
    clause tied to the given user, and returns what the database answers. *)
Theorem getManyByIdsAndUserId_scopes_every_id
    {W : Type} (b : Backend W) (w : W) userId trx :
  perform b (repository_getManyByIdsAndUserId [] userId trx) w = (Returned [], [], w) /\
  (forall ids,
      ids <> [] ->
      exists clauses,
        perform b (repository_getManyByIdsAndUserId ids userId trx) w
        = (fst (orm b (EntityManager_find_owned (managerOr trx) clauses) w),
           [queried (EntityManager_find_owned (managerOr trx) clauses)
              (fst (orm b (EntityManager_find_owned (managerOr trx) clauses) w))],
           snd (orm b (EntityManager_find_owned (managerOr trx) clauses) w)) /\
        clauses <> [] /\
        map fst clauses = ids /\
        (forall c, In c clauses -> snd c = userId)).
Proof.
  split; [reflexivity|].
  intros ids Hne. exists (map (fun id => (id, userId)) ids).
  split; [|split; [|split]].
  - unfold repository_getManyByIdsAndUserId.
    destruct ids as [|id rest]; [contradiction|]. cbn [List.length Nat.eqb]. cbv zeta.
    apply (perform_query b
             (EntityManager_find_owned (managerOr trx)
                (map (fun id0 => (id0, userId)) (id :: rest))) w).
  - destruct ids; [contradiction|discriminate].
  - rewrite map_map. simpl. apply map_id.
  - intros c Hin. apply in_map_iff in Hin. destruct Hin as (id & <- & _). reflexivity.
Qed.

(** *** Size limits of the two store paths, side by side *)

(** X21. The message path has no per-file cap: a single attachment of up to
    200 MiB is handed to the store and the batch's outcome is the store's
    answer, even when the attachment is over the 50 MiB at which the
    knowledge-item path refuses it without calling the store. *)
Theorem message_path_has_no_per_file_cap
    {W : Type} (env : Env W) (w : W) sessionId messageId knowledgeItemId attachment :
  maxKnowledgeItemSizeBytes < decodedLength attachment ->
  decodedLength attachment <= maxTotalSizeBytes ->
  run env (storeMessageAttachments sessionId messageId [attachment]) w
  = (match fst (answer env (messageStoreCall sessionId messageId attachment) w) with
     | Returned stored => Returned [stored]
     | Thrown e => Thrown e
     end,
     [Ev (messageStoreCall sessionId messageId attachment)
         (fst (answer env (messageStoreCall sessionId messageId attachment) w))],
     snd (answer env (messageStoreCall sessionId messageId attachment) w)) /\
  run env (storeKnowledgeItemAttachment knowledgeItemId attachment) w
  = (Thrown (BadRequestError
               "Knowledge item attachment exceeds maximum size of 50 MB"),
     [], w).
Proof.
  intros Hover Hunder. split.
  - unfold storeMessageAttachments.
    rewrite loop_step_under by (rewrite N.add_0_l; exact Hunder).
    rewrite run_bind, run_await.
    destruct (answer env (messageStoreCall sessionId messageId attachment) w)
      as [[stored|e] w1]; reflexivity.
  - rewrite (storeKnowledgeItemAttachment_over knowledgeItemId attachment Hover).
    reflexivity.
Qed.

(** *** The selector modal's selection *)

Lemma has_app (s t : JsSet.t) (y : string) :
  JsSet.has (s ++ t)%list y = JsSet.has s y || JsSet.has t y.
Proof. unfold JsSet.has. apply existsb_app. Qed.

Lemma has_In (s : JsSet.t) (y : string) : JsSet.has s y = true <-> In y s.
Proof.
  unfold JsSet.has. rewrite existsb_exists. split.
  - intros (x & Hin & Heq). apply String.eqb_eq in Heq. subst. exact Hin.
  - intro Hin. exists y. split; [exact Hin|apply String.eqb_refl].
Qed.

Lemma has_add (s : JsSet.t) (x y : string) :
  JsSet.has (JsSet.add s x) y = (y =? x)%string || JsSet.has s y.
Proof.
  unfold JsSet.add. destruct (JsSet.has s x) eqn:Hx.
  - destruct (String.eqb_spec y x) as [->|]; [rewrite Hx|]; reflexivity.
  - rewrite has_app. simpl. rewrite orb_false_r. apply orb_comm.
Qed.

Lemma has_delete (s : JsSet.t) (x y : string) :
  JsSet.has (JsSet.delete s x) y = negb (y =? x)%string && JsSet.has s y.
Proof.
  unfold JsSet.delete, JsSet.has. induction s as [|z s IH]; simpl.
  - rewrite andb_false_r. reflexivity.
  - destruct (String.eqb_spec x z) as [->|Hxz]; simpl.
    + rewrite IH. destruct (String.eqb_spec y z); simpl; reflexivity.
    + rewrite IH. destruct (String.eqb_spec y z) as [->|]; simpl.
      * destruct (String.eqb_spec z x) as [->|]; [contradiction|reflexivity].
      * reflexivity.
Qed.

Lemma NoDup_add (s : JsSet.t) (x : string) : NoDup s -> NoDup (JsSet.add s x).
Proof.
  intro Hs. unfold JsSet.add. destruct (JsSet.has s x) eqn:Hx; [exact Hs|].
  apply NoDup_app; [exact Hs|repeat constructor; intros []|].
  intros a Ha [<-|[]]. apply has_In in Ha. rewrite Ha in Hx. discriminate Hx.
Qed.

Lemma fold_add_spec (l : list string) :
  forall acc,
    (NoDup acc -> NoDup (fold_left JsSet.add l acc)) /\
    (forall y, JsSet.has (fold_left JsSet.add l acc) y = JsSet.has acc y || JsSet.has l y).
Proof.
  induction l as [|x l IH]; intro acc; simpl.
  - split; [tauto|]. intro y. rewrite orb_false_r. reflexivity.
  - destruct (IH (JsSet.add acc x)) as [Hnd Hhas]. split.
    + intro Hacc. apply Hnd. apply NoDup_add. exact Hacc.
    + intro y. rewrite Hhas, has_add.
      change (JsSet.has (x :: l) y) with ((y =? x)%string || JsSet.has l y).
      destruct (y =? x)%string, (JsSet.has acc y), (JsSet.has l y); reflexivity.
Qed.

Lemma has_from (l : list string) (y : string) :
  JsSet.has (JsSet.from l) y = JsSet.has l y.
Proof. unfold JsSet.from. rewrite (proj2 (fold_add_spec l JsSet.empty)). reflexivity. Qed.

Lemma NoDup_from (l : list string) : NoDup (JsSet.from l).
Proof. apply (proj1 (fold_add_spec l JsSet.empty)). constructor. Qed.

Lemma fold_add_NoDup (l : list string) :
  forall acc, NoDup (acc ++ l) -> fold_left JsSet.add l acc = (acc ++ l)%list.
Proof.
  induction l as [|x l IH]; intros acc Hnd; simpl.
  - rewrite app_nil_r. reflexivity.
  - assert (Hx : JsSet.has acc x = false).
    { destruct (JsSet.has acc x) eqn:Hx; [|reflexivity].
      apply has_In in Hx. apply NoDup_remove_2 in Hnd.
      exfalso. apply Hnd. apply in_or_app. left. exact Hx. }
    unfold JsSet.add at 2. rewrite Hx.
    rewrite IH; rewrite <- app_assoc; [reflexivity|exact Hnd].
Qed.

Lemma from_NoDup (l : list string) : NoDup l -> JsSet.from l = l.
Proof. intro H. unfold JsSet.from. apply (fold_add_NoDup l JsSet.empty). exact H. Qed.

Lemma NoDup_delete (s : JsSet.t) (x : string) : NoDup s -> NoDup (JsSet.delete s x).
Proof. apply NoDup_filter. Qed.

Lemma length_delete (s : JsSet.t) (x : string) :
  NoDup s -> JsSet.has s x = true ->
  S (List.length (JsSet.delete s x)) = List.length s.
Proof.
  induction s as [|z s IH]; intros Hnd Hx; [discriminate Hx|].
  inversion Hnd as [|? ? Hz Hs]; subst. simpl.
  destruct (String.eqb_spec x z) as [->|Hxz]; simpl.
  - f_equal. unfold JsSet.delete in *.
    assert (Hsame : filter (fun y => negb (z =? y)%string) s = s).
    { apply forallb_filter_id. apply forallb_forall. intros y Hy.
      destruct (String.eqb_spec z y) as [->|]; [contradiction|reflexivity]. }
    rewrite Hsame. reflexivity.
  - f_equal. apply IH; [exact Hs|].
    unfold JsSet.has in Hx. simpl in Hx.
    destruct (String.eqb_spec x z); [contradiction|exact Hx].
Qed.

Lemma toggleItem_member (selectedIds : JsSet.t) (itemId other : string) :
  isSelected (toggleItem selectedIds itemId) other
  = if (other =? itemId)%string then negb (isSelected selectedIds itemId)
    else isSelected selectedIds other.
Proof.
  unfold isSelected, toggleItem. cbv zeta. rewrite has_from.
  destruct (JsSet.has selectedIds itemId) eqn:Hx.
  - rewrite has_delete.
    destruct (String.eqb_spec other itemId) as [->|]; reflexivity.
  - rewrite has_add.
    destruct (String.eqb_spec other itemId) as [->|]; reflexivity.
Qed.

Lemma toggleItem_count (selectedIds : JsSet.t) (itemId : string) :
  NoDup selectedIds ->
  NoDup (toggleItem selectedIds itemId) /\
  (if isSelected selectedIds itemId
   then S (selectedCount (toggleItem selectedIds itemId)) = selectedCount selectedIds
   else selectedCount (toggleItem selectedIds itemId) = S (selectedCount selectedIds)).
Proof.
  unfold isSelected, toggleItem, selectedCount, JsSet.size. cbv zeta.
  intro Hnd. split; [apply NoDup_from|].
  destruct (JsSet.has selectedIds itemId) eqn:Hx.
  - rewrite (from_NoDup _ (NoDup_delete _ itemId Hnd)).
    apply length_delete; assumption.
  - rewrite (from_NoDup _ (NoDup_add _ itemId Hnd)).
    unfold JsSet.add. rewrite Hx. rewrite length_app. simpl. lia.
Qed.

(** X22. [toggleItem] flips the toggled id and nothing else: afterwards the
    id is selected exactly when it was not before, and every other id is
    selected exactly when it was.  On a proper set the result is again a
    proper set and [selectedCount] moves by exactly one, down when the id was
    selected and up when it was not. *)
Theorem toggleItem_flips_one (selectedIds : JsSet.t) (itemId : string) :
  (forall other,
      isSelected (toggleItem selectedIds itemId) other
      = if (other =? itemId)%string then negb (isSelected selectedIds itemId)
        else isSelected selectedIds other) /\
  (NoDup selectedIds ->
   NoDup (toggleItem selectedIds itemId) /\
   (if isSelected selectedIds itemId
    then S (selectedCount (toggleItem selectedIds itemId)) = selectedCount selectedIds
    else selectedCount (toggleItem selectedIds itemId) = S (selectedCount selectedIds))).
Proof.
  split; [apply toggleItem_member|apply toggleItem_count].
Qed.

(** X23. Toggling the same id twice undoes itself: every id is selected
    exactly as before, the count on a proper set is the same, and
    [handleConfirm] hands [onConfirm] the same items. *)
Theorem toggleItem_twice_restores (selectedIds : JsSet.t) (itemId : string) :
  (forall other,
      isSelected (toggleItem (toggleItem selectedIds itemId) itemId) other
      = isSelected selectedIds other) /\
  (NoDup selectedIds ->
   selectedCount (toggleItem (toggleItem selectedIds itemId) itemId)
   = selectedCount selectedIds) /\
  (forall allKnowledgeItems,
      handleConfirm allKnowledgeItems (toggleItem (toggleItem selectedIds itemId) itemId)
      = handleConfirm allKnowledgeItems selectedIds).
Proof.
  assert (Hmember : forall other,
             isSelected (toggleItem (toggleItem selectedIds itemId) itemId) other
             = isSelected selectedIds other).
  { intro other.
    rewrite (toggleItem_member (toggleItem selectedIds itemId) itemId other).
    rewrite (toggleItem_member selectedIds itemId itemId).
    rewrite (toggleItem_member selectedIds itemId other).
    rewrite String.eqb_refl.
    destruct (String.eqb_spec other itemId) as [->|]; [apply negb_involutive|reflexivity]. }
  split; [exact Hmember|]. split.
  - intro Hnd.
    destruct (toggleItem_count selectedIds itemId Hnd) as [Hnd1 Hcount1].
    destruct (toggleItem_count (toggleItem selectedIds itemId) itemId Hnd1)
      as [_ Hcount2].
    rewrite (toggleItem_member selectedIds itemId itemId) in Hcount2.
    rewrite String.eqb_refl in Hcount2.
    destruct (isSelected selectedIds itemId); simpl in Hcount2; lia.
  - intro allKnowledgeItems. unfold handleConfirm. cbv zeta. f_equal. f_equal.
    apply filter_ext. intro item. apply Hmember.
Qed.

Lemma same_id_same_item (items : list ChatHubKnowledgeItemDto.t) a b :
  NoDup (map ChatHubKnowledgeItemDto.id items) ->
  In a items -> In b items ->
  ChatHubKnowledgeItemDto.id a = ChatHubKnowledgeItemDto.id b -> a = b.
Proof.
  induction items as [|x items IH]; intros Hnd Ha Hb Hid; [destruct Ha|].
  simpl in Hnd. inversion Hnd as [|? ? Hx Hrest]; subst.
  destruct Ha as [<-|Ha], Hb as [<-|Hb].
  - reflexivity.
  - exfalso. apply Hx. rewrite Hid. apply in_map. exact Hb.
  - exfalso. apply Hx. rewrite <- Hid. apply in_map. exact Ha.
  - apply IH; assumption.
Qed.

(** X24. Opening the modal and confirming at once gives the selection back:
    when the items passed in are a selection from the catalogue (the
    catalogue items satisfying some test, in catalogue order) and catalogue
    ids are distinct, [handleConfirm] hands [onConfirm] exactly those items
    and then closes the modal. *)
Theorem confirm_returns_initial_selection
    (allKnowledgeItems : list ChatHubKnowledgeItemDto.t)
    (keep : ChatHubKnowledgeItemDto.t -> bool) :
  NoDup (map ChatHubKnowledgeItemDto.id allKnowledgeItems) ->
  handleConfirm allKnowledgeItems (selectedIdsOf (filter keep allKnowledgeItems))
  = [onConfirm (filter keep allKnowledgeItems); emitClose].
Proof.
  intro Hnd. unfold handleConfirm, selectedIdsOf. cbv zeta. f_equal. f_equal.
  apply filter_ext_in. intros item Hitem. rewrite has_from.
  destruct (keep item) eqn:Hkeep.
  - apply has_In. apply in_map. apply filter_In. split; assumption.
  - destruct (JsSet.has _ _) eqn:Hhas; [|reflexivity].
    apply has_In in Hhas. apply in_map_iff in Hhas.
    destruct Hhas as (other & Hid & Hother). apply filter_In in Hother.
    destruct Hother as [Hin Hk].
    rewrite (same_id_same_item allKnowledgeItems other item Hnd Hin Hitem Hid) in Hk.
    rewrite Hk in Hkeep. discriminate Hkeep.
Qed.

(** *** The knowledge-items view *)

Section ViewRuns.

Context {W : Type} (answerUi : forall c : UiCall, W -> Outcome (UiResp c) * W).




Lemma runUi_await (c : UiCall) (v : View.t) (w : W) :
  runUi answerUi (uiAwait c) v w
  = (fst (answerUi c w), [UiEv c (fst (answerUi c w))], v, snd (answerUi c w)).
Proof.
  unfold uiAwait. simpl. destruct (answerUi c w) as [[x|e] w1]; reflexivity.
Qed.


Lemma uiAllAnswered_app (t1 t2 : list UiEvent) :
  uiAllAnswered t1 -> uiAllAnswered t2 -> uiAllAnswered (t1 ++ t2).
Proof.
  intros H1 H2 ev Hin. apply in_app_or in Hin. destruct Hin; [apply H1|apply H2]; assumption.
Qed.


End ViewRuns.






(** X27. [handleDeleteItem] asks for confirmation first.  If the dialog
    rejects, that error is thrown; if it answers anything but the confirm
    constant, nothing is called and the list stays as it is.  On confirm
    the delete endpoint is called once: when it succeeds every item with that
    id leaves the list and a success toast is shown, when it fails the list
    is untouched and an error toast is shown; either way the handler
    returns. *)
Theorem handleDeleteItem_asks_first
    {W : Type} (answerUi : forall c : UiCall, W -> Outcome (UiResp c) * W)
    (MODAL_CONFIRM id : string) (v : View.t) (w w1 : W) (confirmed : Outcome string) :
  answerUi
    (message_confirm "Are you sure you want to delete this knowledge item?"
       "Delete Knowledge Item" "Delete" "Cancel") w
  = (confirmed, w1) ->
  (forall e,
      confirmed = Thrown e ->
      runUi answerUi (handleDeleteItem MODAL_CONFIRM id) v w
      = (Thrown e,
         [UiEv (message_confirm "Are you sure you want to delete this knowledge item?"
                  "Delete Knowledge Item" "Delete" "Cancel") confirmed],
         v, w1)) /\
  (forall choice,
      confirmed = Returned choice -> choice <> MODAL_CONFIRM ->
      runUi answerUi (handleDeleteItem MODAL_CONFIRM id) v w
      = (Returned tt,
         [UiEv (message_confirm "Are you sure you want to delete this knowledge item?"
                  "Delete Knowledge Item" "Delete" "Cancel") confirmed],
         v, w1)) /\
  (forall (r : Outcome unit) w2,
      confirmed = Returned MODAL_CONFIRM ->
      answerUi (deleteKnowledgeItemApi id) w1 = (r, w2) ->
      runUi answerUi (handleDeleteItem MODAL_CONFIRM id) v w
      = (Returned tt,
         [UiEv (message_confirm "Are you sure you want to delete this knowledge item?"
                  "Delete Knowledge Item" "Delete" "Cancel") confirmed;
          UiEv (deleteKnowledgeItemApi id) r;
          UiShown match r with
                  | Returned _ => toast_showMessage "success" "Knowledge item deleted"
                  | Thrown e => toast_showError e "Failed to delete knowledge item"
                  end],
         match r with
         | Returned _ =>
             View.make
               (filter (fun item => negb (ChatHubKnowledgeItemDto.id item =? id)%string)
                  (View.knowledgeItems v))
               (View.isLoading v) (View.isCreating v)
         | Thrown _ => v
         end,
         w2)).
Proof.
  intro Hconfirm. unfold handleDeleteItem, uiAwait. cbn [uiBind runUi].
  rewrite Hconfirm. split; [|split].
  - intros e ->. reflexivity.
  - intros choice -> Hne. cbn [uiBind runUi].
    destruct (String.eqb_spec choice MODAL_CONFIRM); [contradiction|]. reflexivity.
  - intros r w2 -> Hdelete. cbn [uiBind runUi].
    rewrite String.eqb_refl. cbn [negb uiCatch uiBind runUi]. rewrite Hdelete.
    destruct r as [[]|e]; reflexivity.
Qed.

(** X28. [loadKnowledgeItems] never throws and always ends with [isLoading]
    false: when the fetch succeeds the list is replaced by what came back,
    when it fails the previous list is kept and one error toast is shown. *)
Theorem loadKnowledgeItems_settles
    {W : Type} (answerUi : forall c : UiCall, W -> Outcome (UiResp c) * W)
    (v : View.t) (w w1 : W) (r : Outcome (list ChatHubKnowledgeItemDto.t)) :
  answerUi fetchKnowledgeItemsApi w = (r, w1) ->
  runUi answerUi loadKnowledgeItems v w
  = (Returned tt,
     UiEv fetchKnowledgeItemsApi r
       :: match r with
          | Returned _ => []
          | Thrown e => [UiShown (toast_showError e "Failed to load knowledge items")]
          end,
     View.make
       match r with
       | Returned items => items
       | Thrown _ => View.knowledgeItems v
       end
       false (View.isCreating v),
     w1).
Proof.
  intro Hfetch. unfold loadKnowledgeItems, uiAwait, setIsLoading, setKnowledgeItems, notice.
  cbn [uiBind uiCatch uiFinally runUi]. rewrite Hfetch.
  destruct r as [items|e]; reflexivity.
Qed.

End Properties.

(** ** The properties at work on the concrete platform *)

Existing Instance Demo.platform.

Lemma resolves_demo_message (a : IBinaryData.t) :
  Resolves (Demo.env Demo.healthy) (ofMessage "s-1" "m-1" 0) (Demo.holding a) a
    (Demo.tick (Demo.holding a))
    (Ev (MessageRepository_getOneById "m-1" "s-1")
        (Returned (Some (ChatHubMessage.make (Some [a]))))).
Proof. apply resolves_message; reflexivity. Defined.

Lemma resolves_demo_knowledgeItem (a : IBinaryData.t) :
  Resolves (Demo.env Demo.healthy) (ofKnowledgeItem "ki-1") (Demo.holding a) a
    (Demo.tick (Demo.holding a))
    (Ev (KnowledgeItemRepository_findOne "ki-1")
        (Returned (Some (ChatHubKnowledgeItem.make "ki-1" "attachment" "user-1" (Some a))))).
Proof. apply resolves_knowledgeItem; reflexivity. Defined.

(** The scenario of the specification: 100 MiB then 150 MiB in one batch.
    The first attachment is stored, the second is refused, nothing is deleted. *)
Lemma storeMessageAttachments_total_limit_witness :
  let r := run (Demo.env Demo.healthy)
             (storeMessageAttachments "s-1" "m-1" [Demo.MiB100; Demo.MiB150])
             Demo.empty in
  maxTotalSizeBytes < totalLength [Demo.MiB100; Demo.MiB150] /\
  allAnswered (events r) /\
  outcome r
  = Thrown (BadRequestError
              "Total size of attachments exceeds maximum size of 200 MB") /\
  map called (events r) = [Some (messageStoreCall "s-1" "m-1" Demo.MiB100)].
Proof.
  cbv zeta.
  assert (Hover : maxTotalSizeBytes < totalLength [Demo.MiB100; Demo.MiB150])
    by reflexivity.
  assert (Hans : allAnswered
                   (events (run (Demo.env Demo.healthy)
                              (storeMessageAttachments "s-1" "m-1"
                                 [Demo.MiB100; Demo.MiB150])
                              Demo.empty))).
  { intros ev [<-|[]]. reflexivity. }
  split; [exact Hover|]. split; [exact Hans|].
  destruct (storeMessageAttachments_total_limit (Demo.env Demo.healthy) Demo.empty
              "s-1" "m-1" [Demo.MiB100; Demo.MiB150] Hover)
    as (before & crossing & after & _ & _ & _ & _ & _ & _ & Hall).
  destruct (Hall Hans) as [Hout _].
  split; [exact Hout|reflexivity].
Defined.

(** A batch under the cap: two records, in input order. *)
Example storeMessageAttachments_two_notes :
  outcome (run (Demo.env Demo.healthy)
             (storeMessageAttachments "s-1" "m-1" [Demo.note; Demo.readme])
             Demo.empty)
  = Returned
      [IBinaryData.make "filesystem-v2" (Some "text/plain") (Some "notes.txt")
         (Some "10") (Some "txt") (Some "filesystem-v2:0");
       IBinaryData.make "filesystem-v2" (Some "text/plain") (Some "README")
         (Some "7") (Some "README") (Some "filesystem-v2:1")].
Proof. reflexivity. Qed.

Lemma retrieval_mode_follows_fields_witness :
  run (Demo.env Demo.healthy) (retrieve (ofKnowledgeItem "ki-1"))
    (Demo.holding Demo.external)
  = (Returned (Demo.external, stream_ "stream of filesystem-v2:0" 10),
     [Ev (KnowledgeItemRepository_findOne "ki-1")
         (Returned (Some (ChatHubKnowledgeItem.make "ki-1" "attachment" "user-1"
                            (Some Demo.external))));
      Ev (BinaryDataService_getMetadata "filesystem-v2:0")
         (Returned (Metadata.make 10));
      Ev (BinaryDataService_getAsStream "filesystem-v2:0")
         (Returned "stream of filesystem-v2:0")],
     Demo.tick (Demo.tick (Demo.tick (Demo.holding Demo.external)))) /\
  run (Demo.env Demo.healthy) (retrieve (ofMessage "s-1" "m-1" 0))
    (Demo.holding Demo.inline)
  = (Returned (Demo.inline, buffer_ 10 10),
     [Ev (MessageRepository_getOneById "m-1" "s-1")
         (Returned (Some (ChatHubMessage.make (Some [Demo.inline]))));
      Ev (BinaryDataService_getAsBuffer Demo.inline) (Returned 10)],
     Demo.tick (Demo.tick (Demo.holding Demo.inline))) /\
  run (Demo.env Demo.healthy) (retrieve (ofMessage "s-1" "m-1" 0))
    (Demo.holding Demo.hollow)
  = (Thrown (NotFoundError "Attachment has no stored file"),
     [Ev (MessageRepository_getOneById "m-1" "s-1")
         (Returned (Some (ChatHubMessage.make (Some [Demo.hollow]))))],
     Demo.tick (Demo.holding Demo.hollow)).
Proof.
  split; [|split].
  - exact (proj1 (retrieval_mode_follows_fields _ _ _ _ _ _
                    (resolves_demo_knowledgeItem Demo.external))
             "filesystem-v2:0" (Metadata.make 10) "stream of filesystem-v2:0"
             _ _ eq_refl eq_refl eq_refl eq_refl).
  - exact (proj1 (proj2 (retrieval_mode_follows_fields _ _ _ _ _ _
                           (resolves_demo_message Demo.inline)))
             10 _ eq_refl eq_refl eq_refl).
  - exact (proj2 (proj2 (retrieval_mode_follows_fields _ _ _ _ _ _
                           (resolves_demo_message Demo.hollow)))
             eq_refl eq_refl).
Defined.

Lemma storeKnowledgeItemAttachment_item_limit_witness :
  maxKnowledgeItemSizeBytes < decodedLength Demo.MiB60 /\
  run (Demo.env Demo.healthy) (storeKnowledgeItemAttachment "ki-1" Demo.MiB60) Demo.empty
  = (Thrown (BadRequestError
               "Knowledge item attachment exceeds maximum size of 50 MB"),
     [], Demo.empty).
Proof.
  split; [reflexivity|].
  apply (storeKnowledgeItemAttachment_item_limit (Demo.env Demo.healthy) Demo.empty
           "ki-1" Demo.MiB60).
  reflexivity.
Defined.

(** C5 as stated fails on the code: on the empty list the binary store is
    called all the same, and on a list of inline-only records a store that
    rejects the call makes [deleteAttachments] throw. *)
Lemma deleteAttachments_without_ids_still_calls :
  events (run (Demo.env Demo.healthy) (deleteAttachments []) Demo.empty)
  = [Ev (BinaryDataService_deleteManyByBinaryDataId []) (Returned tt)] /\
  events (run (Demo.env Demo.healthy) (deleteAttachments []) Demo.empty) <> [] /\
  run (Demo.env Demo.deleteFails) (deleteAttachments [Demo.inline]) Demo.empty
  = (Thrown Demo.unavailable,
     [Ev (BinaryDataService_deleteManyByBinaryDataId []) (Thrown Demo.unavailable)],
     Demo.tick Demo.empty).
Proof.
  split; [reflexivity|]. split; [discriminate|reflexivity].
Qed.

Lemma deleteAttachments_without_ids_witness :
  (forall a, In a [Demo.inline; Demo.hollow] -> truthy_opt (IBinaryData.id a) = false) /\
  run (Demo.env Demo.healthy) (deleteAttachments [Demo.inline; Demo.hollow]) Demo.empty
  = (Returned tt,
     [Ev (BinaryDataService_deleteManyByBinaryDataId []) (Returned tt)],
     Demo.tick Demo.empty).
Proof.
  assert (H : forall a, In a [Demo.inline; Demo.hollow] ->
                        truthy_opt (IBinaryData.id a) = false).
  { intros a [<-|[<-|[]]]; reflexivity. }
  split; [exact H|].
  exact (deleteAttachments_without_ids (Demo.env Demo.healthy) Demo.empty
           [Demo.inline; Demo.hollow] H).
Defined.

Lemma getDataUrl_idempotent_witness :
  run (Demo.env Demo.healthy) (getDataUrl Demo.dataUrl) Demo.empty
  = (Returned "data:text/plain;base64,aGk=", [], Demo.empty) /\
  run (Demo.env Demo.healthy)
    (getDataUrl
       (IBinaryData.make "data:text/plain;base64,10" None None None None None))
    Demo.empty
  = (Returned "data:text/plain;base64,10", [], Demo.empty).
Proof.
  split.
  - exact (proj1 getDataUrl_idempotent _ (Demo.env Demo.healthy) Demo.empty
             Demo.dataUrl eq_refl).
  - exact (proj2 getDataUrl_idempotent _ (Demo.env Demo.healthy) Demo.empty
             Demo.inline "data:text/plain;base64,10" eq_refl
             _ (Demo.env Demo.healthy) Demo.empty
             (IBinaryData.make "data:text/plain;base64,10" None None None None None)
             eq_refl).
Defined.

Lemma createKnowledgeItem_compensates_witness :
  run (Demo.env Demo.insertAndDeleteFail)
    (createKnowledgeItem (User.make "user-1") (Some Demo.note)) Demo.empty
  = (Thrown Demo.unavailable,
     [EvUuid "uuid-0";
      Ev (knowledgeItemStoreCall "uuid-0" Demo.note)
         (Returned
            (IBinaryData.make "filesystem-v2" (Some "text/plain") (Some "notes.txt")
               (Some "10") (Some "txt") (Some "filesystem-v2:1")));
      Ev (EntityManager_insert
            (ChatHubKnowledgeItem.make "uuid-0" "attachment" "user-1"
               (Some
                  (IBinaryData.make "filesystem-v2" (Some "text/plain")
                     (Some "notes.txt") (Some "10") (Some "txt")
                     (Some "filesystem-v2:1")))))
         (Thrown Demo.unavailable);
      Ev (BinaryDataService_deleteManyByBinaryDataId ["filesystem-v2:1"])
         (Thrown Demo.unavailable);
      EvLog LogError
        "Failed to clean up attachment file for knowledge item uuid-0: Error: unavailable"],
     Demo.tick (Demo.tick (Demo.tick (Demo.tick Demo.empty)))).
Proof.
  assert (Hsize : decodedLength Demo.note <= maxKnowledgeItemSizeBytes) by discriminate.
  set (stored := IBinaryData.make "filesystem-v2" (Some "text/plain") (Some "notes.txt")
                   (Some "10") (Some "txt") (Some "filesystem-v2:1")).
  set (item := ChatHubKnowledgeItem.make "uuid-0" "attachment" "user-1" (Some stored)).
  exact (createKnowledgeItem_compensates (Demo.env Demo.insertAndDeleteFail)
           Demo.empty
           (Demo.tick Demo.empty)
           (Demo.tick (Demo.tick Demo.empty))
           (Demo.tick (Demo.tick (Demo.tick Demo.empty)))
           (Demo.tick (Demo.tick (Demo.tick (Demo.tick Demo.empty))))
           (User.make "user-1") Demo.note "uuid-0" stored Demo.unavailable
           [Ev (EntityManager_insert item) (Thrown Demo.unavailable)]
           (Thrown Demo.unavailable)
           [Ev (BinaryDataService_deleteManyByBinaryDataId ["filesystem-v2:1"])
               (Thrown Demo.unavailable)]
           eq_refl Hsize eq_refl
           (repository_createKnowledgeItem_insert_fails
              (Demo.env Demo.insertAndDeleteFail) _ _ item Demo.unavailable eq_refl)
           eq_refl).
Defined.

Lemma getDataUrl_wraps_payload_witness :
  startsWith (IBinaryData.data Demo.inlineUntyped) "data:" = false /\
  exists mimeType,
    run (Demo.env Demo.healthy) (getDataUrl Demo.inlineUntyped) Demo.empty
    = (Returned ("data:" ++ mimeType ++ ";base64," ++ "10"),
       [Ev (BinaryDataService_getAsBuffer Demo.inlineUntyped) (Returned 10)],
       Demo.tick Demo.empty) /\
    (forall m, IBinaryData.mimeType Demo.inlineUntyped = Some m -> m <> "" ->
               mimeType = m) /\
    (IBinaryData.mimeType Demo.inlineUntyped = None \/
     IBinaryData.mimeType Demo.inlineUntyped = Some "" ->
     mimeType = "application/octet-stream").
Proof.
  split; [reflexivity|].
  exact (getDataUrl_wraps_payload (Demo.env Demo.healthy) Demo.empty
           (Demo.tick Demo.empty) Demo.inlineUntyped 10 eq_refl eq_refl).
Defined.

Lemma retrieval_prefers_external_id_witness :
  let r := run (Demo.env Demo.healthy) (retrieve (ofMessage "s-1" "m-1" 0))
             (Demo.holding Demo.external) in
  truthy (IBinaryData.data Demo.external) = true /\
  (forall binaryData answered,
      ~ In (Ev (BinaryDataService_getAsBuffer binaryData) answered) (events r)) /\
  r = (Returned (Demo.external, stream_ "stream of filesystem-v2:0" 10),
       [Ev (MessageRepository_getOneById "m-1" "s-1")
           (Returned (Some (ChatHubMessage.make (Some [Demo.external]))));
        Ev (BinaryDataService_getMetadata "filesystem-v2:0")
           (Returned (Metadata.make 10));
        Ev (BinaryDataService_getAsStream "filesystem-v2:0")
           (Returned "stream of filesystem-v2:0")],
       Demo.tick (Demo.tick (Demo.tick (Demo.holding Demo.external)))).
Proof.
  cbv zeta. split; [reflexivity|].
  destruct (retrieval_prefers_external_id _ _ _ _ _ _ "filesystem-v2:0"
              (resolves_demo_message Demo.external) eq_refl eq_refl eq_refl)
    as (Hnone & _ & Hstream).
  split; [exact Hnone|].
  exact (Hstream (Metadata.make 10) "stream of filesystem-v2:0" _ _ eq_refl eq_refl).
Defined.

Lemma fileExtension_of_stored_record_witness :
  exists forMessage forItem,
    events (run (Demo.env Demo.healthy)
              (processMessageAttachment "s-1" "m-1" Demo.readme 7) Demo.empty)
    = [Ev (BinaryDataService_store
             (FileLocation.ofCustom "chat_message_attachment"
                ["chat-hub"; "sessions"; "s-1"; "messages"; "m-1"] "m-1")
             7 forMessage)
          (fst (answer (Demo.env Demo.healthy)
                  (BinaryDataService_store
                     (FileLocation.ofCustom "chat_message_attachment"
                        ["chat-hub"; "sessions"; "s-1"; "messages"; "m-1"] "m-1")
                     7 forMessage)
                  Demo.empty))] /\
    IBinaryData.fileExtension forMessage = Some "README" /\
    IBinaryData.fileExtension forItem = Some "README".
Proof.
  destruct (@fileExtension_of_stored_record Demo.platform
              "s-1" "m-1" "ki-1" Demo.readme 7)
    as (forMessage & forItem & messageLocation & itemLocation
        & Hmessage & _ & _ & _ & Hext & _).
  exists forMessage, forItem.
  assert (Hdot : dotless "README").
  { unfold dotless. simpl. intros [H|[H|[H|[H|[H|[H|[]]]]]]]; discriminate H. }
  destruct (Hext "README" eq_refl Hdot) as [H1 H2].
  split; [|split; assumption].
  injection Hmessage as Hloc Hrec. subst forMessage. reflexivity.
Defined.

(** ** The further properties at work on the concrete platform *)

Lemma getMessageAttachment_not_found_witness :
  run (Demo.env Demo.healthy) (getMessageAttachment "s-1" "m-1" 0) Demo.empty
  = (Thrown (NotFoundError "Message not found"),
     [Ev (MessageRepository_getOneById "m-1" "s-1") (Returned None)],
     Demo.tick Demo.empty) /\
  run (Demo.env Demo.healthy) (getMessageAttachment "s-1" "m-1" 1)
    (Demo.holding Demo.external)
  = (Thrown (NotFoundError "Attachment not found"),
     [Ev (MessageRepository_getOneById "m-1" "s-1")
         (Returned (Some (ChatHubMessage.make (Some [Demo.external]))))],
     Demo.tick (Demo.holding Demo.external)).
Proof.
  split.
  - exact (proj1 (getMessageAttachment_not_found (Demo.env Demo.healthy)
                    Demo.empty (Demo.tick Demo.empty) "s-1" "m-1" 0 None eq_refl)
             eq_refl).
  - refine (proj2 (getMessageAttachment_not_found (Demo.env Demo.healthy)
                     (Demo.holding Demo.external)
                     (Demo.tick (Demo.holding Demo.external)) "s-1" "m-1" 1
                     (Some (ChatHubMessage.make (Some [Demo.external]))) eq_refl)
              (ChatHubMessage.make (Some [Demo.external])) eq_refl _).
    right. exists [Demo.external]. split; [reflexivity|].
    right. intro H. discriminate H.
Defined.

Lemma getKnowledgeItemAttachment_not_found_witness :
  run (Demo.env Demo.healthy) (getKnowledgeItemAttachment "ki-9") Demo.empty
  = (Thrown (NotFoundError "Knowledge item attachment not found"),
     [Ev (KnowledgeItemRepository_findOne "ki-9") (Returned None)],
     Demo.tick Demo.empty).
Proof.
  exact (getKnowledgeItemAttachment_not_found (Demo.env Demo.healthy)
           Demo.empty (Demo.tick Demo.empty) "ki-9" None eq_refl
           (or_introl eq_refl)).
Defined.

Lemma retrieval_passes_rejections_on_witness :
  run (Demo.env Archive.metadataFails) (retrieve (ofMessage "s-1" "m-1" 0))
    (Demo.holding Demo.external)
  = (Thrown Demo.unavailable,
     [Ev (MessageRepository_getOneById "m-1" "s-1")
         (Returned (Some (ChatHubMessage.make (Some [Demo.external]))));
      Ev (BinaryDataService_getMetadata "filesystem-v2:0") (Thrown Demo.unavailable)],
     Demo.tick (Demo.tick (Demo.holding Demo.external))).
Proof.
  assert (Hres : Resolves (Demo.env Archive.metadataFails) (ofMessage "s-1" "m-1" 0)
                   (Demo.holding Demo.external) Demo.external
                   (Demo.tick (Demo.holding Demo.external))
                   (Ev (MessageRepository_getOneById "m-1" "s-1")
                       (Returned (Some (ChatHubMessage.make (Some [Demo.external])))))).
  { apply resolves_message; reflexivity. }
  exact (proj1 (retrieval_passes_rejections_on _ _ _ _ _ _ Hres)
           "filesystem-v2:0" Demo.unavailable _ eq_refl eq_refl eq_refl).
Defined.

Lemma deleteAttachments_one_batched_call_witness :
  externalIds [Demo.external; Demo.inline; Archive.second]
  = (externalIds [Demo.external] ++ externalIds [Demo.inline; Archive.second])%list /\
  externalIds [Demo.external; Demo.inline; Archive.second]
  = ["filesystem-v2:0"; "filesystem-v2:1"].
Proof.
  split; [|reflexivity].
  exact (proj2 (proj2 (deleteAttachments_one_batched_call (Demo.env Demo.healthy)
                         Demo.empty [Demo.external; Demo.inline; Archive.second]))
           [Demo.external] [Demo.inline; Archive.second] eq_refl).
Defined.

Lemma storeMessageAttachments_returns_iff_witness :
  totalLength [Demo.note; Demo.readme] <= maxTotalSizeBytes /\
  exists records,
    outcome (run (Demo.env Demo.healthy)
               (storeMessageAttachments "s-1" "m-1" [Demo.note; Demo.readme])
               Demo.empty)
    = Returned records.
Proof.
  assert (Hle : totalLength [Demo.note; Demo.readme] <= maxTotalSizeBytes)
    by discriminate.
  split; [exact Hle|].
  apply (proj2 (storeMessageAttachments_returns_iff (Demo.env Demo.healthy) Demo.empty
                  "s-1" "m-1" [Demo.note; Demo.readme])).
  split; [exact Hle|].
  intros ev [<-|[<-|[]]]; reflexivity.
Defined.

Lemma storeKnowledgeItemAttachment_within_limit_witness :
  decodedLength Demo.note <= maxKnowledgeItemSizeBytes /\
  run (Demo.env Demo.healthy) (storeKnowledgeItemAttachment "ki-1" Demo.note) Demo.empty
  = (Returned
       (IBinaryData.make "filesystem-v2" (Some "text/plain") (Some "notes.txt")
          (Some "10") (Some "txt") (Some "filesystem-v2:0")),
     [Ev (knowledgeItemStoreCall "ki-1" Demo.note)
         (Returned
            (IBinaryData.make "filesystem-v2" (Some "text/plain") (Some "notes.txt")
               (Some "10") (Some "txt") (Some "filesystem-v2:0")))],
     Demo.tick Demo.empty).
Proof.
  assert (Hle : decodedLength Demo.note <= maxKnowledgeItemSizeBytes) by discriminate.
  split; [exact Hle|].
  exact (proj2 (storeKnowledgeItemAttachment_within_limit (Demo.env Demo.healthy)
                  Demo.empty "ki-1" Demo.note) Hle).
Defined.

Lemma stored_record_describes_payload_witness :
  exists forMessage size,
    processMessageAttachment "s-1" "m-1" Demo.note 10
    = await (BinaryDataService_store
               (FileLocation.ofCustom "chat_message_attachment"
                  ["chat-hub"; "sessions"; "s-1"; "messages"; "m-1"] "m-1")
               10 forMessage) /\
    IBinaryData.fileSize forMessage = Some size /\
    parseSize size = Some 10.
Proof.
  destruct (@stored_record_describes_payload Demo.platform
              "s-1" "m-1" "ki-1" Demo.note 10)
    as (forMessage & forItem & Hmessage & _ & Hfields).
  destruct (Hfields forMessage (or_introl eq_refl)) as (_ & _ & _ & size & Hsize & Hparse).
  exists forMessage, size. split; [exact Hmessage|]. split; [exact Hsize|exact Hparse].
Defined.

Lemma fileExtension_is_dotless_suffix_witness :
  sanitizeFilename (ChatAttachment.fileName Demo.note) = Some "notes.txt" /\
  exists forMessage forItem messageLocation itemLocation ext,
    processMessageAttachment "s-1" "m-1" Demo.note 10
    = await (BinaryDataService_store messageLocation 10 forMessage) /\
    processKnowledgeItemAttachment "ki-1" Demo.note 10
    = await (BinaryDataService_store itemLocation 10 forItem) /\
    IBinaryData.fileExtension forMessage = Some ext /\
    IBinaryData.fileExtension forItem = Some ext /\
    dotless ext /\
    ("notes.txt" = ext \/ exists stem, "notes.txt" = stem ++ "." ++ ext).
Proof.
  split; [reflexivity|].
  exact (@fileExtension_is_dotless_suffix Demo.platform
           "s-1" "m-1" "ki-1" Demo.note 10 "notes.txt" eq_refl).
Defined.


Lemma createKnowledgeItem_stores_then_inserts_witness :
  run (Demo.env Demo.healthy)
    (createKnowledgeItem (User.make "user-1") (Some Demo.note)) Demo.empty
  = (Returned (ChatHubKnowledgeItem.make "uuid-0" "attachment" "user-1" None),
     [EvUuid "uuid-0";
      Ev (knowledgeItemStoreCall "uuid-0" Demo.note)
         (Returned
            (IBinaryData.make "filesystem-v2" (Some "text/plain") (Some "notes.txt")
               (Some "10") (Some "txt") (Some "filesystem-v2:1")));
      Ev (EntityManager_insert
            (newRow "uuid-0" (User.make "user-1")
               (Some
                  (IBinaryData.make "filesystem-v2" (Some "text/plain")
                     (Some "notes.txt") (Some "10") (Some "txt")
                     (Some "filesystem-v2:1")))))
         (Returned tt);
      Ev (EntityManager_findOneOrFail "uuid-0")
         (Returned (ChatHubKnowledgeItem.make "uuid-0" "attachment" "user-1" None));
      EvLog LogDebug "Knowledge item created: uuid-0 by user user-1"],
     Demo.tick (Demo.tick (Demo.tick (Demo.tick Demo.empty)))).
Proof.
  assert (Hsize : decodedLength Demo.note <= maxKnowledgeItemSizeBytes) by discriminate.
  exact (createKnowledgeItem_stores_then_inserts (Demo.env Demo.healthy)
           Demo.empty
           (Demo.tick Demo.empty)
           (Demo.tick (Demo.tick Demo.empty))
           (Demo.tick (Demo.tick (Demo.tick Demo.empty)))
           (Demo.tick (Demo.tick (Demo.tick (Demo.tick Demo.empty))))
           (User.make "user-1") Demo.note "uuid-0"
           (IBinaryData.make "filesystem-v2" (Some "text/plain") (Some "notes.txt")
              (Some "10") (Some "txt") (Some "filesystem-v2:1"))
           (ChatHubKnowledgeItem.make "uuid-0" "attachment" "user-1" None)
           eq_refl Hsize eq_refl eq_refl eq_refl).
Defined.

Lemma createKnowledgeItem_without_attachment_witness :
  run (Demo.env Demo.insertFails) (createKnowledgeItem (User.make "user-1") None)
    Demo.empty
  = (Thrown Demo.unavailable,
     [EvUuid "uuid-0";
      Ev (EntityManager_insert (newRow "uuid-0" (User.make "user-1") None))
         (Thrown Demo.unavailable)],
     Demo.tick (Demo.tick Demo.empty)).
Proof.
  exact (proj1 (createKnowledgeItem_without_attachment (Demo.env Demo.insertFails)
                  Demo.empty (Demo.tick Demo.empty) (Demo.tick (Demo.tick Demo.empty))
                  (User.make "user-1") "uuid-0" (Thrown Demo.unavailable)
                  [Ev (EntityManager_insert (newRow "uuid-0" (User.make "user-1") None))
                      (Thrown Demo.unavailable)]
                  eq_refl eq_refl)).
Defined.

Lemma createKnowledgeItem_refuses_oversized_witness :
  maxKnowledgeItemSizeBytes < decodedLength Demo.MiB60 /\
  run (Demo.env Demo.healthy)
    (createKnowledgeItem (User.make "user-1") (Some Demo.MiB60)) Demo.empty
  = (Thrown (BadRequestError
               "Knowledge item attachment exceeds maximum size of 50 MB"),
     [EvUuid "uuid-0"], Demo.tick Demo.empty).
Proof.
  split; [reflexivity|].
  exact (createKnowledgeItem_refuses_oversized (Demo.env Demo.healthy)
           Demo.empty (Demo.tick Demo.empty) (User.make "user-1") Demo.MiB60 "uuid-0"
           eq_refl eq_refl).
Defined.

Lemma createKnowledgeItem_store_rejected_witness :
  run (Demo.env Archive.storeFails)
    (createKnowledgeItem (User.make "user-1") (Some Demo.note)) Demo.empty
  = (Thrown Demo.unavailable,
     [EvUuid "uuid-0";
      Ev (knowledgeItemStoreCall "uuid-0" Demo.note) (Thrown Demo.unavailable)],
     Demo.tick (Demo.tick Demo.empty)).
Proof.
  assert (Hsize : decodedLength Demo.note <= maxKnowledgeItemSizeBytes) by discriminate.
  exact (createKnowledgeItem_store_rejected (Demo.env Archive.storeFails)
           Demo.empty (Demo.tick Demo.empty) (Demo.tick (Demo.tick Demo.empty))
           (User.make "user-1") Demo.note "uuid-0" Demo.unavailable
           eq_refl Hsize eq_refl).
Defined.


Lemma deleteKnowledgeItemAttachmentById_guarded_witness :
  perform (Archive.backend Demo.healthy Archive.willing)
    (deleteKnowledgeItemAttachmentById "ki-3" None) Archive.shelf
  = (Returned tt,
     [queried (EntityManager_findOne_attachment defaultManager "ki-3")
        (Returned (Some Archive.bare))],
     Archive.tick Archive.shelf) /\
  perform (Archive.backend Demo.healthy Archive.willing)
    (deleteKnowledgeItemAttachmentById "ki-1" (Some (transactionManager "trx-1")))
    Archive.shelf
  = (Returned tt,
     [queried (EntityManager_findOne_attachment (transactionManager "trx-1") "ki-1")
        (Returned (Some Archive.manual));
      did (Ev (BinaryDataService_deleteManyByBinaryDataId ["filesystem-v2:0"])
              (Returned tt))],
     Archive.tick (Archive.tick Archive.shelf)).
Proof.
  split.
  - refine (proj1 (deleteKnowledgeItemAttachmentById_guarded
                     (Archive.backend Demo.healthy Archive.willing)
                     Archive.shelf (Archive.tick Archive.shelf) "ki-3" None
                     (Some Archive.bare) eq_refl) _).
    right. exists Archive.bare. split; reflexivity.
  - exact (proj2 (deleteKnowledgeItemAttachmentById_guarded
                    (Archive.backend Demo.healthy Archive.willing)
                    Archive.shelf (Archive.tick Archive.shelf) "ki-1"
                    (Some (transactionManager "trx-1"))
                    (Some Archive.manual) eq_refl)
             Archive.manual Demo.external eq_refl eq_refl).
Defined.

Lemma message_sweeps_delete_in_one_batch_witness :
  perform (Archive.backend Demo.healthy Archive.willing)
    (deleteAllMessageAttachmentsBySessionId "s-1" None) Archive.shelf
  = (Returned tt,
     [queried (MessageRepository_getManyBySessionId "s-1" None)
        (Returned (Archive.messages Archive.shelf));
      did (Ev (BinaryDataService_deleteManyByBinaryDataId
                 ["filesystem-v2:0"; "filesystem-v2:1"])
              (Returned tt))],
     Archive.tick (Archive.tick Archive.shelf)) /\
  perform (Archive.backend Demo.healthy Archive.lookupRefused)
    (deleteAllMessageAttachmentsBySessionId "s-1" None) Archive.shelf
  = (Thrown Demo.unavailable,
     [queried (MessageRepository_getManyBySessionId "s-1" None)
        (Thrown Demo.unavailable)],
     Archive.tick Archive.shelf).
Proof.
  split.
  - exact (proj1 (message_sweeps_delete_in_one_batch
                    (Archive.backend Demo.healthy Archive.willing)
                    Archive.shelf (Archive.tick Archive.shelf))
             "s-1" None (Returned (Archive.messages Archive.shelf)) eq_refl).
  - exact (proj1 (message_sweeps_delete_in_one_batch
                    (Archive.backend Demo.healthy Archive.lookupRefused)
                    Archive.shelf (Archive.tick Archive.shelf))
             "s-1" None (Thrown Demo.unavailable) eq_refl).
Defined.

Lemma knowledgeItem_sweep_deletes_in_one_batch_witness :
  perform (Archive.backend Demo.healthy Archive.willing)
    deleteAllKnowledgeItemAttachments Archive.shelf
  = (Returned tt,
     [queried KnowledgeItemRepository_find_attachmentNotNull
        (Returned [Archive.manual; Archive.sketch]);
      did (Ev (BinaryDataService_deleteManyByBinaryDataId ["filesystem-v2:0"])
              (Returned tt))],
     Archive.tick (Archive.tick Archive.shelf)).
Proof.
  exact (knowledgeItem_sweep_deletes_in_one_batch
           (Archive.backend Demo.healthy Archive.willing)
           Archive.shelf (Archive.tick Archive.shelf)
           (Returned [Archive.manual; Archive.sketch]) eq_refl).
Defined.

Lemma knowledgeItem_lookup_is_owner_scoped_witness :
  perform (Archive.backend Demo.healthy Archive.willing)
    (deleteKnowledgeItem "ki-1" "user-2") Archive.shelf
  = (Thrown (NotFoundError "Knowledge item not found"),
     [queried (EntityManager_findOne_owned defaultManager "ki-1" "user-2")
        (Returned None)],
     Archive.tick Archive.shelf) /\
  perform (Archive.backend Demo.healthy Archive.willing)
    (getKnowledgeItemById "ki-1" "user-1") Archive.shelf
  = (Returned Archive.manual,
     [queried (EntityManager_findOne_owned defaultManager "ki-1" "user-1")
        (Returned (Some Archive.manual))],
     Archive.tick Archive.shelf).
Proof.
  split.
  - exact (proj2 (proj1 (knowledgeItem_lookup_is_owner_scoped
                           (Archive.backend Demo.healthy Archive.willing)
                           Archive.shelf (Archive.tick Archive.shelf)
                           "ki-1" "user-2" None eq_refl)
                    eq_refl)).
  - exact (proj2 (knowledgeItem_lookup_is_owner_scoped
                    (Archive.backend Demo.healthy Archive.willing)
                    Archive.shelf (Archive.tick Archive.shelf)
                    "ki-1" "user-1" (Some Archive.manual) eq_refl)
             Archive.manual eq_refl).
Defined.

Lemma deleteKnowledgeItem_file_before_row_witness :
  perform (Archive.backend Demo.deleteFails Archive.willing)
    (deleteKnowledgeItem "ki-1" "user-1") Archive.shelf
  = (Thrown Demo.unavailable,
     [queried (EntityManager_findOne_owned defaultManager "ki-1" "user-1")
        (Returned (Some Archive.manual));
      queried (EntityManager_findOne_attachment defaultManager "ki-1")
        (Returned (Some Archive.manual));
      did (Ev (BinaryDataService_deleteManyByBinaryDataId ["filesystem-v2:0"])
              (Thrown Demo.unavailable))],
     Archive.tick (Archive.tick (Archive.tick Archive.shelf))) /\
  exists gone,
    perform (Archive.backend Demo.healthy Archive.willing)
      (deleteKnowledgeItem "ki-1" "user-1") Archive.shelf
    = (Returned tt,
       [queried (EntityManager_findOne_owned defaultManager "ki-1" "user-1")
          (Returned (Some Archive.manual));
        queried (EntityManager_findOne_attachment defaultManager "ki-1")
          (Returned (Some Archive.manual));
        did (Ev (BinaryDataService_deleteManyByBinaryDataId ["filesystem-v2:0"])
                (Returned tt));
        queried (EntityManager_delete defaultManager "ki-1")
          (Returned (DeleteResult.make (Some 1)));
        did (EvLog LogDebug "Knowledge item deleted: ki-1 by user user-1")],
       gone) /\
    Archive.items gone = [Archive.sketch; Archive.bare].
Proof.
  split.
  - exact (proj1 (deleteKnowledgeItem_file_before_row
                    (Archive.backend Demo.deleteFails Archive.willing)
                    Archive.shelf (Archive.tick Archive.shelf)
                    (Archive.tick (Archive.tick (Archive.tick Archive.shelf)))
                    "ki-1" "user-1" Archive.manual
                    [queried (EntityManager_findOne_attachment defaultManager "ki-1")
                       (Returned (Some Archive.manual));
                     did (Ev (BinaryDataService_deleteManyByBinaryDataId
                                ["filesystem-v2:0"])
                             (Thrown Demo.unavailable))]
                    eq_refl)
             Demo.unavailable eq_refl).
  - eexists. split.
    + exact (proj2 (deleteKnowledgeItem_file_before_row
                      (Archive.backend Demo.healthy Archive.willing)
                      Archive.shelf (Archive.tick Archive.shelf)
                      (Archive.tick (Archive.tick (Archive.tick Archive.shelf)))
                      "ki-1" "user-1" Archive.manual
                      [queried (EntityManager_findOne_attachment defaultManager "ki-1")
                         (Returned (Some Archive.manual));
                       did (Ev (BinaryDataService_deleteManyByBinaryDataId
                                  ["filesystem-v2:0"])
                               (Returned tt))]
                      eq_refl)
               (Returned (DeleteResult.make (Some 1))) _ eq_refl eq_refl).
    + reflexivity.
Defined.

Lemma getManyByIdsAndUserId_scopes_every_id_witness :
  ["ki-1"; "ki-2"] <> [] /\
  exists clauses,
    perform (Archive.backend Demo.healthy Archive.willing)
      (repository_getManyByIdsAndUserId ["ki-1"; "ki-2"] "user-1" None) Archive.shelf
    = (Returned [Archive.manual],
       [queried (EntityManager_find_owned defaultManager clauses)
          (Returned [Archive.manual])],
       Archive.tick Archive.shelf) /\
    clauses = [("ki-1", "user-1"); ("ki-2", "user-1")].
Proof.
  assert (Hne : ["ki-1"; "ki-2"] <> @nil string) by discriminate.
  split; [exact Hne|].
  destruct (proj2 (getManyByIdsAndUserId_scopes_every_id
                     (Archive.backend Demo.healthy Archive.willing)
                     Archive.shelf "user-1" None) ["ki-1"; "ki-2"] Hne)
    as (clauses & Hrun & _ & Hids & Howner).
  exists clauses.
  assert (Hclauses : clauses = [("ki-1", "user-1"); ("ki-2", "user-1")]).
  { destruct clauses as [|[i1 o1] [|[i2 o2] [|c3 rest]]]; try discriminate Hids.
    injection Hids as -> ->.
    pose proof (Howner ("ki-1", o1) (or_introl eq_refl)) as H1.
    pose proof (Howner ("ki-2", o2) (or_intror (or_introl eq_refl))) as H2.
    simpl in H1, H2. rewrite H1, H2. reflexivity. }
  split; [|exact Hclauses].
  rewrite Hrun, Hclauses. reflexivity.
Defined.

Lemma message_path_has_no_per_file_cap_witness :
  maxKnowledgeItemSizeBytes < decodedLength Demo.MiB100 /\
  decodedLength Demo.MiB100 <= maxTotalSizeBytes /\
  outcome (run (Demo.env Demo.healthy)
             (storeMessageAttachments "s-1" "m-1" [Demo.MiB100]) Demo.empty)
  = Returned
      [IBinaryData.make "filesystem-v2" (Some "video/mp4") (Some "first.mp4")
         (Some "104857600") (Some "mp4") (Some "filesystem-v2:0")] /\
  outcome (run (Demo.env Demo.healthy)
             (storeKnowledgeItemAttachment "ki-1" Demo.MiB100) Demo.empty)
  = Thrown (BadRequestError "Knowledge item attachment exceeds maximum size of 50 MB").
Proof.
  assert (Hover : maxKnowledgeItemSizeBytes < decodedLength Demo.MiB100) by reflexivity.
  assert (Hunder : decodedLength Demo.MiB100 <= maxTotalSizeBytes) by discriminate.
  split; [exact Hover|]. split; [exact Hunder|].
  destruct (message_path_has_no_per_file_cap (Demo.env Demo.healthy) Demo.empty
              "s-1" "m-1" "ki-1" Demo.MiB100 Hover Hunder) as [Hmessage Hitem].
  split; [rewrite Hmessage|rewrite Hitem]; reflexivity.
Defined.

Lemma toggleItem_flips_one_witness :
  NoDup ["ki-1"; "ki-2"] /\
  isSelected (toggleItem ["ki-1"; "ki-2"] "ki-2") "ki-2" = false /\
  isSelected (toggleItem ["ki-1"; "ki-2"] "ki-2") "ki-1" = true /\
  S (selectedCount (toggleItem ["ki-1"; "ki-2"] "ki-2")) = selectedCount ["ki-1"; "ki-2"].
Proof.
  assert (Hnd : NoDup ["ki-1"; "ki-2"]).
  { apply NoDup_cons; [intros [H|[]]; discriminate H|].
    apply NoDup_cons; [intros []|]. apply NoDup_nil. }
  split; [exact Hnd|].
  split; [exact (proj1 (toggleItem_flips_one ["ki-1"; "ki-2"] "ki-2") "ki-2")|].
  split; [exact (proj1 (toggleItem_flips_one ["ki-1"; "ki-2"] "ki-2") "ki-1")|].
  exact (proj2 (proj2 (toggleItem_flips_one ["ki-1"; "ki-2"] "ki-2") Hnd)).
Defined.

Lemma toggleItem_twice_restores_witness :
  NoDup ["ki-1"; "ki-2"] /\
  selectedCount (toggleItem (toggleItem ["ki-1"; "ki-2"] "ki-1") "ki-1")
  = selectedCount ["ki-1"; "ki-2"] /\
  handleConfirm [Desk.card "ki-1"; Desk.card "ki-2"; Desk.card "ki-3"]
    (toggleItem (toggleItem ["ki-1"; "ki-2"] "ki-1") "ki-1")
  = [onConfirm [Desk.card "ki-1"; Desk.card "ki-2"]; emitClose].
Proof.
  assert (Hnd : NoDup ["ki-1"; "ki-2"]).
  { apply NoDup_cons; [intros [H|[]]; discriminate H|].
    apply NoDup_cons; [intros []|]. apply NoDup_nil. }
  split; [exact Hnd|]. split.
  - exact (proj1 (proj2 (toggleItem_twice_restores ["ki-1"; "ki-2"] "ki-1")) Hnd).
  - exact (proj2 (proj2 (toggleItem_twice_restores ["ki-1"; "ki-2"] "ki-1"))
             [Desk.card "ki-1"; Desk.card "ki-2"; Desk.card "ki-3"]).
Defined.

Lemma confirm_returns_initial_selection_witness :
  NoDup (map ChatHubKnowledgeItemDto.id
           [Desk.card "ki-1"; Desk.card "ki-2"; Desk.card "ki-3"]) /\
  handleConfirm [Desk.card "ki-1"; Desk.card "ki-2"; Desk.card "ki-3"]
    (selectedIdsOf [Desk.card "ki-1"; Desk.card "ki-3"])
  = [onConfirm [Desk.card "ki-1"; Desk.card "ki-3"]; emitClose].
Proof.
  assert (Hnd : NoDup (map ChatHubKnowledgeItemDto.id
                         [Desk.card "ki-1"; Desk.card "ki-2"; Desk.card "ki-3"])).
  { apply NoDup_cons; [intros [H|[H|[]]]; discriminate H|].
    apply NoDup_cons; [intros [H|[]]; discriminate H|].
    apply NoDup_cons; [intros []|]. apply NoDup_nil. }
  split; [exact Hnd|].
  exact (confirm_returns_initial_selection
           [Desk.card "ki-1"; Desk.card "ki-2"; Desk.card "ki-3"]
           (fun item => negb (ChatHubKnowledgeItemDto.id item =? "ki-2")%string) Hnd).
Defined.



Lemma handleDeleteItem_asks_first_witness :
  runUi (Desk.answers Desk.reliable) (handleDeleteItem Desk.MODAL_CONFIRM "ki-1")
    Desk.listed 0%nat
  = (Returned tt,
     [UiEv (message_confirm "Are you sure you want to delete this knowledge item?"
              "Delete Knowledge Item" "Delete" "Cancel") (Returned "confirm");
      UiEv (deleteKnowledgeItemApi "ki-1") (Returned tt);
      UiShown (toast_showMessage "success" "Knowledge item deleted")],
     View.make [Desk.card "ki-2"] false false,
     2%nat) /\
  runUi (Desk.answers Desk.offline) (handleDeleteItem Desk.MODAL_CONFIRM "ki-1")
    Desk.listed 0%nat
  = (Returned tt,
     [UiEv (message_confirm "Are you sure you want to delete this knowledge item?"
              "Delete Knowledge Item" "Delete" "Cancel") (Returned "confirm");
      UiEv (deleteKnowledgeItemApi "ki-1") (Thrown Demo.unavailable);
      UiShown (toast_showError Demo.unavailable "Failed to delete knowledge item")],
     Desk.listed,
     2%nat) /\
  runUi (Desk.answers Desk.reliable) (handleDeleteItem "ok" "ki-1") Desk.listed 0%nat
  = (Returned tt,
     [UiEv (message_confirm "Are you sure you want to delete this knowledge item?"
              "Delete Knowledge Item" "Delete" "Cancel") (Returned "confirm")],
     Desk.listed,
     1%nat).
Proof.
  split; [|split].
  - exact (proj2 (proj2 (handleDeleteItem_asks_first (Desk.answers Desk.reliable)
                           Desk.MODAL_CONFIRM "ki-1" Desk.listed 0%nat 1%nat
                           (Returned "confirm") eq_refl))
             (Returned tt) 2%nat eq_refl eq_refl).
  - exact (proj2 (proj2 (handleDeleteItem_asks_first (Desk.answers Desk.offline)
                           Desk.MODAL_CONFIRM "ki-1" Desk.listed 0%nat 1%nat
                           (Returned "confirm") eq_refl))
             (Thrown Demo.unavailable) 2%nat eq_refl eq_refl).
  - refine (proj1 (proj2 (handleDeleteItem_asks_first (Desk.answers Desk.reliable)
                            "ok" "ki-1" Desk.listed 0%nat 1%nat
                            (Returned "confirm") eq_refl))
              "confirm" eq_refl _).
    intro H. discriminate H.
Defined.

Lemma loadKnowledgeItems_settles_witness :
  runUi (Desk.answers Desk.offline) loadKnowledgeItems
    (View.make [Desk.card "ki-9"] false false) 0%nat
  = (Returned tt,
     [UiEv fetchKnowledgeItemsApi (Thrown Demo.unavailable);
      UiShown (toast_showError Demo.unavailable "Failed to load knowledge items")],
     View.make [Desk.card "ki-9"] false false,
     1%nat) /\
  runUi (Desk.answers Desk.reliable) loadKnowledgeItems
    (View.make [Desk.card "ki-9"] false false) 0%nat
  = (Returned tt,
     [UiEv fetchKnowledgeItemsApi (Returned [Desk.card "ki-1"; Desk.card "ki-2"])],
     Desk.listed,
     1%nat).
Proof.
  split.
  - exact (loadKnowledgeItems_settles (Desk.answers Desk.offline)
             (View.make [Desk.card "ki-9"] false false) 0%nat 1%nat
             (Thrown Demo.unavailable) eq_refl).
  - exact (loadKnowledgeItems_settles (Desk.answers Desk.reliable)
             (View.make [Desk.card "ki-9"] false false) 0%nat 1%nat
             (Returned [Desk.card "ki-1"; Desk.card "ki-2"]) eq_refl).
Defined.
